(** * Cloud Security Posture Scanner: scan orchestration and risk scoring

    A shallow embedding of

      - [cspm_scanner/models.py]         (modules [Models], [EnumLookup]),
      - [cspm_scanner/risk_scoring.py]   (modules [RiskScoring],
                                          [RiskSummary]),
      - [cspm_scanner/scanner_engine.py] (modules [Engine], [EngineApi]),
      - [cspm_scanner/scanners/base_scanner.py] (module [BaseScanner]),
      - [cspm_scanner/reports/json_reporter.py] (module [JsonReporter]),
      - the labels of [cspm_scanner/cli.py]     (module [Cli]),

    followed by the properties established about them.

    Modelling conventions.

    - Python [int] is [Z].  In the scoring engine a Python [float] is
      idealised as an exact rational ([Q]): each float computation of
      the scoring engine is a quotient of two integers scaled by a
      constant.  The result about the overall score only uses that these
      operations are monotone; the trend is rounded to two decimals and
      compared with 5 and -5, which absorbs the representation error of
      the quotient.
    - In the base scanner and in the reporter a float is an IEEE-754
      double (module [PyFloat]): there a product is truncated and a mean
      is rounded to two decimals, and the rounding of the double decides
      the result.
    - A Python [dict] is an association list in insertion order
      (section [PyDict]); [Counter] is built on it.
    - [sorted] is a stable sort; it is embedded as a stable insertion sort
      (section [PySorted]), which computes the unique stable sorted
      arrangement of its input.
    - The orchestrator is effectful: it calls the access check, the
      subscription directory and the scanners, prints, and catches
      exceptions.  It is embedded in a state-and-exception monad whose
      state is the trace of external calls made so far. *)

From Stdlib Require Import ZArith QArith Qround Qminmax Qabs Qpower Lqa.
From Stdlib Require Import List String Bool Lia.
From Stdlib Require Import Permutation Sorted DecimalString Ascii.
Import ListNotations.

Local Open Scope Z_scope.

(* ===================================================================== *)
(** ** Python primitives *)
(* ===================================================================== *)

Section PyDict.
Context {K V : Type} (eqb : K -> K -> bool).

(** [d.get(k, default)] *)
Fixpoint dict_get (d : list (K * V)) (k : K) (default : V) : V :=
  match d with
  | [] => default
  | (k', v) :: rest => if eqb k' k then v else dict_get rest k default
  end.

(** [k in d] *)
Fixpoint dict_mem (d : list (K * V)) (k : K) : bool :=
  match d with
  | [] => false
  | (k', _) :: rest => eqb k' k || dict_mem rest k
  end.

(** [d[k] = v]: an existing key keeps its position, a new key is
    appended. *)
Fixpoint dict_set (d : list (K * V)) (k : K) (v : V) : list (K * V) :=
  match d with
  | [] => [(k, v)]
  | (k', v') :: rest =>
      if eqb k' k then (k', v) :: rest else (k', v') :: dict_set rest k v
  end.

(** [d.update(other)] *)
Definition dict_update (d other : list (K * V)) : list (K * V) :=
  fold_left (fun acc kv => dict_set acc (fst kv) (snd kv)) other d.

Definition dict_keys (d : list (K * V)) : list K := map fst d.
Definition dict_values (d : list (K * V)) : list V := map snd d.
End PyDict.

Section PySorted.
Context {A K : Type} (key : A -> K) (leb : K -> K -> bool).

(** Insertion in front of the first element whose key is not smaller:
    an element never overtakes an earlier element with an equal key. *)
Fixpoint insert_stable (x : A) (l : list A) : list A :=
  match l with
  | [] => [x]
  | y :: rest =>
      if leb (key x) (key y) then x :: y :: rest
      else y :: insert_stable x rest
  end.

(** [sorted(l, key=key)] for the order [leb] on keys. *)
Definition sorted (l : list A) : list A :=
  fold_right insert_stable [] l.
End PySorted.

(** [len(l)] *)
Definition len {A : Type} (l : list A) : Z := Z.of_nat (List.length l).

(** [min(a, b)] on numbers: the first argument unless the second is
    strictly smaller. *)
Definition py_min (a b : Q) : Q := if Qle_bool a b then a else b.

(** [a < b] on floats. *)
Definition py_ltb (a b : Q) : bool := negb (Qle_bool b a).

(** [int(x)] for a float: truncation towards zero. *)
Definition py_int (x : Q) : Z := Z.quot (Qnum x) (Z.pos (Qden x)).

(** [round(x)]: nearest integer, ties to the even one. *)
Definition py_round (x : Q) : Z :=
  let f := Qfloor x in
  match Qcompare (x - inject_Z f) (1 # 2) with
  | Lt => f
  | Gt => f + 1
  | Eq => if Z.even f then f else f + 1
  end.

(** [round(x, 2)]: nearest multiple of 1/100, ties to even. *)
Definition py_round2 (x : Q) : Q := Qmake (py_round (x * 100)) 100.

(* ===================================================================== *)
(** ** models.py *)
(* ===================================================================== *)

Module Models.

(** [class SeverityLevel(str, Enum)], in declaration order. *)
Inductive SeverityLevel : Type :=
| CRITICAL | HIGH | MEDIUM | LOW | INFO.

(** The string value of each member.  Because the enumeration mixes in
    [str], the comparison operators on members are those of [str]. *)
Definition severity_value (s : SeverityLevel) : string :=
  match s with
  | CRITICAL => "critical"
  | HIGH => "high"
  | MEDIUM => "medium"
  | LOW => "low"
  | INFO => "info"
  end.

(** [for severity in SeverityLevel] *)
Definition all_severities : list SeverityLevel :=
  [CRITICAL; HIGH; MEDIUM; LOW; INFO].

Definition severity_eqb (a b : SeverityLevel) : bool :=
  match a, b with
  | CRITICAL, CRITICAL | HIGH, HIGH | MEDIUM, MEDIUM
  | LOW, LOW | INFO, INFO => true
  | _, _ => false
  end.

(** [a > b] on members: string comparison of the values. *)
Definition severity_gt (a b : SeverityLevel) : bool :=
  String.ltb (severity_value b) (severity_value a).

(** [class ResourceType(str, Enum)] *)
Inductive ResourceType : Type :=
| STORAGE_ACCOUNT | NETWORK_SECURITY_GROUP | KEY_VAULT
| VIRTUAL_MACHINE | DISK | DATABRICKS_WORKSPACE.

Definition resource_type_value (r : ResourceType) : string :=
  match r with
  | STORAGE_ACCOUNT => "Microsoft.Storage/storageAccounts"
  | NETWORK_SECURITY_GROUP => "Microsoft.Network/networkSecurityGroups"
  | KEY_VAULT => "Microsoft.KeyVault/vaults"
  | VIRTUAL_MACHINE => "Microsoft.Compute/virtualMachines"
  | DISK => "Microsoft.Compute/disks"
  | DATABRICKS_WORKSPACE => "Microsoft.Databricks/workspaces"
  end.

Definition resource_type_eqb (a b : ResourceType) : bool :=
  match a, b with
  | STORAGE_ACCOUNT, STORAGE_ACCOUNT
  | NETWORK_SECURITY_GROUP, NETWORK_SECURITY_GROUP
  | KEY_VAULT, KEY_VAULT
  | VIRTUAL_MACHINE, VIRTUAL_MACHINE
  | DISK, DISK
  | DATABRICKS_WORKSPACE, DATABRICKS_WORKSPACE => true
  | _, _ => false
  end.

(** [class SecurityFinding(BaseModel)] *)
Module SecurityFinding.
Record t : Type := Build {
  id : string;
  resource_id : string;
  resource_name : string;
  resource_type : ResourceType;
  subscription_id : string;
  resource_group : string;
  location : string;
  title : string;
  description : string;
  severity : SeverityLevel;
  recommendation : string;
  risk_score : Z;                        (* Field(ge=0, le=100) *)
  metadata : list (string * string);
  timestamp : Z
}.
End SecurityFinding.

(** [class ScanResult(BaseModel)] *)
Module ScanResult.
Record t : Type := Build {
  subscription_id : string;
  subscription_name : option string;
  scan_timestamp : Z;
  total_resources_scanned : Z;
  total_findings : Z;
  findings_by_severity : list (SeverityLevel * Z);
  findings : list SecurityFinding.t;
  risk_score : Z;                        (* Field(ge=0, le=100) *)
  scan_duration_seconds : option Q
}.
End ScanResult.

(** [class ScanRequest(BaseModel)] *)
Module ScanRequest.
Record t : Type := Build {
  subscription_id : option string;
  resource_types : option (list ResourceType);
  severity_threshold : SeverityLevel    (* default SeverityLevel.LOW *)
}.
End ScanRequest.

End Models.

Import Models.

(* ===================================================================== *)
(** ** risk_scoring.py *)
(* ===================================================================== *)

Module RiskScoring.

(** [self.severity_weights] *)
Definition severity_weights (s : SeverityLevel) : Z :=
  match s with
  | CRITICAL => 100
  | HIGH => 75
  | MEDIUM => 50
  | LOW => 25
  | INFO => 10
  end.

(** [Counter(iterable)]: keys in order of first occurrence. *)
Definition Counter (l : list SeverityLevel) : list (SeverityLevel * Z) :=
  fold_left
    (fun d s => dict_set severity_eqb d s (dict_get severity_eqb d s 0 + 1))
    l [].

(** The accumulation loop of [calculate_overall_risk_score]: returns
    [(weighted_sum, total_weight)]. *)
Definition accumulate_weights (severity_counts : list (SeverityLevel * Z))
  : Z * Z :=
  fold_left
    (fun acc item =>
       let weight := severity_weights (fst item) in
       (fst acc + weight * snd item, snd acc + weight))
    severity_counts (0, 0).

Definition calculate_overall_risk_score
  (findings : list SecurityFinding.t) : Z :=
  match findings with
  | [] => 0
  | _ :: _ =>
      let severity_counts :=
        Counter (map SecurityFinding.severity findings) in
      let '(weighted_sum, total_weight) :=
        accumulate_weights severity_counts in
      if total_weight =? 0 then 0
      else
        let base_score :=
          (inject_Z weighted_sum / inject_Z total_weight * 100)%Q in
        let density_factor :=
          py_min (3 # 2) (1 + inject_Z (len findings) / 100)%Q in
        let final_score := py_min 100 (base_score * density_factor)%Q in
        py_int final_score
  end.

(** [max(iterable)] on severities: the first maximal element for the
    members' own [>]. *)
Fixpoint max_from (cur : SeverityLevel) (l : list SeverityLevel)
  : SeverityLevel :=
  match l with
  | [] => cur
  | x :: rest => max_from (if severity_gt x cur then x else cur) rest
  end.

Definition calculate_resource_risk_score
  (resource_findings : list SecurityFinding.t) : Z :=
  match resource_findings with
  | [] => 0
  | f :: rest =>
      let highest_severity :=
        max_from (SecurityFinding.severity f)
                 (map SecurityFinding.severity rest) in
      let base_score := severity_weights highest_severity in
      let finding_count_factor :=
        py_min (3 # 2) (1 + inject_Z (len resource_findings) / 10)%Q in
      let final_score :=
        py_min 100 (inject_Z base_score * finding_count_factor)%Q in
      py_int final_score
  end.

Definition get_findings_by_severity (findings : list SecurityFinding.t)
  : list (SeverityLevel * Z) :=
  let severity_counts := Counter (map SecurityFinding.severity findings) in
  let result := map (fun severity => (severity, 0)) all_severities in
  dict_update severity_eqb result severity_counts.

(** The dictionary returned by [calculate_subscription_risk_trend]; the
    two score entries are absent on the early return. *)
Record Trend : Type := {
  trend : Q;
  direction : string;
  current_score : option Z;
  previous_score : option Z
}.

(** [sorted(scan_results, key=lambda x: x.scan_timestamp, reverse=True)]:
    stable for the descending order. *)
Definition sort_recent (scan_results : list ScanResult.t)
  : list ScanResult.t :=
  sorted ScanResult.scan_timestamp (fun a b => b <=? a) scan_results.

Definition direction_of (trend : Q) (current_score previous_score : Z)
  : string :=
  if py_ltb 5 trend then
    (if current_score <? previous_score then "improving" else "degrading")
  else if py_ltb trend (-5) then
    (if previous_score <? current_score then "degrading" else "improving")
  else "stable".

Definition calculate_subscription_risk_trend
  (scan_results : list ScanResult.t) : Trend :=
  if len scan_results <? 2 then
    {| trend := 0; direction := "stable";
       current_score := None; previous_score := None |}
  else
    match sort_recent scan_results with
    | cur :: prev :: _ =>
        let current_score := ScanResult.risk_score cur in
        let previous_score := ScanResult.risk_score prev in
        if previous_score =? 0 then
          {| trend := 0; direction := "stable";
             current_score := Some current_score;
             previous_score := Some previous_score |}
        else
          let change_percent :=
            (inject_Z (current_score - previous_score)
             / inject_Z previous_score * 100)%Q in
          let trend := py_round2 change_percent in
          {| trend := trend;
             direction := direction_of trend current_score previous_score;
             current_score := Some current_score;
             previous_score := Some previous_score |}
    | _ =>
        (* unreachable: the sorted list has the length of its input *)
        {| trend := 0; direction := "stable";
           current_score := None; previous_score := None |}
    end.

Definition get_risk_level (risk_score : Z) : string :=
  if 80 <=? risk_score then "Critical"
  else if 60 <=? risk_score then "High"
  else if 40 <=? risk_score then "Medium"
  else if 20 <=? risk_score then "Low"
  else "Minimal".

(** [severity_order] of [prioritize_findings] *)
Definition priority_rank (s : SeverityLevel) : Z :=
  match s with
  | CRITICAL => 0
  | HIGH => 1
  | MEDIUM => 2
  | LOW => 3
  | INFO => 4
  end.

(** The sort key [(severity_order[f.severity], -f.risk_score)] *)
Definition priority_key (f : SecurityFinding.t) : Z * Z :=
  (priority_rank (SecurityFinding.severity f),
   - SecurityFinding.risk_score f).

(** [<=] on pairs of integers: lexicographic, as for Python tuples. *)
Definition pair_leb (a b : Z * Z) : bool :=
  (fst a <? fst b) || ((fst a =? fst b) && (snd a <=? snd b)).

Definition prioritize_findings (findings : list SecurityFinding.t)
  : list SecurityFinding.t :=
  sorted priority_key pair_leb findings.

End RiskScoring.

(* ===================================================================== *)
(** ** scanner_engine.py *)
(* ===================================================================== *)

Module Engine.

(** *** The collaborators and the effect monad *)

(** The scanner classes registered in [ScannerEngine.__init__]. *)
Inductive ScannerClass : Type :=
| StorageScanner | NetworkScanner | KeyVaultScanner
| ComputeScanner | DatabricksScanner.

(** What the orchestrator does to the outside world, in order. *)
Inductive Event : Type :=
| EvTime
| EvUtcNow
| EvValidateAccess (subscription_id : string)
| EvListSubscriptions
| EvScan (scanner_class : ScannerClass) (subscription_id : string)
| EvPrintScannerError (resource_type : ResourceType) (message : string).

Definition Trace : Type := list Event.

(** A call either returns a value or raises an [Exception] (carrying
    its message). *)
Inductive Outcome (A : Type) : Type :=
| Returned (a : A)
| Raised (message : string).
Arguments Returned {A} a.
Arguments Raised {A} message.

(** One entry of [auth_manager.list_subscriptions()]. *)
Record Subscription : Type := {
  sub_id : string;
  display_name : option string
}.

(** The external collaborators.  [validate_access] never raises (it
    catches every exception itself and answers [False]);
    [scanner_scan cls sub] stands for [await cls(sub).scan()]; the two
    clocks answer as a function of what has happened so far. *)
Record Env : Type := {
  validate_access : string -> bool;
  list_subscriptions : Outcome (list Subscription);
  scanner_scan : ScannerClass -> string -> Outcome (list SecurityFinding.t);
  time_time : Trace -> Q;
  utcnow : Trace -> Z
}.

(** Computations: the trace so far goes in, an outcome and the extended
    trace come out. *)
Definition M (A : Type) : Type := Trace -> Outcome A * Trace.

Definition ret {A : Type} (a : A) : M A := fun tr => (Returned a, tr).

Definition bind {A B : Type} (m : M A) (k : A -> M B) : M B :=
  fun tr =>
    match m tr with
    | (Returned a, tr') => k a tr'
    | (Raised e, tr') => (Raised e, tr')
    end.

(** [raise Exception(message)] *)
Definition raise {A : Type} (message : string) : M A :=
  fun tr => (Raised message, tr).

(** [try: body  except Exception as e: handler(e)] *)
Definition try_except {A : Type} (body : M A) (handler : string -> M A)
  : M A :=
  fun tr =>
    match body tr with
    | (Returned a, tr') => (Returned a, tr')
    | (Raised e, tr') => handler e tr'
    end.

(** Perform an external call: record it, then return or raise as the
    collaborator does. *)
Definition perform {A : Type} (ev : Event) (result : Trace -> Outcome A)
  : M A :=
  fun tr => (result tr, tr ++ [ev]).

Declare Scope engine_scope.
Delimit Scope engine_scope with engine.
Notation "x <- m ;; k" := (bind m (fun x => k))
  (at level 100, m at next level, right associativity) : engine_scope.
Notation "m ;;; k" := (bind m (fun _ => k))
  (at level 100, right associativity) : engine_scope.
Local Open Scope engine_scope.

Section WithEnv.
Variable env : Env.

Definition do_time : M Q :=
  perform EvTime (fun tr => Returned (time_time env tr)).
Definition do_utcnow : M Z :=
  perform EvUtcNow (fun tr => Returned (utcnow env tr)).
Definition do_validate_access (subscription_id : string) : M bool :=
  perform (EvValidateAccess subscription_id)
          (fun _ => Returned (validate_access env subscription_id)).
Definition do_list_subscriptions : M (list Subscription) :=
  perform EvListSubscriptions (fun _ => list_subscriptions env).
Definition do_scan (cls : ScannerClass) (subscription_id : string)
  : M (list SecurityFinding.t) :=
  perform (EvScan cls subscription_id)
          (fun _ => scanner_scan env cls subscription_id).
Definition do_print (resource_type : ResourceType) (message : string)
  : M unit :=
  perform (EvPrintScannerError resource_type message)
          (fun _ => Returned tt).

(** *** The engine *)

(** [self.scanners], in insertion order. *)
Definition scanners : list (ResourceType * ScannerClass) :=
  [ (STORAGE_ACCOUNT, StorageScanner);
    (NETWORK_SECURITY_GROUP, NetworkScanner);
    (KEY_VAULT, KeyVaultScanner);
    (VIRTUAL_MACHINE, ComputeScanner);
    (DATABRICKS_WORKSPACE, DatabricksScanner) ].

(** [_get_subscription_details]: [None] stands for the empty dict. *)
Definition _get_subscription_details (subscription_id : string)
  : M (option Subscription) :=
  try_except
    (subscriptions <- do_list_subscriptions ;;
     ret (find (fun sub => String.eqb (sub_id sub) subscription_id)
               subscriptions))
    (fun _ => ret None).

(** [_get_scanners_to_run]: the dict comprehension keeps the first
    position of a repeated resource type and skips unregistered
    ones; an absent request or an absent or empty selection runs
    every scanner. *)
Definition _get_scanners_to_run (scan_request : option ScanRequest.t)
  : list (ResourceType * ScannerClass) :=
  match scan_request with
  | Some request =>
      match ScanRequest.resource_types request with
      | Some (rt :: rts) =>
          fold_left
            (fun acc resource_type =>
               if dict_mem resource_type_eqb scanners resource_type then
                 dict_set resource_type_eqb acc resource_type
                   (dict_get resource_type_eqb scanners resource_type
                             StorageScanner)
               else acc)
            (rt :: rts) []
      | _ => scanners
      end
  | None => scanners
  end.

(** [severity_order] of [_filter_findings_by_severity] *)
Definition severity_order (s : SeverityLevel) : Z :=
  match s with
  | INFO => 0
  | LOW => 1
  | MEDIUM => 2
  | HIGH => 3
  | CRITICAL => 4
  end.

Definition _filter_findings_by_severity
  (findings : list SecurityFinding.t) (min_severity : SeverityLevel)
  : list SecurityFinding.t :=
  let min_level := severity_order min_severity in
  filter
    (fun finding =>
       min_level <=? severity_order (SecurityFinding.severity finding))
    findings.

(** [len(set(finding.resource_id for finding in findings))] *)
Definition count_resource_ids (findings : list SecurityFinding.t) : Z :=
  len (nodup string_dec (map SecurityFinding.resource_id findings)).

(** The scanner loop of [scan_subscription], threading
    [(all_findings, total_resources_scanned)]. *)
Fixpoint run_scanners (subscription_id : string)
  (scanners_to_run : list (ResourceType * ScannerClass))
  (acc : list SecurityFinding.t * Z)
  : M (list SecurityFinding.t * Z) :=
  match scanners_to_run with
  | [] => ret acc
  | (resource_type, scanner_class) :: rest =>
      acc' <- try_except
                (findings <- do_scan scanner_class subscription_id ;;
                 ret (fst acc ++ findings,
                      snd acc + count_resource_ids findings))
                (fun e => do_print resource_type e ;;; ret acc) ;;
      run_scanners subscription_id rest acc'
  end.

(** [scan_subscription].  The request, when given, always filters:
    its [severity_threshold] is a member of a [str] enumeration and
    every member is a non-empty string.  In the handler
    [subscription_details] is not yet bound, since the only
    exception reaching it is the one raised by the access check. *)
Definition scan_subscription (subscription_id : string)
  (scan_request : option ScanRequest.t) : M ScanResult.t :=
  start_time <- do_time ;;
  try_except
    (access <- do_validate_access subscription_id ;;
     if negb access then
       raise ("No access to subscription " ++ subscription_id)%string
     else
       subscription_details <-
         _get_subscription_details subscription_id ;;
       let scanners_to_run := _get_scanners_to_run scan_request in
       scanned <- run_scanners subscription_id scanners_to_run ([], 0) ;;
       let all_findings := fst scanned in
       let total_resources_scanned := snd scanned in
       let all_findings :=
         match scan_request with
         | Some request =>
             _filter_findings_by_severity
               all_findings (ScanRequest.severity_threshold request)
         | None => all_findings
         end in
       let overall_risk_score :=
         RiskScoring.calculate_overall_risk_score all_findings in
       let findings_by_severity :=
         RiskScoring.get_findings_by_severity all_findings in
       end_time <- do_time ;;
       let scan_duration := (end_time - start_time)%Q in
       now <- do_utcnow ;;
       ret (ScanResult.Build
              subscription_id
              (match subscription_details with
               | Some sub => display_name sub
               | None => None
               end)
              now
              total_resources_scanned
              (len all_findings)
              findings_by_severity
              all_findings
              overall_risk_score
              (Some scan_duration)))
    (fun e =>
       now <- do_utcnow ;;
       end_time <- do_time ;;
       ret (ScanResult.Build
              subscription_id None now 0 0 [] [] 0
              (Some (end_time - start_time)%Q))).

(** Run a scan from the empty trace. *)
Definition run_scan (subscription_id : string)
  (scan_request : option ScanRequest.t) : Outcome ScanResult.t * Trace :=
  scan_subscription subscription_id scan_request [].

End WithEnv.

End Engine.

(* ===================================================================== *)
(** ** The scoring rules as the specification words them *)
(* ===================================================================== *)

Module Spec.

Definition sumZ (l : list Z) : Z := fold_right Z.add 0 l.

(** Number of findings of one severity. *)
Definition count (s : SeverityLevel) (findings : list SecurityFinding.t)
  : Z :=
  len (filter (fun f => severity_eqb (SecurityFinding.severity f) s)
              findings).

(** The severities present among the findings. *)
Definition severities_present (findings : list SecurityFinding.t)
  : list SeverityLevel :=
  filter (fun s => 0 <? count s findings) all_severities.

(** The fixed weight of each severity level: critical=100, high=75,
    medium=50, low=25, info=10. *)
Definition weight (s : SeverityLevel) : Z :=
  match s with
  | CRITICAL => 100
  | HIGH => 75
  | MEDIUM => 50
  | LOW => 25
  | INFO => 10
  end.

(** weightedSum = sum of weight[s] x count[s] over the severities
    present; totalWeight = sum of weight[s] over the severities
    present. *)
Definition weightedSum (findings : list SecurityFinding.t) : Z :=
  sumZ (map (fun s => weight s * count s findings)
            (severities_present findings)).

Definition totalWeight (findings : list SecurityFinding.t) : Z :=
  sumZ (map weight (severities_present findings)).

(** baseScore = (weightedSum / totalWeight) x 100; the quotient of the
    rationals is 0 when the divisor is 0. *)
Definition baseScore (findings : list SecurityFinding.t) : Q :=
  (inject_Z (weightedSum findings) / inject_Z (totalWeight findings)
   * 100)%Q.

(** densityFactor = min(1.5, 1.0 + findingCount/100) *)
Definition densityFactor (findings : list SecurityFinding.t) : Q :=
  Qmin (3 # 2) (1 + inject_Z (len findings) / 100)%Q.

(** finalScore = min(100, round(baseScore x densityFactor)): the
    density factor is applied first, the cap at 100 last. *)
Definition finalScore (findings : list SecurityFinding.t) : Z :=
  Z.min 100 (py_round (baseScore findings * densityFactor findings)%Q).

(** The severity order of the data model:
    info < low < medium < high < critical. *)
Definition severity_rank (s : SeverityLevel) : Z :=
  match s with
  | INFO => 0
  | LOW => 1
  | MEDIUM => 2
  | HIGH => 3
  | CRITICAL => 4
  end.

(** The per-resource score as worded: weight of the highest severity
    present, times min(1.5, 1.0 + n/10), capped at 100, truncated. *)
Definition highest_severity (findings : list SecurityFinding.t)
  : SeverityLevel :=
  fold_right
    (fun f best =>
       if severity_rank best <? severity_rank (SecurityFinding.severity f)
       then SecurityFinding.severity f else best)
    INFO findings.

(** The priority rank critical=0 ... info=4, and the order "ascending
    by rank, then descending by risk score": [a] may stand before
    [b]. *)
Definition priority (s : SeverityLevel) : Z :=
  match s with
  | CRITICAL => 0
  | HIGH => 1
  | MEDIUM => 2
  | LOW => 3
  | INFO => 4
  end.

Definition before (a b : SecurityFinding.t) : Prop :=
  priority (SecurityFinding.severity a)
    < priority (SecurityFinding.severity b)
  \/ (priority (SecurityFinding.severity a)
        = priority (SecurityFinding.severity b)
      /\ SecurityFinding.risk_score b <= SecurityFinding.risk_score a).

(** Two findings are tied when severity and risk score coincide. *)
Definition same_priority (s : SeverityLevel) (score : Z)
           (f : SecurityFinding.t) : bool :=
  severity_eqb (SecurityFinding.severity f) s
  && (SecurityFinding.risk_score f =? score).

Definition resourceScore (findings : list SecurityFinding.t) : Z :=
  match findings with
  | [] => 0
  | _ :: _ =>
      py_int
        (Qmin 100
           (inject_Z (weight (highest_severity findings))
            * Qmin (3 # 2) (1 + inject_Z (len findings) / 10))%Q)
  end.





End Spec.

(* ===================================================================== *)
(** ** What a run of the scanner loop amounts to *)
(* ===================================================================== *)

Module Observed.
Import Engine.

Section WithEnv.
Variable env : Env.
Variable subscription_id : string.

(** The findings a selected scanner contributes: what it returned, or
    nothing if it raised. *)
Definition findings_of (entry : ResourceType * ScannerClass)
  : list SecurityFinding.t :=
  match scanner_scan env (snd entry) subscription_id with
  | Returned findings => findings
  | Raised _ => []
  end.

(** The findings of the scanners that succeeded, scanner by scanner in
    the order they were run, each scanner's findings in its own order. *)
Definition succeeded_findings
  (scanners_to_run : list (ResourceType * ScannerClass))
  : list SecurityFinding.t :=
  List.concat (map findings_of scanners_to_run).

(** The sum, over the scanners that succeeded, of the number of distinct
    resource ids among the findings that scanner returned. *)
Definition resources_counted
  (scanners_to_run : list (ResourceType * ScannerClass)) : Z :=
  Spec.sumZ
    (map (fun entry => count_resource_ids (findings_of entry))
         scanners_to_run).

(** The external calls one scanner causes: the scan itself, and the
    error report if it raised. *)
Definition events_of (entry : ResourceType * ScannerClass) : Trace :=
  match scanner_scan env (snd entry) subscription_id with
  | Returned _ => [EvScan (snd entry) subscription_id]
  | Raised e => [EvScan (snd entry) subscription_id;
                 EvPrintScannerError (fst entry) e]
  end.

Definition loop_events
  (scanners_to_run : list (ResourceType * ScannerClass)) : Trace :=
  List.concat (map events_of scanners_to_run).

End WithEnv.

(** The severity threshold of the request, when there is a request. *)
Definition apply_threshold (scan_request : option ScanRequest.t)
  (findings : list SecurityFinding.t) : list SecurityFinding.t :=
  match scan_request with
  | Some request =>
      _filter_findings_by_severity
        findings (ScanRequest.severity_threshold request)
  | None => findings
  end.

Definition is_scan (ev : Event) : bool :=
  match ev with
  | EvScan _ _ => true
  | _ => false
  end.

End Observed.

(* ===================================================================== *)
(** ** Sample data *)
(* ===================================================================== *)

Module Sample.

(** A finding on resource [rid] with the given severity and score; the
    fields the engine never reads are left blank. *)
Definition finding (rid : string) (sev : SeverityLevel) (score : Z)
  : SecurityFinding.t :=
  SecurityFinding.Build
    "" rid "" STORAGE_ACCOUNT "sub-1" "" "" "" "" sev "" score [] 0.

(** A past scan of [sub-1] taken at time [ts] that scored [score]. *)
Definition scan (ts score : Z) : ScanResult.t :=
  ScanResult.Build "sub-1" None ts 0 0 [] [] score None.

(** An environment with one known subscription, a clock that counts the
    external calls made so far, a fixed answer of the access check and
    fixed scanner outcomes. *)
Definition env_with (access : bool)
  (outcome : Engine.ScannerClass -> Engine.Outcome (list SecurityFinding.t))
  : Engine.Env :=
  {| Engine.validate_access := fun _ => access;
     Engine.list_subscriptions :=
       Engine.Returned
         [ {| Engine.sub_id := "sub-1"%string;
              Engine.display_name := Some "Production"%string |} ];
     Engine.scanner_scan := fun cls _ => outcome cls;
     Engine.time_time := fun tr => inject_Z (len tr);
     Engine.utcnow := fun tr => len tr |}.

(** The storage scanner fails; the network scanner reports a high and a
    medium finding on two security groups; the key-vault scanner reports
    a critical finding; the other two report nothing. *)
Definition partial_outcome (cls : Engine.ScannerClass)
  : Engine.Outcome (list SecurityFinding.t) :=
  match cls with
  | Engine.StorageScanner => Engine.Raised "storage client timed out"
  | Engine.NetworkScanner =>
      Engine.Returned [finding "nsg-1" HIGH 80; finding "nsg-2" MEDIUM 40]
  | Engine.KeyVaultScanner => Engine.Returned [finding "kv-1" CRITICAL 95]
  | _ => Engine.Returned []
  end.

Definition env_partial : Engine.Env := env_with true partial_outcome.
Definition env_denied : Engine.Env := env_with false partial_outcome.

(** A request for the findings of severity high and above. *)
Definition high_and_above : ScanRequest.t :=
  ScanRequest.Build (Some "sub-1"%string) None HIGH.

End Sample.

(* ===================================================================== *)
(** ** models.py: looking a member up by its value *)
(* ===================================================================== *)

Module EnumLookup.

(** [for rt in ResourceType], in declaration order. *)
Definition all_resource_types : list ResourceType :=
  [STORAGE_ACCOUNT; NETWORK_SECURITY_GROUP; KEY_VAULT;
   VIRTUAL_MACHINE; DISK; DATABRICKS_WORKSPACE].

(** [SeverityLevel(value)]: the member whose value is [value]; [None]
    stands for the [ValueError] raised when there is none. *)
Definition severity_of_value (value : string) : option SeverityLevel :=
  find (fun s => String.eqb (severity_value s) value) all_severities.

(** [ResourceType(value)] *)
Definition resource_type_of_value (value : string) : option ResourceType :=
  find (fun r => String.eqb (resource_type_value r) value)
       all_resource_types.

End EnumLookup.

(* ===================================================================== *)
(** ** risk_scoring.py: the risk summary *)
(* ===================================================================== *)

Module RiskSummary.
Import RiskScoring.

(** [str(n)] for an integer. *)
Definition str_of_int (n : Z) : string :=
  DecimalString.NilZero.string_of_int (Z.to_int n).

(** [Counter(finding.resource_type for finding in findings)] *)
Definition resource_type_counter (l : list ResourceType)
  : list (ResourceType * Z) :=
  fold_left
    (fun d r =>
       dict_set resource_type_eqb d r (dict_get resource_type_eqb d r 0 + 1))
    l [].

(** The texts of [_generate_recommendations]. *)
Definition msg_critical (n : Z) : string :=
  ("Address " ++ str_of_int n
   ++ " critical findings immediately as they pose significant security risks.")%string.

Definition msg_high (n : Z) : string :=
  ("Prioritize fixing the " ++ str_of_int n
   ++ " high-severity issues to reduce overall risk exposure.")%string.

Definition msg_storage : string :=
  "Review storage account configurations as multiple security issues were detected.".

Definition msg_network : string :=
  "Audit network security group rules to ensure proper network segmentation.".

Definition msg_keyvault : string :=
  "Strengthen Key Vault security configurations including firewall rules and access policies.".

Definition msg_monitoring : string :=
  "Consider implementing automated security monitoring and regular security assessments.".

Definition msg_continue : string :=
  "Continue monitoring security posture and implement security best practices.".

(** [if cond: recommendations.append(text)] *)
Definition append_if (cond : bool) (text : string)
  (recommendations : list string) : list string :=
  if cond then recommendations ++ [text] else recommendations.

(** [_generate_recommendations].  [severity_counts[...]] cannot raise:
    the histogram always holds the five keys.  The resource-type counter
    is keyed by members of a [str] enumeration, which hash and compare
    as their values, so the lookups by the literal strings are lookups
    of the members. *)
Definition _generate_recommendations (findings : list SecurityFinding.t)
  : list string :=
  let recommendations := [] in
  let severity_counts := get_findings_by_severity findings in
  let critical := dict_get severity_eqb severity_counts CRITICAL 0 in
  let high := dict_get severity_eqb severity_counts HIGH 0 in
  let recommendations :=
    append_if (0 <? critical) (msg_critical critical) recommendations in
  let recommendations :=
    append_if (5 <? high) (msg_high high) recommendations in
  let resource_types :=
    resource_type_counter (map SecurityFinding.resource_type findings) in
  let recommendations :=
    append_if (3 <? dict_get resource_type_eqb resource_types
                             STORAGE_ACCOUNT 0)
              msg_storage recommendations in
  let recommendations :=
    append_if (2 <? dict_get resource_type_eqb resource_types
                             NETWORK_SECURITY_GROUP 0)
              msg_network recommendations in
  let recommendations :=
    append_if (1 <? dict_get resource_type_eqb resource_types KEY_VAULT 0)
              msg_keyvault recommendations in
  let recommendations :=
    append_if (20 <? len findings) msg_monitoring recommendations in
  match recommendations with
  | [] => [msg_continue]
  | _ :: _ => recommendations
  end.

(** One entry of ["top_risks"]. *)
Record TopRisk : Type := {
  top_title : string;
  top_severity : SeverityLevel;
  top_risk_score : Z;
  top_resource_name : string;
  top_resource_type : ResourceType
}.

Definition top_risk_of (finding : SecurityFinding.t) : TopRisk :=
  {| top_title := SecurityFinding.title finding;
     top_severity := SecurityFinding.severity finding;
     top_risk_score := SecurityFinding.risk_score finding;
     top_resource_name := SecurityFinding.resource_name finding;
     top_resource_type := SecurityFinding.resource_type finding |}.

(** The dictionary returned by [generate_risk_summary]. *)
Record Summary : Type := {
  overall_risk_score : Z;
  risk_level : string;
  total_findings : Z;
  findings_by_severity : list (SeverityLevel * Z);
  top_risks : list TopRisk;
  recommendations : list string
}.

Definition generate_risk_summary (findings : list SecurityFinding.t)
  : Summary :=
  match findings with
  | [] =>
      {| overall_risk_score := 0;
         risk_level := "Minimal";
         total_findings := 0;
         findings_by_severity :=
           map (fun severity => (severity, 0)) all_severities;
         top_risks := [];
         recommendations := [] |}
  | _ :: _ =>
      let overall_score := calculate_overall_risk_score findings in
      let severity_counts := get_findings_by_severity findings in
      let prioritized_findings := prioritize_findings findings in
      let top_risks := firstn 5 prioritized_findings in
      let recommendations := _generate_recommendations findings in
      {| overall_risk_score := overall_score;
         risk_level := get_risk_level overall_score;
         total_findings := len findings;
         findings_by_severity := severity_counts;
         top_risks := map top_risk_of top_risks;
         recommendations := recommendations |}
  end.

(** The five labels of [get_risk_level], from the mildest to the
    gravest; an unknown text ranks with the mildest. *)
Definition level_rank (label : string) : Z :=
  if String.eqb label "Critical" then 4
  else if String.eqb label "High" then 3
  else if String.eqb label "Medium" then 2
  else if String.eqb label "Low" then 1
  else 0.

End RiskSummary.

(* ===================================================================== *)
(** ** scanner_engine.py: request validation *)
(* ===================================================================== *)

Module EngineApi.
Import Engine.
Local Open Scope engine_scope.

(** [get_supported_resource_types] *)
Definition get_supported_resource_types : list ResourceType :=
  dict_keys scanners.

(** The dictionary built by [validate_scan_request].  An error is the
    text it carries; a warning is recorded as the resource type it is
    about, standing for the text
    "Resource type <resource_type> is not supported". *)
Record Validation : Type := {
  valid : bool;
  errors : list string;
  warnings : list ResourceType
}.

(** [resource_type not in supported_types] *)
Definition not_supported (resource_type : ResourceType) : bool :=
  negb (existsb (resource_type_eqb resource_type)
                get_supported_resource_types).

(** [validate_scan_request].  An absent or empty [subscription_id] is
    falsy and skips the access check; an absent or empty list of
    resource types skips the loop. *)
Definition validate_scan_request (env : Env) (scan_request : ScanRequest.t)
  : M Validation :=
  let validation_result :=
    {| valid := true; errors := []; warnings := [] |} in
  validation_result <-
    match ScanRequest.subscription_id scan_request with
    | Some subscription_id =>
        if String.eqb subscription_id "" then ret validation_result
        else
          access <- do_validate_access env subscription_id ;;
          if negb access then
            ret {| valid := false;
                   errors :=
                     errors validation_result
                     ++ [("No access to subscription "
                          ++ subscription_id)%string];
                   warnings := warnings validation_result |}
          else ret validation_result
    | None => ret validation_result
    end ;;
  let validation_result :=
    match ScanRequest.resource_types scan_request with
    | Some resource_types =>
        fold_left
          (fun result resource_type =>
             if not_supported resource_type then
               {| valid := valid result;
                  errors := errors result;
                  warnings := warnings result ++ [resource_type] |}
             else result)
          resource_types validation_result
    | None => validation_result
    end in
  ret validation_result.

End EngineApi.

(* ===================================================================== *)
(** ** Python floats as IEEE-754 doubles *)
(* ===================================================================== *)

(** The base scanner truncates a product of floats and the reporter
    rounds a quotient to two decimals: both results depend on how a
    double rounds, so here a float is the rational number that the
    double holds.  A double has 53 significant bits; an operation
    returns the double nearest to the exact result, ties going to the
    even significand.  Signed zeros and NaN do not occur in the
    computations embedded below; an infinite result is [None]. *)
Module PyFloat.

Local Open Scope Q_scope.

(** The errors the operations raise. *)
Inductive Error : Type :=
| OverflowError
| ZeroDivisionError.

(** The integer [e] with [2 ^ e <= x < 2 ^ (e + 1)], for [0 < x]. *)
Definition ilog2 (x : Q) : Z :=
  let e := (Z.log2 (Qnum x) - Z.log2 (Z.pos (Qden x)))%Z in
  if Qle_bool (2 ^ e) x then e else (e - 1)%Z.

(** The distance between neighbouring doubles at [x]: the last of 53
    bits, and [2 ^ -1074] for the subnormal numbers below
    [2 ^ -1022]. *)
Definition ulp (x : Q) : Q :=
  2 ^ (Z.max (ilog2 (Qabs x)) (-1022) - 52).

(** Rounding to nearest, ties to even, with an unbounded exponent. *)
Definition nearest (x : Q) : Q :=
  if Qeq_bool x 0 then 0
  else inject_Z (py_round (x / ulp x)) * ulp x.

(** The largest double is [2 ^ 1024 - 2 ^ 971]; a result that rounds to
    [2 ^ 1024] or beyond overflows. *)
Definition finite (x : Q) : bool := negb (Qle_bool (2 ^ 1024) (Qabs x)).

(** A float literal: the double nearest to the decimal written. *)
Definition literal (x : Q) : Q := nearest x.

(** The conversion of an [int] operand to float, as in [n * 0.8]:
    "OverflowError: int too large to convert to float". *)
Definition of_int (n : Z) : Error + Q :=
  let x := nearest (inject_Z n) in
  if finite x then inr x else inl OverflowError.

(** [x * y] on floats; [None] is an infinity. *)
Definition mul (x y : Q) : option Q :=
  let p := nearest (x * y) in
  if finite p then Some p else None.

(** [int(x)]: truncation towards zero; "OverflowError: cannot convert
    float infinity to integer". *)
Definition to_int (x : option Q) : Error + Z :=
  match x with
  | Some x => inr (py_int x)
  | None => inl OverflowError
  end.

(** [a / b] on integers: the double nearest to the quotient;
    "ZeroDivisionError: division by zero" and "OverflowError: integer
    division result too large for a float". *)
Definition true_div (a b : Z) : Error + Q :=
  if (b =? 0)%Z then inl ZeroDivisionError
  else
    let q := nearest (inject_Z a / inject_Z b) in
    if finite q then inr q else inl OverflowError.

(** [round(x, 2)] on a float: the decimal expansion of the double is
    rounded to two places, ties to even, and the double nearest to the
    result is returned. *)
Definition round2 (x : Q) : Q := nearest (py_round (x * 100) # 100).

End PyFloat.

(* ===================================================================== *)
(** ** scanners/base_scanner.py *)
(* ===================================================================== *)

Module BaseScanner.

(** [severity_multipliers], a dictionary of float literals; every
    severity is a key, so the default of [.get(severity, 0.5)] is never
    used. *)
Definition severity_multipliers (s : SeverityLevel) : Q :=
  match s with
  | CRITICAL => PyFloat.literal 1
  | HIGH => PyFloat.literal (8 # 10)
  | MEDIUM => PyFloat.literal (6 # 10)
  | LOW => PyFloat.literal (4 # 10)
  | INFO => PyFloat.literal (2 # 10)
  end.

(** [calculate_risk_score(severity, base_score)]:
    [min(100, int(base_score * multiplier))], where the product of the
    [int] and the float is a float. *)
Definition calculate_risk_score (severity : SeverityLevel) (base_score : Z)
  : PyFloat.Error + Z :=
  let multiplier := severity_multipliers severity in
  match PyFloat.of_int base_score with
  | inl error => inl error
  | inr x =>
      match PyFloat.to_int (PyFloat.mul x multiplier) with
      | inl error => inl error
      | inr n => inr (Z.min 100 n)
      end
  end.

(** The multiplier of a severity in tenths, as the source writes it. *)
Definition tenths (s : SeverityLevel) : Z :=
  match s with
  | CRITICAL => 10
  | HIGH => 8
  | MEDIUM => 6
  | LOW => 4
  | INFO => 2
  end.

(** [s.split(sep)] for a one-character separator. *)
Fixpoint split (sep : ascii) (s : string) : list string :=
  match s with
  | EmptyString => [EmptyString]
  | String c rest =>
      if Ascii.eqb c sep then EmptyString :: split sep rest
      else
        match split sep rest with
        | head :: tail => String c head :: tail
        | [] => [String c EmptyString]
        end
  end.

(** The dictionary returned by [get_resource_id_parts]. *)
Record Parts : Type := {
  part_subscription_id : string;
  part_resource_group : string;
  part_provider : string;
  part_resource_type : string;
  part_resource_name : string
}.

(** [parts[i] if len(parts) > i else ''] *)
Definition part_at (parts : list string) (i : nat) : string :=
  nth i parts EmptyString.

Definition get_resource_id_parts (resource_id : string) : Parts :=
  let parts := split "/" resource_id in
  {| part_subscription_id := part_at parts 2;
     part_resource_group := part_at parts 4;
     part_provider := part_at parts 6;
     part_resource_type := part_at parts 7;
     part_resource_name := part_at parts 8 |}.

(** A segment that holds no "/". *)
Definition no_slash (segment : string) : bool :=
  forallb (fun c => negb (Ascii.eqb c "/")) (list_ascii_of_string segment).

End BaseScanner.

(* ===================================================================== *)
(** ** reports/json_reporter.py *)
(* ===================================================================== *)

Module JsonReporter.

(** The aggregation loop of [_build_summary_data]:
    [all_severity_counts[severity] =
       all_severity_counts.get(severity, 0) + count]
    over the items of every scan's histogram. *)
Definition aggregate_severity_counts (scan_results : list ScanResult.t)
  : list (SeverityLevel * Z) :=
  fold_left
    (fun all_severity_counts scan =>
       fold_left
         (fun counts item =>
            dict_set severity_eqb counts (fst item)
              (dict_get severity_eqb counts (fst item) 0 + snd item))
         (ScanResult.findings_by_severity scan) all_severity_counts)
    scan_results [].

(** [sum(...)] over integers. *)
Definition sum_of {A : Type} (f : A -> Z) (l : list A) : Z :=
  fold_left (fun acc x => acc + f x) l 0.

(** The ["overall_summary"] block of [_build_summary_data]: its three
    totals and the aggregated histogram.  The remaining entry of the
    block, ["average_risk_score"], is a float and is embedded on its own
    as [average_risk_score] below. *)
Record OverallSummary : Type := {
  total_subscriptions : Z;
  total_resources_scanned : Z;
  total_findings : Z;
  findings_by_severity : list (SeverityLevel * Z)
}.

(** [_build_summary_data], the totals and the histogram of its
    ["overall_summary"] block; [None] stands for the dictionary
    [{"error": "No scan results provided"}] returned for an empty
    list. *)
Definition overall_summary (scan_results : list ScanResult.t)
  : option OverallSummary :=
  match scan_results with
  | [] => None
  | _ :: _ =>
      let total_findings :=
        sum_of (fun scan => len (ScanResult.findings scan)) scan_results in
      let all_severity_counts := aggregate_severity_counts scan_results in
      Some {| total_subscriptions := len scan_results;
              total_resources_scanned :=
                sum_of ScanResult.total_resources_scanned scan_results;
              total_findings := total_findings;
              findings_by_severity := all_severity_counts |}
  end.

(** The ["average_risk_score"] entry of the same block:
    [avg_risk_score = sum(scan.risk_score ...) / len(scan_results)],
    a float, reported as [round(avg_risk_score, 2)].  [None] stands for
    the error dictionary of the empty list, which is returned before
    the division; an error of the division is raised to the caller. *)
Definition average_risk_score (scan_results : list ScanResult.t)
  : option (PyFloat.Error + Q) :=
  match scan_results with
  | [] => None
  | _ :: _ =>
      match PyFloat.true_div (sum_of ScanResult.risk_score scan_results)
                             (len scan_results) with
      | inl error => Some (inl error)
      | inr avg_risk_score => Some (inr (PyFloat.round2 avg_risk_score))
      end
  end.

(** One entry of [_generate_prioritized_recommendations]. *)
Record Recommendation : Type := {
  priority : string;
  finding_id : string;
  resource : string;
  issue : string;
  recommendation : string;
  risk_score : Z;
  estimated_effort : string
}.

Section WithEffort.
(** [_estimate_remediation_effort] searches the lower-cased title for
    keywords; it is kept as a parameter. *)
Variable _estimate_remediation_effort : SecurityFinding.t -> string.

(** ["P1" if finding.severity in ["critical", "high"] else "P2"] *)
Definition priority_of (finding : SecurityFinding.t) : string :=
  match SecurityFinding.severity finding with
  | CRITICAL | HIGH => "P1"
  | _ => "P2"
  end.

Definition _generate_prioritized_recommendations
  (findings : list SecurityFinding.t) : list Recommendation :=
  let prioritized_findings := RiskScoring.prioritize_findings findings in
  map (fun finding =>
         {| priority := priority_of finding;
            finding_id := SecurityFinding.id finding;
            resource := SecurityFinding.resource_name finding;
            issue := SecurityFinding.title finding;
            recommendation := SecurityFinding.recommendation finding;
            risk_score := SecurityFinding.risk_score finding;
            estimated_effort := _estimate_remediation_effort finding |})
      (firstn 20 prioritized_findings).
End WithEffort.

End JsonReporter.

(* ===================================================================== *)
(** ** Notions used to state the further properties *)
(* ===================================================================== *)

Module Derived.

(** Number of findings on resources of one type. *)
Definition count_type (r : ResourceType) (findings : list SecurityFinding.t)
  : Z :=
  len (filter (fun f => resource_type_eqb (SecurityFinding.resource_type f) r)
              findings).

(** An Azure resource id:
    /subscriptions/S/resourceGroups/G/providers/P/T/N. *)
Definition azure_id (subscription group provider type name : string)
  : string :=
  String.concat "/"
    [""; "subscriptions"; subscription; "resourceGroups"; group;
     "providers"; provider; type; name]%string.

(** A Scan Result whose histogram is the one of its findings, or which
    is the empty result of a refused scan. *)
Definition histogram_consistent (r : ScanResult.t) : Prop :=
  ScanResult.findings_by_severity r
  = RiskScoring.get_findings_by_severity (ScanResult.findings r)
  \/ (ScanResult.findings_by_severity r = []
      /\ ScanResult.findings r = []).

(** Two environments that differ at most in the subscription
    directory. *)
Definition same_but_directory (env1 env2 : Engine.Env) : Prop :=
  (forall s, Engine.validate_access env1 s = Engine.validate_access env2 s)
  /\ (forall cls s,
        Engine.scanner_scan env1 cls s = Engine.scanner_scan env2 cls s)
  /\ (forall tr, Engine.time_time env1 tr = Engine.time_time env2 tr)
  /\ (forall tr, Engine.utcnow env1 tr = Engine.utcnow env2 tr).

(** An environment like [Sample.env_partial] whose subscription
    directory fails. *)
Definition env_no_directory : Engine.Env :=
  {| Engine.validate_access := fun _ => true;
     Engine.list_subscriptions := Engine.Raised "directory unavailable";
     Engine.scanner_scan := fun cls _ => Sample.partial_outcome cls;
     Engine.time_time := fun tr => inject_Z (len tr);
     Engine.utcnow := fun tr => len tr |}.

(** [ids] lists the distinct [resource_id] values of [findings]: every
    such value once, and nothing else. *)
Definition distinct_ids (findings : list SecurityFinding.t)
  (ids : list string) : Prop :=
  NoDup ids
  /\ (forall x, In x ids
                <-> In x (map SecurityFinding.resource_id findings)).

(** The storage scanner fails; the network scanner reports two findings
    on one security group and one on another; the key-vault scanner
    reports a critical finding; the other two report nothing. *)
Definition repeated_outcome (cls : Engine.ScannerClass)
  : Engine.Outcome (list SecurityFinding.t) :=
  match cls with
  | Engine.StorageScanner => Engine.Raised "storage client timed out"
  | Engine.NetworkScanner =>
      Engine.Returned [Sample.finding "nsg-1" HIGH 80;
                       Sample.finding "nsg-1" MEDIUM 45;
                       Sample.finding "nsg-2" MEDIUM 40]
  | Engine.KeyVaultScanner =>
      Engine.Returned [Sample.finding "kv-1" CRITICAL 95]
  | _ => Engine.Returned []
  end.

Definition env_repeated : Engine.Env := Sample.env_with true repeated_outcome.

(** The graver of two severities. *)
Definition graver (a b : SeverityLevel) : SeverityLevel :=
  if Spec.severity_rank a <=? Spec.severity_rank b then b else a.

(** The error reports a run of the scanner loop prints: one per
    selected scanner that raised, with its resource type and the
    message of the exception. *)
Definition failure_reports (env : Engine.Env) (subscription_id : string)
  (scanners_to_run : list (ResourceType * Engine.ScannerClass))
  : Engine.Trace :=
  flat_map
    (fun entry =>
       match Engine.scanner_scan env (snd entry) subscription_id with
       | Engine.Returned _ => []
       | Engine.Raised e => [Engine.EvPrintScannerError (fst entry) e]
       end)
    scanners_to_run.

Definition is_report (ev : Engine.Event) : bool :=
  match ev with
  | Engine.EvPrintScannerError _ _ => true
  | _ => false
  end.

End Derived.

(* ===================================================================== *)
(** ** Urgent findings *)
(* ===================================================================== *)

Module Urgency.

(** A finding of severity critical or high. *)
Definition is_urgent (f : SecurityFinding.t) : bool :=
  match SecurityFinding.severity f with
  | CRITICAL | HIGH => true
  | _ => false
  end.

End Urgency.

(* ===================================================================== *)
(** ** cli.py: labels and colours *)
(* ===================================================================== *)

Module Cli.

Definition _get_risk_level (score : Z) : string :=
  if 80 <=? score then "Critical"
  else if 60 <=? score then "High"
  else if 40 <=? score then "Medium"
  else if 20 <=? score then "Low"
  else "Minimal".

Definition _get_risk_color (score : Z) : string :=
  if 80 <=? score then "red"
  else if 60 <=? score then "yellow"
  else if 40 <=? score then "blue"
  else "green".

(** The colour that goes with a label. *)
Definition color_of_level (level : string) : string :=
  if String.eqb level "Critical" then "red"
  else if String.eqb level "High" then "yellow"
  else if String.eqb level "Medium" then "blue"
  else "green".

End Cli.

(* ===================================================================== *)
(** ** Facts about the Python primitives *)
(* ===================================================================== *)

Section PyDictFacts.
Context {K V : Type} (eqb : K -> K -> bool).
Hypothesis eqb_spec : forall a b, reflect (a = b) (eqb a b).

Lemma dict_mem_In (d : list (K * V)) (k : K) :
  dict_mem eqb d k = true <-> In k (dict_keys d).
Proof.
  induction d as [|[k' v'] d IH]; simpl.
  - split; [discriminate | tauto].
  - rewrite orb_true_iff, IH.
    destruct (eqb_spec k' k); intuition congruence.
Qed.

Lemma dict_get_set (d : list (K * V)) (k k' : K) (v default : V) :
  dict_get eqb (dict_set eqb d k v) k' default =
  if eqb k k' then v else dict_get eqb d k' default.
Proof.
  induction d as [|[k0 v0] d IH]; simpl.
  - reflexivity.
  - destruct (eqb_spec k0 k) as [->|Hne]; simpl.
    + destruct (eqb_spec k k'); reflexivity.
    + rewrite IH.
      destruct (eqb_spec k0 k') as [->|]; [|reflexivity].
      destruct (eqb_spec k k'); [congruence | reflexivity].
Qed.

Lemma dict_keys_set (d : list (K * V)) (k : K) (v : V) :
  dict_keys (dict_set eqb d k v) =
  if dict_mem eqb d k then dict_keys d else dict_keys d ++ [k].
Proof.
  unfold dict_keys.
  induction d as [|[k0 v0] d IH]; simpl.
  - reflexivity.
  - destruct (eqb_spec k0 k) as [->|Hne]; simpl.
    + reflexivity.
    + rewrite IH. destruct (dict_mem eqb d k); reflexivity.
Qed.

Lemma dict_set_not_nil (d : list (K * V)) (k : K) (v : V) :
  dict_set eqb d k v <> [].
Proof.
  destruct d as [|[k0 v0] d]; simpl; [discriminate|].
  destruct (eqb k0 k); discriminate.
Qed.

Lemma dict_keys_set_NoDup (d : list (K * V)) (k : K) (v : V) :
  NoDup (dict_keys d) -> NoDup (dict_keys (dict_set eqb d k v)).
Proof.
  intros Hnd. rewrite dict_keys_set.
  destruct (dict_mem eqb d k) eqn:Hm; [assumption|].
  apply NoDup_app; [assumption | repeat constructor; simpl; tauto |].
  intros x Hx Hx'. destruct Hx' as [<-|[]].
  apply dict_mem_In in Hx. congruence.
Qed.

Lemma dict_keys_set_In (d : list (K * V)) (k k' : K) (v : V) :
  In k' (dict_keys (dict_set eqb d k v)) <-> In k' (dict_keys d) \/ k' = k.
Proof.
  rewrite dict_keys_set.
  destruct (dict_mem eqb d k) eqn:Hm.
  - apply dict_mem_In in Hm. intuition congruence.
  - rewrite in_app_iff. simpl. intuition congruence.
Qed.

(** A dict without repeated keys is determined by its keys and its
    lookups. *)
Lemma dict_items_get (d : list (K * V)) (default : V) :
  NoDup (dict_keys d) ->
  d = map (fun k => (k, dict_get eqb d k default)) (dict_keys d).
Proof.
  induction d as [|[k v] d IH]; simpl; intros Hnd.
  - reflexivity.
  - inversion Hnd as [|? ? Hnotin Hnd']; subst.
    destruct (eqb_spec k k) as [_|]; [|congruence].
    f_equal. rewrite (IH Hnd') at 1.
    apply map_ext_in. intros k' Hin.
    destruct (eqb_spec k k') as [->|]; [contradiction | reflexivity].
Qed.
End PyDictFacts.

Section PySortedFacts.
Context {A K : Type} (key : A -> K) (leb : K -> K -> bool).

Let le_key (x y : A) : Prop := leb (key x) (key y) = true.

Lemma insert_stable_perm (x : A) (l : list A) :
  Permutation (insert_stable key leb x l) (x :: l).
Proof.
  induction l as [|y l IH]; simpl.
  - apply Permutation_refl.
  - destruct (leb (key x) (key y)).
    + apply Permutation_refl.
    + eapply perm_trans; [apply perm_skip, IH | apply perm_swap].
Qed.

Lemma sorted_perm (l : list A) : Permutation (sorted key leb l) l.
Proof.
  induction l as [|x l IH]; simpl.
  - constructor.
  - eapply perm_trans; [apply insert_stable_perm | apply perm_skip, IH].
Qed.


(** Elements selected by a predicate that only holds inside one class
    of mutually-ordered keys are never reordered. *)
Section Stability.
Variable p : A -> bool.
Hypothesis p_class : forall x y, p x = true -> p y = true -> le_key x y.

Lemma insert_stable_filter (x : A) (l : list A) :
  filter p (insert_stable key leb x l) = filter p (x :: l).
Proof.
  induction l as [|y l IH]; simpl.
  - reflexivity.
  - destruct (leb (key x) (key y)) eqn:Hle; simpl.
    + reflexivity.
    + rewrite IH. simpl.
      destruct (p x) eqn:Hx; [|reflexivity].
      destruct (p y) eqn:Hy; [|reflexivity].
      specialize (p_class x y Hx Hy). unfold le_key in p_class.
      congruence.
Qed.

Lemma sorted_filter (l : list A) :
  filter p (sorted key leb l) = filter p l.
Proof.
  induction l as [|x l IH]; simpl.
  - reflexivity.
  - rewrite insert_stable_filter. simpl. rewrite IH. reflexivity.
Qed.
End Stability.

Section Order.
Hypothesis leb_total : forall a b, leb a b = false -> leb b a = true.
Hypothesis leb_trans :
  forall a b c, leb a b = true -> leb b c = true -> leb a c = true.

Lemma insert_stable_sorted (x : A) (l : list A) :
  StronglySorted le_key l ->
  StronglySorted le_key (insert_stable key leb x l).
Proof.
  induction 1 as [|y l Hs IH Hall]; simpl.
  - repeat constructor.
  - destruct (leb (key x) (key y)) eqn:Hle.
    + constructor; [constructor; assumption|].
      constructor; [assumption|].
      eapply Forall_impl; [|exact Hall].
      intros z Hz. unfold le_key in *. eauto.
    + constructor; [assumption|].
      eapply Permutation_Forall;
        [apply Permutation_sym, insert_stable_perm|].
      constructor; [|assumption].
      unfold le_key. auto.
Qed.

Lemma sorted_sorted (l : list A) :
  StronglySorted le_key (sorted key leb l).
Proof.
  induction l as [|x l IH]; simpl.
  - constructor.
  - apply insert_stable_sorted, IH.
Qed.
End Order.
End PySortedFacts.

(** [py_round] never goes below the floor, hence is monotone enough. *)
Lemma py_round_ge_floor (x : Q) : Qfloor x <= py_round x.
Proof.
  unfold py_round.
  destruct (Qcompare _ _); [destruct (Z.even _)| |]; lia.
Qed.

Lemma py_round_lower (z : Z) (x : Q) :
  (inject_Z z <= x)%Q -> z <= py_round x.
Proof.
  intros H. apply Qfloor_resp_le in H. rewrite Qfloor_Z in H.
  pose proof (py_round_ge_floor x). lia.
Qed.

Lemma py_round_upper (z : Z) (x : Q) :
  (x <= inject_Z z)%Q -> py_round x <= z.
Proof.
  intros Hx. unfold py_round. set (f := Qfloor x).
  pose proof (Qfloor_le x) as Hlo. fold f in Hlo.
  assert (Hfz : f <= z).
  { rewrite Zle_Qle. eapply Qle_trans; eassumption. }
  destruct (Z.eq_dec f z) as [E|N].
  - assert (Hzero : (x - inject_Z f == 0)%Q).
    { apply Qle_antisym; rewrite E in *; lra. }
    rewrite Hzero. cbn. lia.
  - destruct (Qcompare _ _); [destruct (Z.even f)| |]; lia.
Qed.

Lemma py_min_lower (c a b : Q) :
  (c <= a)%Q -> (c <= b)%Q -> (c <= py_min a b)%Q.
Proof. unfold py_min. destruct (Qle_bool a b); auto. Qed.

(* ===================================================================== *)
(** ** Risk scoring: the overall score *)
(* ===================================================================== *)

Section OverallScore.
Import RiskScoring.

Lemma severity_eqb_spec (a b : SeverityLevel) :
  reflect (a = b) (severity_eqb a b).
Proof. destruct a, b; simpl; constructor; congruence. Qed.

Lemma len_cons {A : Type} (x : A) (l : list A) : len (x :: l) = 1 + len l.
Proof. unfold len. simpl List.length. lia. Qed.

Lemma len_nonneg {A : Type} (l : list A) : 0 <= len l.
Proof. unfold len. lia. Qed.

Lemma count_cons (s : SeverityLevel) (f : SecurityFinding.t)
      (l : list SecurityFinding.t) :
  Spec.count s (f :: l) =
  (if severity_eqb (SecurityFinding.severity f) s then 1 else 0)
  + Spec.count s l.
Proof.
  unfold Spec.count. simpl.
  destruct (severity_eqb _ _); [apply len_cons | reflexivity].
Qed.

Lemma count_nonneg s l : 0 <= Spec.count s l.
Proof. apply len_nonneg. Qed.

Lemma count_pos_In s l :
  0 < Spec.count s l <-> In s (map SecurityFinding.severity l).
Proof.
  induction l as [|f l IH]; simpl.
  - unfold Spec.count, len. simpl. lia.
  - rewrite count_cons. pose proof (count_nonneg s l).
    destruct (severity_eqb_spec (SecurityFinding.severity f) s);
      intuition lia.
Qed.

(** The counting step of [Counter]. *)
Let step (d : list (SeverityLevel * Z)) (s : SeverityLevel) :=
  dict_set severity_eqb d s (dict_get severity_eqb d s 0 + 1).

Lemma Counter_fold_get l d s :
  dict_get severity_eqb
    (fold_left step (map SecurityFinding.severity l) d) s 0
  = dict_get severity_eqb d s 0 + Spec.count s l.
Proof.
  revert d. induction l as [|f l IH]; intros d; simpl.
  - unfold Spec.count, len. simpl. lia.
  - rewrite IH. unfold step.
    rewrite (dict_get_set _ severity_eqb_spec), count_cons.
    destruct (severity_eqb_spec (SecurityFinding.severity f) s) as [->|];
      lia.
Qed.

Lemma Counter_fold_NoDup (l : list SeverityLevel) d :
  NoDup (dict_keys d) -> NoDup (dict_keys (fold_left step l d)).
Proof.
  revert d. induction l as [|s l IH]; intros d Hd; simpl.
  - assumption.
  - apply IH, (dict_keys_set_NoDup _ severity_eqb_spec), Hd.
Qed.

Lemma Counter_fold_In (l : list SeverityLevel) d s :
  In s (dict_keys (fold_left step l d)) <-> In s (dict_keys d) \/ In s l.
Proof.
  revert d. induction l as [|x l IH]; intros d; simpl.
  - tauto.
  - rewrite IH. unfold step.
    rewrite (dict_keys_set_In _ severity_eqb_spec).
    intuition congruence.
Qed.

Lemma Counter_get findings s :
  dict_get severity_eqb (Counter (map SecurityFinding.severity findings))
           s 0
  = Spec.count s findings.
Proof. unfold Counter. apply (Counter_fold_get findings []). Qed.

Lemma Counter_NoDup l : NoDup (dict_keys (Counter l)).
Proof. apply Counter_fold_NoDup. constructor. Qed.

Lemma Counter_In l s : In s (dict_keys (Counter l)) <-> In s l.
Proof.
  etransitivity; [apply (Counter_fold_In l [] s)|]. simpl. tauto.
Qed.

(** The keys of the counter are the severities present, in some
    order. *)
Lemma Counter_keys_present findings :
  Permutation
    (dict_keys (Counter (map SecurityFinding.severity findings)))
    (Spec.severities_present findings).
Proof.
  apply NoDup_Permutation.
  - apply Counter_NoDup.
  - apply NoDup_filter. unfold all_severities.
    repeat constructor; simpl; intuition discriminate.
  - intros s. rewrite Counter_In. unfold Spec.severities_present.
    rewrite filter_In, Z.ltb_lt, count_pos_In.
    split; [|tauto]. intros H. split; [|exact H].
    destruct s; simpl; tauto.
Qed.

Lemma sumZ_perm l l' : Permutation l l' -> Spec.sumZ l = Spec.sumZ l'.
Proof. induction 1; simpl; lia. Qed.

Lemma accumulate_weights_sums d a b :
  fold_left
    (fun acc item =>
       let weight := severity_weights (fst item) in
       (fst acc + weight * snd item, snd acc + weight))
    d (a, b)
  = (a + Spec.sumZ (map (fun it => severity_weights (fst it) * snd it) d),
     b + Spec.sumZ (map (fun it => severity_weights (fst it)) d)).
Proof.
  revert a b. induction d as [|[s c] d IH]; intros a b; simpl.
  - f_equal; lia.
  - rewrite IH. simpl. f_equal; lia.
Qed.

(** The loop over the counter computes the two sums of the
    specification. *)
Lemma accumulate_weights_spec findings :
  accumulate_weights (Counter (map SecurityFinding.severity findings))
  = (Spec.weightedSum findings, Spec.totalWeight findings).
Proof.
  unfold accumulate_weights. rewrite accumulate_weights_sums.
  set (d := Counter (map SecurityFinding.severity findings)).
  pose proof (dict_items_get _ severity_eqb_spec d 0
                (Counter_NoDup _)) as Hd.
  pose proof (Counter_keys_present findings) as Hp. fold d in Hp.
  unfold Spec.weightedSum, Spec.totalWeight.
  change Spec.weight with severity_weights.
  rewrite Hd at 1 2. rewrite !map_map. simpl.
  f_equal.
  - rewrite <- (sumZ_perm _ _
      (Permutation_map
         (fun s => severity_weights s * Spec.count s findings) Hp)).
    f_equal. apply map_ext. intros s. unfold d.
    rewrite Counter_get. reflexivity.
  - rewrite <- (sumZ_perm _ _ (Permutation_map severity_weights Hp)).
    reflexivity.
Qed.

(** Every severity present has count at least 1, so the weighted sum
    dominates the total weight, which is positive as soon as there is
    one finding. *)
Lemma weights_dominate f l :
  0 < Spec.totalWeight (f :: l) <= Spec.weightedSum (f :: l).
Proof.
  set (fs := f :: l).
  assert (Hhead : 0 < Spec.count (SecurityFinding.severity f) fs).
  { apply count_pos_In. simpl. auto. }
  unfold Spec.totalWeight, Spec.weightedSum, Spec.severities_present,
    all_severities.
  simpl filter.
  pose proof (count_nonneg CRITICAL fs). pose proof (count_nonneg HIGH fs).
  pose proof (count_nonneg MEDIUM fs). pose proof (count_nonneg LOW fs).
  pose proof (count_nonneg INFO fs).
  destruct (SecurityFinding.severity f);
    destruct (0 <? Spec.count CRITICAL fs) eqn:E1;
    destruct (0 <? Spec.count HIGH fs) eqn:E2;
    destruct (0 <? Spec.count MEDIUM fs) eqn:E3;
    destruct (0 <? Spec.count LOW fs) eqn:E4;
    destruct (0 <? Spec.count INFO fs) eqn:E5;
    rewrite ?Z.ltb_lt, ?Z.ltb_ge in *;
    cbn [map Spec.sumZ fold_right Spec.weight]; lia.
Qed.

Lemma scaled_product_ge_100 (ws tw : Z) (density : Q) :
  0 < tw <= ws -> (1 <= density)%Q ->
  (100 <= inject_Z ws / inject_Z tw * 100 * density)%Q.
Proof.
  intros [Htw Hws] Hd.
  assert (H1 : (1 <= inject_Z ws / inject_Z tw)%Q).
  { apply Qle_shift_div_l.
    - change 0%Q with (inject_Z 0). rewrite <- Zlt_Qlt. exact Htw.
    - rewrite Qmult_1_l, <- Zle_Qle. exact Hws. }
  nra.
Qed.

Lemma density_ge_1 (n : Z) (k : Q) :
  0 <= n -> (0 < k)%Q -> (1 <= 1 + inject_Z n / k)%Q.
Proof.
  intros Hn Hk.
  assert (0 <= inject_Z n / k)%Q.
  { apply Qle_shift_div_l; [exact Hk|].
    rewrite Qmult_0_l. change 0%Q with (inject_Z 0).
    rewrite <- Zle_Qle. exact Hn. }
  lra.
Qed.

Lemma py_min_cap (x : Q) : (100 <= x)%Q -> py_min 100 x = 100%Q.
Proof.
  intros H. unfold py_min.
  apply Qle_bool_iff in H. rewrite H. reflexivity.
Qed.

Lemma overall_score_nonempty f l :
  calculate_overall_risk_score (f :: l) = 100.
Proof.
  unfold calculate_overall_risk_score.
  rewrite accumulate_weights_spec.
  pose proof (weights_dominate f l) as Hw.
  destruct (Z.eqb_spec (Spec.totalWeight (f :: l)) 0) as [E|_]; [lia|].
  rewrite py_min_cap; [reflexivity|].
  apply scaled_product_ge_100; [exact Hw|].
  apply py_min_lower; [lra|].
  apply density_ge_1; [apply len_nonneg | lra].
Qed.

Lemma spec_score_nonempty f l : Spec.finalScore (f :: l) = 100.
Proof.
  unfold Spec.finalScore.
  apply Z.min_l, py_round_lower.
  change (inject_Z 100) with 100%Q.
  unfold Spec.baseScore.
  apply scaled_product_ge_100; [apply weights_dominate|].
  unfold Spec.densityFactor. apply Q.min_glb; [lra|].
  apply density_ge_1; [apply len_nonneg | lra].
Qed.

End OverallScore.

(** Every entry of the counter holds the number of findings of its
    severity, which is at least 1. *)
Lemma Counter_items_count (findings : list SecurityFinding.t) s c :
  In (s, c)
     (RiskScoring.Counter (map SecurityFinding.severity findings)) ->
  c = Spec.count s findings /\ 1 <= c.
Proof.
  intros Hin.
  pose proof (dict_items_get _ severity_eqb_spec
                (RiskScoring.Counter
                   (map SecurityFinding.severity findings)) 0
                (Counter_NoDup _)) as Hitems.
  rewrite Hitems in Hin. apply in_map_iff in Hin.
  destruct Hin as [k [E Hk]]. inversion E; subst; clear E.
  rewrite Counter_get. split; [reflexivity|].
  apply Counter_In, count_pos_In in Hk. lia.
Qed.

(** C1.  For every sequence of findings [calculate_overall_risk_score]
    returns an integer between 0 and 100 that equals
    min(100, round(baseScore x densityFactor)), with baseScore the ratio
    of the weighted sum to the total weight over the severities present,
    times 100, the weights being critical=100, high=75, medium=50,
    low=25, info=10, and densityFactor = min(1.5, 1 + n/100); the loop
    over the counter computes exactly those two sums with exactly those
    weights; the empty sequence scores 0; and one critical plus two high
    findings have weighted sum 250, total weight 175, an uncapped
    rounded product of 147 and the score 100, the cap being applied
    after the density factor. *)
Theorem overall_score_matches_spec :
  forall findings : list SecurityFinding.t,
    0 <= RiskScoring.calculate_overall_risk_score findings <= 100
    /\ (RiskScoring.severity_weights CRITICAL = 100
        /\ RiskScoring.severity_weights HIGH = 75
        /\ RiskScoring.severity_weights MEDIUM = 50
        /\ RiskScoring.severity_weights LOW = 25
        /\ RiskScoring.severity_weights INFO = 10)
    /\ (forall s, RiskScoring.severity_weights s = Spec.weight s)
    /\ RiskScoring.accumulate_weights
         (RiskScoring.Counter (map SecurityFinding.severity findings))
       = (Spec.weightedSum findings, Spec.totalWeight findings)
    /\ RiskScoring.calculate_overall_risk_score findings
       = Spec.finalScore findings
    /\ RiskScoring.calculate_overall_risk_score [] = 0
    /\ (let example := [Sample.finding "a" CRITICAL 90;
                        Sample.finding "b" HIGH 70;
                        Sample.finding "c" HIGH 60] in
        Spec.weightedSum example = 250
        /\ Spec.totalWeight example = 175
        /\ RiskScoring.accumulate_weights
             (RiskScoring.Counter (map SecurityFinding.severity example))
           = (250, 175)
        /\ (Spec.densityFactor example == 103 # 100)%Q
        /\ py_round (Spec.baseScore example * Spec.densityFactor example)
           = 147
        /\ RiskScoring.calculate_overall_risk_score example = 100).
Proof.
  intros findings.
  assert (Heq : RiskScoring.calculate_overall_risk_score findings
                = Spec.finalScore findings).
  { destruct findings as [|f l].
    - reflexivity.
    - rewrite overall_score_nonempty, spec_score_nonempty. reflexivity. }
  split; [|split; [|split; [|split; [|split; [|split]]]]].
  - destruct findings as [|f l];
      [simpl | rewrite overall_score_nonempty]; lia.
  - repeat split; reflexivity.
  - intros []; reflexivity.
  - apply accumulate_weights_spec.
  - exact Heq.
  - reflexivity.
  - vm_compute. repeat split; reflexivity.
Qed.

(** C2.  [calculate_overall_risk_score] tells the empty sequence from
    the others and nothing more: it returns 0 for the empty sequence and
    exactly 100 for every non-empty one, whatever the mix of
    severities, because every severity counted has count at least 1, so
    that the total weight is positive and at most the weighted sum. *)
Theorem overall_score_nonempty_is_100 :
  forall findings : list SecurityFinding.t,
    (findings <> [] ->
       (let sums := RiskScoring.accumulate_weights
                      (RiskScoring.Counter
                         (map SecurityFinding.severity findings)) in
        0 < snd sums <= fst sums)
       /\ RiskScoring.calculate_overall_risk_score findings = 100)
    /\ (findings = [] ->
          RiskScoring.calculate_overall_risk_score findings = 0)
    /\ (RiskScoring.calculate_overall_risk_score findings = 100
        <-> findings <> [])
    /\ (RiskScoring.calculate_overall_risk_score findings = 0
        <-> findings = [])
    /\ (forall s c,
          In (s, c)
             (RiskScoring.Counter (map SecurityFinding.severity findings))
          -> c = Spec.count s findings /\ 1 <= c).
Proof.
  intros findings.
  split; [|split; [|split; [|split]]].
  - destruct findings as [|f l]; intros Hne; [congruence|]. split.
    + cbv zeta. rewrite accumulate_weights_spec. apply weights_dominate.
    + apply overall_score_nonempty.
  - intros ->. reflexivity.
  - destruct findings as [|f l].
    + split; [discriminate | congruence].
    + rewrite overall_score_nonempty. split; [discriminate | reflexivity].
  - destruct findings as [|f l].
    + split; reflexivity.
    + rewrite overall_score_nonempty. split; discriminate.
  - intros s c. apply Counter_items_count.
Qed.

Lemma overall_score_nonempty_is_100_witness :
  [Sample.finding "a" INFO 5] <> []
  /\ RiskScoring.calculate_overall_risk_score [Sample.finding "a" INFO 5]
     = 100
  /\ RiskScoring.calculate_overall_risk_score [] = 0.
Proof.
  split; [discriminate|]. split.
  - apply (proj1 (overall_score_nonempty_is_100
                    [Sample.finding "a" INFO 5])).
    discriminate.
  - apply (proj1 (proj2 (overall_score_nonempty_is_100 []))).
    reflexivity.
Defined.

(* ===================================================================== *)
(** ** Risk scoring: the per-resource score *)
(* ===================================================================== *)

(** The order that [max] uses on severities is the alphabetical order of
    their names, in which "medium" is the greatest and "critical" the
    least. *)
Lemma severity_gt_alphabetical :
  forall a b,
    severity_gt a b = true <->
    In (b, a)
       [ (CRITICAL, HIGH); (CRITICAL, INFO); (CRITICAL, LOW);
         (CRITICAL, MEDIUM); (HIGH, INFO); (HIGH, LOW); (HIGH, MEDIUM);
         (INFO, LOW); (INFO, MEDIUM); (LOW, MEDIUM) ].
Proof.
  intros a b.
  destruct a, b; vm_compute; split; intros H;
    try reflexivity; try discriminate;
    repeat (destruct H as [H|H]; [try discriminate H|]);
    try contradiction; tauto.
Qed.

(** C3.  On a resource with one critical and one medium finding
    [calculate_resource_risk_score] takes medium as the base severity and
    returns 60, where the weight of the highest severity present
    (critical) gives 100; on the empty list it returns 0. *)
Theorem resource_score_uses_alphabetical_max :
  let fs := [Sample.finding "vm-1" CRITICAL 90;
             Sample.finding "vm-1" MEDIUM 30] in
  RiskScoring.max_from CRITICAL [MEDIUM] = MEDIUM
  /\ Spec.highest_severity fs = CRITICAL
  /\ RiskScoring.calculate_resource_risk_score fs = 60
  /\ Spec.resourceScore fs = 100
  /\ RiskScoring.calculate_resource_risk_score [] = 0.
Proof. vm_compute. repeat split; reflexivity. Qed.

(* ===================================================================== *)
(** ** Risk scoring: the severity histogram *)
(* ===================================================================== *)

Section Histogram.
Import RiskScoring.

Lemma dict_update_keys_all (other d : list (SeverityLevel * Z)) :
  dict_keys d = all_severities ->
  dict_keys (dict_update severity_eqb d other) = all_severities.
Proof.
  unfold dict_update. revert d.
  induction other as [|[k v] other IH]; intros d Hd; simpl.
  - exact Hd.
  - apply IH. rewrite (dict_keys_set _ severity_eqb_spec).
    replace (dict_mem severity_eqb d k) with true; [exact Hd|].
    symmetry. apply (dict_mem_In _ severity_eqb_spec). rewrite Hd.
    destruct k; simpl; tauto.
Qed.

Lemma dict_update_get (other d : list (SeverityLevel * Z)) s default :
  NoDup (dict_keys other) ->
  dict_get severity_eqb (dict_update severity_eqb d other) s default =
  if dict_mem severity_eqb other s
  then dict_get severity_eqb other s default
  else dict_get severity_eqb d s default.
Proof.
  unfold dict_update. revert d.
  induction other as [|[k v] other IH]; intros d Hnd; simpl.
  - reflexivity.
  - inversion Hnd as [|? ? Hnotin Hnd']; subst.
    rewrite (IH _ Hnd'), (dict_get_set _ severity_eqb_spec).
    destruct (severity_eqb_spec k s) as [->|Hne]; simpl.
    + replace (dict_mem severity_eqb other s) with false; [reflexivity|].
      symmetry. apply not_true_is_false. intros Hm.
      apply (dict_mem_In _ severity_eqb_spec) in Hm. contradiction.
    + reflexivity.
Qed.

Lemma histogram_get findings s :
  dict_get severity_eqb (get_findings_by_severity findings) s 0
  = Spec.count s findings.
Proof.
  unfold get_findings_by_severity.
  rewrite dict_update_get by apply Counter_NoDup.
  rewrite Counter_get.
  destruct (dict_mem severity_eqb _ s) eqn:Hm; [reflexivity|].
  assert (Hnot : ~ In s (map SecurityFinding.severity findings)).
  { rewrite <- Counter_In. intros Hin.
    apply (dict_mem_In _ severity_eqb_spec) in Hin. congruence. }
  rewrite <- count_pos_In in Hnot. pose proof (count_nonneg s findings).
  destruct s; simpl; lia.
Qed.

Lemma histogram_keys findings :
  dict_keys (get_findings_by_severity findings) = all_severities.
Proof. apply dict_update_keys_all. reflexivity. Qed.

(** The histogram, entry by entry. *)
Lemma histogram_explicit findings :
  get_findings_by_severity findings
  = map (fun s => (s, Spec.count s findings)) all_severities.
Proof.
  pose proof (histogram_keys findings) as Hk.
  rewrite (dict_items_get _ severity_eqb_spec
             (get_findings_by_severity findings) 0).
  - rewrite Hk. apply map_ext. intros s. rewrite histogram_get.
    reflexivity.
  - rewrite Hk. unfold all_severities.
    repeat constructor; simpl; intuition discriminate.
Qed.

Lemma counts_sum_to_len findings :
  Spec.sumZ (map (fun s => Spec.count s findings) all_severities)
  = len findings.
Proof.
  induction findings as [|f l IH].
  - reflexivity.
  - rewrite len_cons, <- IH. unfold all_severities, Spec.sumZ.
    cbn [map fold_right]. rewrite !count_cons.
    destruct (SecurityFinding.severity f); cbn [severity_eqb]; lia.
Qed.

Lemma histogram_shape findings :
  dict_keys (get_findings_by_severity findings) = all_severities
  /\ Forall (fun v => 0 <= v)
            (dict_values (get_findings_by_severity findings))
  /\ Spec.sumZ (dict_values (get_findings_by_severity findings))
     = len findings.
Proof.
  split; [apply histogram_keys|].
  rewrite histogram_explicit. unfold dict_values. rewrite map_map.
  cbn [snd]. split.
  - apply Forall_forall. intros v Hv. apply in_map_iff in Hv.
    destruct Hv as [s [<- _]]. apply count_nonneg.
  - apply counts_sum_to_len.
Qed.
End Histogram.

(* ===================================================================== *)
(** ** Risk scoring: prioritised ordering *)
(* ===================================================================== *)

Section Prioritize.
Import RiskScoring.

Lemma pair_leb_total a b : pair_leb a b = false -> pair_leb b a = true.
Proof.
  unfold pair_leb. destruct a as [a1 a2], b as [b1 b2]. simpl.
  rewrite orb_false_iff, andb_false_iff, orb_true_iff, andb_true_iff.
  rewrite !Z.ltb_ge, !Z.ltb_lt, !Z.eqb_eq, !Z.eqb_neq, !Z.leb_le, Z.leb_gt.
  lia.
Qed.

Lemma pair_leb_trans a b c :
  pair_leb a b = true -> pair_leb b c = true -> pair_leb a c = true.
Proof.
  unfold pair_leb. destruct a as [a1 a2], b as [b1 b2], c as [c1 c2].
  simpl.
  rewrite !orb_true_iff, !andb_true_iff, !Z.ltb_lt, !Z.eqb_eq, !Z.leb_le.
  lia.
Qed.

Lemma pair_leb_before a b :
  pair_leb (priority_key a) (priority_key b) = true <-> Spec.before a b.
Proof.
  unfold pair_leb, priority_key, Spec.before. simpl.
  change priority_rank with Spec.priority.
  rewrite orb_true_iff, andb_true_iff, Z.ltb_lt, Z.eqb_eq, Z.leb_le.
  lia.
Qed.
End Prioritize.

Lemma StronglySorted_impl {A : Type} (R R' : A -> A -> Prop) (l : list A) :
  (forall x y, R x y -> R' x y) ->
  StronglySorted R l -> StronglySorted R' l.
Proof.
  intros Himp. induction 1 as [|x l Hs IH Hall]; constructor.
  - exact IH.
  - eapply Forall_impl; [|exact Hall]. intros y. apply Himp.
Qed.

(** C9.  [prioritize_findings] returns a permutation of its input in
    which every finding stands before all later ones in the order "more
    severe first (critical=0 ... info=4), then higher risk score first",
    and the findings sharing one severity and one risk score appear in
    the same relative order as in the input. *)
Theorem prioritize_findings_stable_sort :
  forall findings : list SecurityFinding.t,
    Permutation (RiskScoring.prioritize_findings findings) findings
    /\ StronglySorted Spec.before (RiskScoring.prioritize_findings findings)
    /\ (forall s score,
          filter (Spec.same_priority s score)
                 (RiskScoring.prioritize_findings findings)
          = filter (Spec.same_priority s score) findings).
Proof.
  intros findings. unfold RiskScoring.prioritize_findings.
  split; [apply sorted_perm | split].
  - eapply StronglySorted_impl;
      [|apply sorted_sorted; [apply pair_leb_total | apply pair_leb_trans]].
    intros x y. apply pair_leb_before.
  - intros s score. apply sorted_filter.
    intros x y Hx Hy. apply pair_leb_before.
    unfold Spec.same_priority in Hx, Hy.
    apply andb_true_iff in Hx, Hy.
    destruct Hx as [Hxs Hxr], Hy as [Hys Hyr].
    destruct (severity_eqb_spec (SecurityFinding.severity x) s);
      [|discriminate].
    destruct (severity_eqb_spec (SecurityFinding.severity y) s);
      [|discriminate].
    apply Z.eqb_eq in Hxr, Hyr. right. split; [congruence | lia].
Qed.

(* ===================================================================== *)
(** ** The severity filter *)
(* ===================================================================== *)

Lemma filter_at_info (findings : list SecurityFinding.t) :
  Engine._filter_findings_by_severity findings INFO = findings.
Proof.
  unfold Engine._filter_findings_by_severity.
  induction findings as [|f l IH]; simpl; [reflexivity|].
  destruct (SecurityFinding.severity f); simpl; f_equal; exact IH.
Qed.

(** C6.  The severity filter returns the findings whose rank
    (info=0 < low=1 < medium=2 < high=3 < critical=4) is at least the
    rank of the threshold, in their input order; at threshold critical
    these are the critical findings, at threshold info the whole list. *)
Theorem severity_filter_keeps_rank_at_least_threshold :
  forall (findings : list SecurityFinding.t) (threshold : SeverityLevel),
    Engine._filter_findings_by_severity findings threshold
    = filter (fun f => Spec.severity_rank threshold
                       <=? Spec.severity_rank (SecurityFinding.severity f))
             findings
    /\ (forall f,
          In f (Engine._filter_findings_by_severity findings threshold)
          <-> In f findings
              /\ Spec.severity_rank threshold
                 <= Spec.severity_rank (SecurityFinding.severity f))
    /\ Engine._filter_findings_by_severity findings CRITICAL
       = filter (fun f => severity_eqb (SecurityFinding.severity f) CRITICAL)
                findings
    /\ Engine._filter_findings_by_severity findings INFO = findings.
Proof.
  intros findings threshold. split; [reflexivity | split; [|split]].
  - intros f. unfold Engine._filter_findings_by_severity.
    rewrite filter_In, Z.leb_le. reflexivity.
  - unfold Engine._filter_findings_by_severity. apply filter_ext.
    intros f. destruct (SecurityFinding.severity f); reflexivity.
  - apply filter_at_info.
Qed.

(* ===================================================================== *)
(** ** Risk scoring: the trend between two scans *)
(* ===================================================================== *)

Section Trend.
Import RiskScoring.

(** Rounding moves a value by at most one half. *)
Lemma py_round_near (x : Q) :
  (x - (1 # 2) <= inject_Z (py_round x) <= x + (1 # 2))%Q.
Proof.
  unfold py_round. set (f := Qfloor x).
  pose proof (Qfloor_le x) as Hlo. pose proof (Qlt_floor x) as Hhi.
  fold f in Hlo, Hhi. rewrite inject_Z_plus in Hhi.
  change (inject_Z 1) with 1%Q in Hhi.
  destruct (Qcompare_spec (x - inject_Z f) (1 # 2)) as [He|Hl|Hg].
  - destruct (Z.even f); rewrite ?inject_Z_plus;
      change (inject_Z 1) with 1%Q; lra.
  - lra.
  - rewrite inject_Z_plus. change (inject_Z 1) with 1%Q. lra.
Qed.

(** Rounding to two decimals moves a value by at most 0.005. *)
Lemma py_round2_near (x : Q) :
  (x - (1 # 200) <= py_round2 x <= x + (1 # 200))%Q.
Proof.
  unfold py_round2.
  pose proof (py_round_near (x * 100)) as H.
  assert (E : (py_round (x * 100) # 100
               == inject_Z (py_round (x * 100)) / 100)%Q)
    by apply Qmake_Qdiv.
  rewrite E.
  set (r := inject_Z (py_round (x * 100))) in *.
  split.
  - apply Qle_shift_div_l; lra.
  - apply Qle_shift_div_r; lra.
Qed.







End Trend.




(* ===================================================================== *)
(** ** The orchestrator *)
(* ===================================================================== *)

Section Orchestrator.
Import Engine Observed.
Variable env : Env.
Variable subscription_id : string.

Lemma succeeded_findings_cons entry rest :
  succeeded_findings env subscription_id (entry :: rest)
  = findings_of env subscription_id entry
    ++ succeeded_findings env subscription_id rest.
Proof. reflexivity. Qed.

Lemma resources_counted_cons entry rest :
  resources_counted env subscription_id (entry :: rest)
  = count_resource_ids (findings_of env subscription_id entry)
    + resources_counted env subscription_id rest.
Proof. reflexivity. Qed.

Lemma loop_events_cons entry rest :
  loop_events env subscription_id (entry :: rest)
  = events_of env subscription_id entry
    ++ loop_events env subscription_id rest.
Proof. reflexivity. Qed.

(** The scanner loop never raises: it accumulates the findings of the
    scanners that succeeded and makes one scan call per selected
    scanner. *)
Lemma run_scanners_spec scanners_to_run acc tr :
  run_scanners env subscription_id scanners_to_run acc tr
  = (Returned
       (fst acc ++ succeeded_findings env subscription_id scanners_to_run,
        snd acc + resources_counted env subscription_id scanners_to_run),
     tr ++ loop_events env subscription_id scanners_to_run).
Proof.
  revert acc tr.
  induction scanners_to_run as [|[resource_type cls] rest IH];
    intros [fs n] tr.
  - cbn. unfold ret. rewrite !app_nil_r, Z.add_0_r. reflexivity.
  - rewrite succeeded_findings_cons, resources_counted_cons,
      loop_events_cons.
    cbn [run_scanners]. unfold bind at 1. unfold try_except.
    unfold bind at 1. unfold do_scan, perform.
    unfold findings_of, events_of. cbn [fst snd].
    destruct (scanner_scan env cls subscription_id) as [findings|e].
    + unfold ret. rewrite IH. cbn [fst snd].
      rewrite <- !app_assoc, Z.add_assoc. reflexivity.
    + unfold bind, do_print, perform, ret. rewrite IH. cbn [fst snd].
      rewrite <- !app_assoc. cbn [app].
      change (count_resource_ids []) with 0. rewrite Z.add_0_l.
      reflexivity.
Qed.

Lemma loop_events_scans scanners_to_run :
  filter is_scan (loop_events env subscription_id scanners_to_run)
  = map (fun entry => EvScan (snd entry) subscription_id) scanners_to_run.
Proof.
  unfold loop_events.
  induction scanners_to_run as [|entry rest IH]; simpl.
  - reflexivity.
  - rewrite filter_app, IH. unfold events_of.
    destruct (scanner_scan env (snd entry) subscription_id); reflexivity.
Qed.

Lemma bind_perform {A B : Type} ev (result : Trace -> Outcome A)
      (k : A -> M B) tr :
  bind (perform ev result) k tr
  = match result tr with
    | Returned a => k a (tr ++ [ev])
    | Raised e => (Raised e, tr ++ [ev])
    end.
Proof. unfold bind, perform. destruct (result tr); reflexivity. Qed.

Lemma bind_run_scanners {B : Type} scanners_to_run acc
      (k : list SecurityFinding.t * Z -> M B) tr :
  bind (run_scanners env subscription_id scanners_to_run acc) k tr
  = k (fst acc ++ succeeded_findings env subscription_id scanners_to_run,
       snd acc + resources_counted env subscription_id scanners_to_run)
      (tr ++ loop_events env subscription_id scanners_to_run).
Proof. unfold bind. rewrite run_scanners_spec. reflexivity. Qed.

(** Looking up the subscription never raises and costs one call. *)
Lemma bind_get_subscription_details :
  exists details,
    forall (B : Type) (k : option Subscription -> M B) tr,
      bind (_get_subscription_details env subscription_id) k tr
      = k details (tr ++ [EvListSubscriptions]).
Proof.
  unfold _get_subscription_details, try_except, do_list_subscriptions.
  destruct (list_subscriptions env) as [subs|e].
  - exists (find (fun sub => String.eqb (sub_id sub) subscription_id) subs).
    intros B k tr. unfold bind, perform, ret. reflexivity.
  - exists None.
    intros B k tr. unfold bind, perform, ret. reflexivity.
Qed.

(** A scan whose access check succeeds: the result and the trace. *)
Lemma scan_granted scan_request :
  validate_access env subscription_id = true ->
  let to_run := _get_scanners_to_run scan_request in
  let kept :=
    apply_threshold scan_request
      (succeeded_findings env subscription_id to_run) in
  exists name now duration,
    run_scan env subscription_id scan_request
    = (Returned
         (ScanResult.Build
            subscription_id name now
            (resources_counted env subscription_id to_run)
            (len kept)
            (RiskScoring.get_findings_by_severity kept)
            kept
            (RiskScoring.calculate_overall_risk_score kept)
            (Some duration)),
       [EvTime; EvValidateAccess subscription_id; EvListSubscriptions]
         ++ loop_events env subscription_id to_run
         ++ [EvTime; EvUtcNow]).
Proof.
  intros Haccess to_run kept.
  destruct bind_get_subscription_details as [details Hdetails].
  unfold run_scan, scan_subscription, do_time at 1.
  rewrite bind_perform. unfold try_except, do_validate_access.
  rewrite bind_perform, Haccess. cbn [negb].
  rewrite Hdetails, bind_run_scanners.
  unfold do_time, do_utcnow. rewrite !bind_perform. unfold ret.
  cbn [fst snd app]. fold to_run. rewrite Z.add_0_l.
  fold (apply_threshold scan_request
          (succeeded_findings env subscription_id to_run)).
  fold kept. rewrite <- !app_assoc. cbn [app].
  do 3 eexists. reflexivity.
Qed.

(** A scan whose access check fails: the result and the trace. *)
Lemma scan_denied scan_request :
  validate_access env subscription_id = false ->
  exists now duration,
    run_scan env subscription_id scan_request
    = (Returned
         (ScanResult.Build subscription_id None now 0 0 [] [] 0
                           (Some duration)),
       [EvTime; EvValidateAccess subscription_id; EvUtcNow; EvTime]).
Proof.
  intros Haccess.
  unfold run_scan, scan_subscription.
  unfold bind at 1. unfold do_time at 1, perform. cbn [app].
  unfold try_except at 1. unfold bind at 1.
  unfold do_validate_access, perform. rewrite Haccess. cbn [negb app].
  unfold raise, bind, do_utcnow, do_time, perform, ret. cbn [app].
  do 2 eexists. reflexivity.
Qed.

End Orchestrator.

(** C4 (as amended).  When the access check answers false,
    [scan_subscription] calls no scanner and does not look up the
    subscription; it raises nothing and returns a Scan Result for the
    target with no findings, zero totals, an empty histogram and risk
    score 0. *)
Theorem access_denied_returns_empty_result :
  forall (env : Engine.Env) (subscription_id : string)
         (scan_request : option ScanRequest.t),
    Engine.validate_access env subscription_id = false ->
    exists result trace,
      Engine.run_scan env subscription_id scan_request
      = (Engine.Returned result, trace)
      /\ (forall cls sub, ~ In (Engine.EvScan cls sub) trace)
      /\ ~ In Engine.EvListSubscriptions trace
      /\ ScanResult.subscription_id result = subscription_id
      /\ ScanResult.subscription_name result = None
      /\ ScanResult.findings result = []
      /\ ScanResult.total_findings result = 0
      /\ ScanResult.total_resources_scanned result = 0
      /\ ScanResult.findings_by_severity result = []
      /\ ScanResult.risk_score result = 0.
Proof.
  intros env subscription_id scan_request Haccess.
  destruct (scan_denied env subscription_id scan_request Haccess)
    as (now & duration & Hrun).
  do 2 eexists. split; [exact Hrun|].
  split.
  - intros cls sub Hin. simpl in Hin.
    repeat (destruct Hin as [Hin|Hin]; [discriminate Hin|]). exact Hin.
  - split.
    + intros Hin. simpl in Hin.
      repeat (destruct Hin as [Hin|Hin]; [discriminate Hin|]). exact Hin.
    + repeat split; reflexivity.
Qed.

Lemma access_denied_returns_empty_result_witness :
  Engine.validate_access Sample.env_denied "sub-1" = false
  /\ exists result trace,
       Engine.run_scan Sample.env_denied "sub-1" None
       = (Engine.Returned result, trace)
       /\ (forall cls sub, ~ In (Engine.EvScan cls sub) trace)
       /\ ScanResult.findings result = [].
Proof.
  split; [reflexivity|].
  destruct (access_denied_returns_empty_result
              Sample.env_denied "sub-1" None eq_refl)
    as (result & trace & Hrun & Hnoscan & _ & _ & _ & Hfindings & _).
  exists result, trace. repeat split; assumption.
Defined.

(** C4 (as stated) fails: for a target whose access check answers false
    the scan does not end in an error; a Scan Result comes back. *)
Lemma access_denied_is_not_an_error :
  Engine.validate_access Sample.env_denied "sub-1" = false
  /\ (exists result,
        fst (Engine.run_scan Sample.env_denied "sub-1" None)
        = Engine.Returned result)
  /\ (forall message,
        fst (Engine.run_scan Sample.env_denied "sub-1" None)
        <> Engine.Raised message).
Proof.
  split; [reflexivity|]. split.
  - eexists. vm_compute. reflexivity.
  - intros message. vm_compute. discriminate.
Qed.

(** C5 (as amended).  When the access check succeeds, whatever scanners
    raise, [scan_subscription] raises nothing, calls every selected
    scanner once in order, and returns a Scan Result whose findings are
    those of the scanners that succeeded, scanner by scanner and each in
    its returned order, restricted to the severity threshold of the
    request; without a request, or with threshold info, they are exactly
    the findings of the scanners that succeeded. *)
Theorem scanner_failures_are_isolated :
  forall (env : Engine.Env) (subscription_id : string)
         (scan_request : option ScanRequest.t),
    Engine.validate_access env subscription_id = true ->
    let to_run := Engine._get_scanners_to_run scan_request in
    let succeeded :=
      Observed.succeeded_findings env subscription_id to_run in
    exists result trace,
      Engine.run_scan env subscription_id scan_request
      = (Engine.Returned result, trace)
      /\ filter Observed.is_scan trace
         = map (fun entry => Engine.EvScan (snd entry) subscription_id)
               to_run
      /\ ScanResult.findings result
         = Observed.apply_threshold scan_request succeeded
      /\ (scan_request = None -> ScanResult.findings result = succeeded)
      /\ (forall request,
            scan_request = Some request ->
            ScanRequest.severity_threshold request = INFO ->
            ScanResult.findings result = succeeded).
Proof.
  intros env subscription_id scan_request Haccess to_run succeeded.
  destruct (scan_granted env subscription_id scan_request Haccess)
    as (name & now & duration & Hrun).
  do 2 eexists. split; [exact Hrun|].
  cbn [ScanResult.findings]. fold to_run. fold succeeded.
  split; [|split; [reflexivity | split]].
  - cbn [app filter Observed.is_scan]. rewrite filter_app.
    rewrite loop_events_scans. cbn. apply app_nil_r.
  - intros ->. reflexivity.
  - intros request -> Hinfo. unfold Observed.apply_threshold.
    rewrite Hinfo.
    apply filter_at_info.
Qed.

Lemma scanner_failures_are_isolated_witness :
  Engine.validate_access Sample.env_partial "sub-1" = true
  /\ exists result trace,
       Engine.run_scan Sample.env_partial "sub-1" None
       = (Engine.Returned result, trace)
       /\ ScanResult.findings result
          = [Sample.finding "nsg-1" HIGH 80;
             Sample.finding "nsg-2" MEDIUM 40;
             Sample.finding "kv-1" CRITICAL 95].
Proof.
  split; [reflexivity|].
  destruct (scanner_failures_are_isolated
              Sample.env_partial "sub-1" None eq_refl)
    as (result & trace & Hrun & _ & _ & Hall & _).
  exists result, trace. split; [exact Hrun|].
  rewrite (Hall eq_refl). reflexivity.
Defined.

(** C5 (as stated) fails: with a request for severity high and above,
    the storage scanner failing and the network and key-vault scanners
    succeeding, the medium finding that the network scanner returned is
    not in the Scan Result. *)
Lemma threshold_drops_findings_of_succeeded_scanners :
  Engine.validate_access Sample.env_partial "sub-1" = true
  /\ Observed.succeeded_findings Sample.env_partial "sub-1" Engine.scanners
     = [Sample.finding "nsg-1" HIGH 80;
        Sample.finding "nsg-2" MEDIUM 40;
        Sample.finding "kv-1" CRITICAL 95]
  /\ exists result,
       fst (Engine.run_scan Sample.env_partial "sub-1"
                            (Some Sample.high_and_above))
       = Engine.Returned result
       /\ ScanResult.findings result
          = [Sample.finding "nsg-1" HIGH 80;
             Sample.finding "kv-1" CRITICAL 95]
       /\ ScanResult.findings result
          <> Observed.succeeded_findings
               Sample.env_partial "sub-1" Engine.scanners.
Proof.
  split; [reflexivity|]. split; [reflexivity|].
  eexists. split; [vm_compute; reflexivity|].
  split; [reflexivity | discriminate].
Qed.

Section ResourceCount.
Import Engine Observed.

Lemma count_resource_ids_incl (l l' : list SecurityFinding.t) :
  incl l l' -> count_resource_ids l <= count_resource_ids l'.
Proof.
  intros Hincl. unfold count_resource_ids, len.
  apply Nat2Z.inj_le, NoDup_incl_length; [apply NoDup_nodup|].
  intros rid Hrid. apply nodup_In in Hrid. apply nodup_In.
  apply in_map_iff in Hrid. destruct Hrid as [f [<- Hf]].
  apply in_map, Hincl, Hf.
Qed.

Lemma count_resource_ids_app (l1 l2 : list SecurityFinding.t) :
  count_resource_ids (l1 ++ l2)
  <= count_resource_ids l1 + count_resource_ids l2.
Proof.
  unfold count_resource_ids, len.
  rewrite <- Nat2Z.inj_add, <- length_app.
  apply Nat2Z.inj_le, NoDup_incl_length; [apply NoDup_nodup|].
  intros rid Hrid. apply nodup_In in Hrid.
  rewrite map_app in Hrid. apply in_app_or in Hrid.
  apply in_or_app. rewrite !nodup_In. exact Hrid.
Qed.

(** Counting per scanner never undercounts the resources named by the
    merged findings. *)
Lemma count_succeeded_le env subscription_id scanners_to_run :
  count_resource_ids
    (succeeded_findings env subscription_id scanners_to_run)
  <= resources_counted env subscription_id scanners_to_run.
Proof.
  induction scanners_to_run as [|entry rest IH].
  - cbn. lia.
  - rewrite succeeded_findings_cons, resources_counted_cons.
    pose proof (count_resource_ids_app
                  (findings_of env subscription_id entry)
                  (succeeded_findings env subscription_id rest)).
    lia.
Qed.

Lemma apply_threshold_incl scan_request findings :
  incl (apply_threshold scan_request findings) findings.
Proof.
  destruct scan_request as [request|]; simpl.
  - unfold _filter_findings_by_severity. apply incl_filter.
  - apply incl_refl.
Qed.
End ResourceCount.

Section DistinctResources.
Import Engine Observed.

(** The engine's count is the number of distinct resource ids. *)
Lemma count_resource_ids_distinct findings ids :
  Derived.distinct_ids findings ids ->
  count_resource_ids findings = len ids.
Proof.
  intros [Hnd Hmem]. unfold count_resource_ids, len. f_equal.
  apply Permutation_length, NoDup_Permutation.
  - apply NoDup_nodup.
  - exact Hnd.
  - intros x. rewrite nodup_In, Hmem. reflexivity.
Qed.

Lemma distinct_ids_exist findings :
  Derived.distinct_ids findings
    (nodup string_dec (map SecurityFinding.resource_id findings)).
Proof.
  split; [apply NoDup_nodup|]. intros x. apply nodup_In.
Qed.

Lemma resources_counted_distinct env subscription_id scanners_to_run
      per_scanner :
  Forall2
    (fun entry ids =>
       Derived.distinct_ids (findings_of env subscription_id entry) ids)
    scanners_to_run per_scanner ->
  resources_counted env subscription_id scanners_to_run
  = Spec.sumZ (map len per_scanner).
Proof.
  induction 1 as [|entry ids rest per Hd _ IH].
  - reflexivity.
  - rewrite resources_counted_cons, IH,
      (count_resource_ids_distinct _ _ Hd).
    reflexivity.
Qed.

Lemma per_scanner_ids_exist env subscription_id scanners_to_run :
  exists per_scanner,
    Forall2
      (fun entry ids =>
         Derived.distinct_ids (findings_of env subscription_id entry) ids)
      scanners_to_run per_scanner.
Proof.
  induction scanners_to_run as [|entry rest [per IH]].
  - exists []. constructor.
  - eexists (_ :: per). constructor; [apply distinct_ids_exist | exact IH].
Qed.
End DistinctResources.

(** C10 (as amended).  When the access check succeeds,
    [total_resources_scanned] is the sum, over the selected scanners, of
    the number of distinct [resource_id] values among the findings that
    scanner returned (none for a scanner that raised), counted before
    the severity filter is applied: however the distinct values of each
    scanner are listed, the field is the sum of the lengths of these
    lists.  It is therefore at least the number of distinct
    [resource_id] values among the findings of the Scan Result. *)
Theorem resources_scanned_counted_per_scanner_before_filter :
  forall (env : Engine.Env) (subscription_id : string)
         (scan_request : option ScanRequest.t),
    Engine.validate_access env subscription_id = true ->
    let to_run := Engine._get_scanners_to_run scan_request in
    let lists_distinct_ids per_scanner :=
      Forall2
        (fun entry ids =>
           Derived.distinct_ids
             (Observed.findings_of env subscription_id entry) ids)
        to_run per_scanner in
    exists result trace,
      Engine.run_scan env subscription_id scan_request
      = (Engine.Returned result, trace)
      /\ (exists per_scanner, lists_distinct_ids per_scanner)
      /\ (forall per_scanner,
            lists_distinct_ids per_scanner ->
            ScanResult.total_resources_scanned result
            = Spec.sumZ (map len per_scanner))
      /\ ScanResult.total_resources_scanned result
         = Observed.resources_counted env subscription_id to_run
      /\ (forall ids,
            Derived.distinct_ids (ScanResult.findings result) ids ->
            len ids <= ScanResult.total_resources_scanned result)
      /\ Engine.count_resource_ids (ScanResult.findings result)
         <= ScanResult.total_resources_scanned result.
Proof.
  intros env subscription_id scan_request Haccess to_run lists_distinct_ids.
  destruct (scan_granted env subscription_id scan_request Haccess)
    as (name & now & duration & Hrun).
  assert (Hle :
    Engine.count_resource_ids
      (Observed.apply_threshold scan_request
         (Observed.succeeded_findings env subscription_id to_run))
    <= Observed.resources_counted env subscription_id to_run).
  { eapply Z.le_trans; [|apply count_succeeded_le].
    apply count_resource_ids_incl, apply_threshold_incl. }
  do 2 eexists. split; [exact Hrun|].
  cbn [ScanResult.findings ScanResult.total_resources_scanned].
  fold to_run.
  split; [apply per_scanner_ids_exist|].
  split; [intros per Hper; apply resources_counted_distinct, Hper|].
  split; [reflexivity|]. split; [|exact Hle].
  intros ids Hids.
  rewrite <- (count_resource_ids_distinct _ _ Hids). exact Hle.
Qed.

Lemma resources_scanned_counted_per_scanner_before_filter_witness :
  Engine.validate_access Derived.env_repeated "sub-1" = true
  /\ exists result trace,
       Engine.run_scan Derived.env_repeated "sub-1"
                       (Some Sample.high_and_above)
       = (Engine.Returned result, trace)
       /\ ScanResult.total_resources_scanned result = 3.
Proof.
  split; [reflexivity|].
  destruct (resources_scanned_counted_per_scanner_before_filter
              Derived.env_repeated "sub-1" (Some Sample.high_and_above)
              eq_refl)
    as (result & trace & Hrun & _ & Hsum & _).
  exists result, trace. split; [exact Hrun|].
  rewrite (Hsum [[]; ["nsg-1"; "nsg-2"]; ["kv-1"]; []; []]%string).
  - reflexivity.
  - repeat (apply Forall2_cons || apply Forall2_nil);
      (split;
       [ repeat constructor; simpl; intuition discriminate
       | intros x; simpl; tauto ]).
Defined.

(** C10 (as stated) fails: with a request for severity high and above,
    the network scanner reporting two findings on one security group
    and one on another, and the key-vault scanner one finding, three
    resources are counted while the findings of the Scan Result name
    two distinct resources. *)
Lemma resources_scanned_exceeds_resources_in_result :
  exists result,
    fst (Engine.run_scan Derived.env_repeated "sub-1"
                         (Some Sample.high_and_above))
    = Engine.Returned result
    /\ ScanResult.total_resources_scanned result = 3
    /\ map SecurityFinding.resource_id (ScanResult.findings result)
       = ["nsg-1"; "kv-1"]%string
    /\ Derived.distinct_ids (ScanResult.findings result)
                            ["nsg-1"; "kv-1"]%string
    /\ (forall ids,
          Derived.distinct_ids (ScanResult.findings result) ids ->
          len ids = 2
          /\ ScanResult.total_resources_scanned result <> len ids).
Proof.
  eexists. split; [vm_compute; reflexivity|].
  split; [reflexivity|]. split; [reflexivity|].
  assert (Hd : Derived.distinct_ids
                 [Sample.finding "nsg-1" HIGH 80;
                  Sample.finding "kv-1" CRITICAL 95]
                 ["nsg-1"; "kv-1"]%string).
  { split.
    - repeat constructor; simpl; intuition discriminate.
    - intros x. reflexivity. }
  split; [exact Hd|].
  intros ids [Hnd Hmem]. destruct Hd as [Hnd' Hmem'].
  assert (Hlen : len ids = 2).
  { unfold len.
    rewrite (Permutation_length
               (NoDup_Permutation Hnd Hnd'
                  (fun x => iff_trans (Hmem x) (iff_sym (Hmem' x))))).
    reflexivity. }
  split; [exact Hlen|]. rewrite Hlen. discriminate.
Qed.

(** C7 (as amended).  For every list of findings the histogram of
    [get_findings_by_severity] has exactly the five severity keys, with
    non-negative values that add up to the number of findings; and the
    [findings_by_severity] of the Scan Result of every scan whose access
    check succeeded is that histogram of the result's own findings, so it
    has the five keys, each holding the number of findings of that
    severity (0 when there is none). *)
Theorem histogram_has_five_keys :
  (forall findings : list SecurityFinding.t,
     let histogram := RiskScoring.get_findings_by_severity findings in
     dict_keys histogram = all_severities
     /\ Forall (fun v => 0 <= v) (dict_values histogram)
     /\ Spec.sumZ (dict_values histogram) = len findings)
  /\ (forall (env : Engine.Env) (subscription_id : string)
             (scan_request : option ScanRequest.t),
        Engine.validate_access env subscription_id = true ->
        exists result trace,
          Engine.run_scan env subscription_id scan_request
          = (Engine.Returned result, trace)
          /\ ScanResult.findings_by_severity result
             = RiskScoring.get_findings_by_severity
                 (ScanResult.findings result)
          /\ dict_keys (ScanResult.findings_by_severity result)
             = all_severities
          /\ (forall s,
                dict_get severity_eqb
                         (ScanResult.findings_by_severity result) s 0
                = Spec.count s (ScanResult.findings result))).
Proof.
  split.
  - intros findings histogram. apply histogram_shape.
  - intros env subscription_id scan_request Haccess.
    destruct (scan_granted env subscription_id scan_request Haccess)
      as (name & now & duration & Hrun).
    do 2 eexists. split; [exact Hrun|].
    cbn [ScanResult.findings_by_severity ScanResult.findings].
    split; [reflexivity|]. split; [apply histogram_keys|].
    intros s. apply histogram_get.
Qed.

Lemma histogram_has_five_keys_witness :
  Engine.validate_access Sample.env_partial "sub-1" = true
  /\ exists result trace,
       Engine.run_scan Sample.env_partial "sub-1" None
       = (Engine.Returned result, trace)
       /\ dict_keys (ScanResult.findings_by_severity result)
          = [CRITICAL; HIGH; MEDIUM; LOW; INFO].
Proof.
  split; [reflexivity|].
  destruct (proj2 histogram_has_five_keys
              Sample.env_partial "sub-1"%string None eq_refl)
    as (result & trace & Hrun & _ & Hkeys & _).
  exists result, trace. split; [exact Hrun | exact Hkeys].
Defined.

(** C7 (as stated) fails: the Scan Result returned for a target whose
    access check answers false has an empty [findings_by_severity]. *)
Lemma denied_scan_has_empty_histogram :
  Engine.validate_access Sample.env_denied "sub-1" = false
  /\ exists result,
       fst (Engine.run_scan Sample.env_denied "sub-1" None)
       = Engine.Returned result
       /\ ScanResult.findings_by_severity result = []
       /\ dict_keys (ScanResult.findings_by_severity result)
          <> all_severities.
Proof.
  split; [reflexivity|].
  eexists. split; [vm_compute; reflexivity|].
  split; [reflexivity | discriminate].
Qed.

(* ===================================================================== *)
(** * Further properties of the code *)
(* ===================================================================== *)

(** ** Enumerations *)

(** Looking a member up by its value inverts taking the value of a
    member, for both enumerations: the value of a member finds that
    member, and a value that finds a member is the value of that
    member. *)
Theorem enum_value_round_trip :
  (forall s, EnumLookup.severity_of_value (severity_value s) = Some s)
  /\ (forall v s,
        EnumLookup.severity_of_value v = Some s -> severity_value s = v)
  /\ (forall r,
        EnumLookup.resource_type_of_value (resource_type_value r) = Some r)
  /\ (forall v r,
        EnumLookup.resource_type_of_value v = Some r ->
        resource_type_value r = v).
Proof.
  split; [|split; [|split]].
  - intros []; reflexivity.
  - intros v s H. apply find_some in H. destruct H as [_ H].
    apply String.eqb_eq in H. exact H.
  - intros []; reflexivity.
  - intros v r H. apply find_some in H. destruct H as [_ H].
    apply String.eqb_eq in H. exact H.
Qed.

Lemma enum_value_round_trip_witness :
  EnumLookup.severity_of_value "high" = Some HIGH
  /\ severity_value HIGH = "high"%string.
Proof.
  split; [reflexivity|].
  apply (proj1 (proj2 enum_value_round_trip) "high"%string HIGH).
  reflexivity.
Defined.

(** ** Risk levels and scores *)

(** [get_risk_level] is monotone: a higher score never receives a milder
    label. *)
Theorem risk_level_monotone :
  forall a b : Z,
    a <= b ->
    RiskSummary.level_rank (RiskScoring.get_risk_level a)
    <= RiskSummary.level_rank (RiskScoring.get_risk_level b).
Proof.
  intros a b Hab. unfold RiskScoring.get_risk_level.
  destruct (Z.leb_spec 80 a), (Z.leb_spec 60 a), (Z.leb_spec 40 a),
    (Z.leb_spec 20 a), (Z.leb_spec 80 b), (Z.leb_spec 60 b),
    (Z.leb_spec 40 b), (Z.leb_spec 20 b);
    try lia; vm_compute; discriminate.
Qed.

Lemma risk_level_monotone_witness :
  35 <= 80
  /\ RiskSummary.level_rank (RiskScoring.get_risk_level 35)
     <= RiskSummary.level_rank (RiskScoring.get_risk_level 80).
Proof.
  split; [lia|]. apply (risk_level_monotone 35 80). lia.
Defined.

(** Adding findings, in front or behind, never lowers the overall risk
    score. *)
Theorem overall_score_monotone :
  forall findings more : list SecurityFinding.t,
    RiskScoring.calculate_overall_risk_score findings
    <= RiskScoring.calculate_overall_risk_score (findings ++ more)
    /\ RiskScoring.calculate_overall_risk_score findings
       <= RiskScoring.calculate_overall_risk_score (more ++ findings).
Proof.
  intros findings more. split.
  - destruct findings as [|f l].
    + destruct more as [|g m];
        [simpl; lia | simpl app; rewrite overall_score_nonempty].
      simpl. lia.
    + simpl app. rewrite !overall_score_nonempty. lia.
  - destruct more as [|g m]; [simpl; lia|].
    simpl app. rewrite overall_score_nonempty.
    destruct findings as [|f l];
      [simpl | rewrite overall_score_nonempty]; lia.
Qed.

Section ResourceScore.
Import RiskScoring.

(** On a non-negative value truncation is the floor. *)
Lemma py_int_floor (x : Q) : (0 <= x)%Q -> py_int x = Qfloor x.
Proof.
  intros Hx. destruct x as [n d]. unfold py_int, Qfloor. simpl.
  apply Z.quot_div_nonneg; [|lia].
  unfold Qle in Hx. simpl in Hx. lia.
Qed.

Lemma py_int_lower (z : Z) (x : Q) :
  0 <= z -> (inject_Z z <= x)%Q -> z <= py_int x.
Proof.
  intros Hz Hx. rewrite py_int_floor.
  - apply Qfloor_resp_le in Hx. rewrite Qfloor_Z in Hx. exact Hx.
  - eapply Qle_trans; [|exact Hx].
    change 0%Q with (inject_Z 0). rewrite <- Zle_Qle. exact Hz.
Qed.

Lemma py_int_upper (z : Z) (x : Q) :
  (0 <= x)%Q -> (x <= inject_Z z)%Q -> py_int x <= z.
Proof.
  intros H0 Hx. rewrite py_int_floor by exact H0.
  apply Qfloor_resp_le in Hx. rewrite Qfloor_Z in Hx. exact Hx.
Qed.

Lemma py_min_le_l (a b : Q) : (py_min a b <= a)%Q.
Proof.
  unfold py_min. destruct (Qle_bool a b) eqn:E; [apply Qle_refl|].
  apply Qlt_le_weak, Qnot_le_lt. intros H.
  apply Qle_bool_iff in H. congruence.
Qed.

Lemma py_min_Qmin (a b : Q) : py_min a b = Qmin a b.
Proof.
  unfold py_min, Qmin, GenericMinMax.gmin.
  destruct (Qle_bool a b) eqn:E; destruct (a ?= b)%Q eqn:C;
    try reflexivity.
  - apply Qle_bool_iff in E. apply Qle_alt in E. contradiction.
  - assert (H : (a <= b)%Q) by (apply Qle_alt; congruence).
    apply Qle_bool_iff in H. congruence.
  - assert (H : (a <= b)%Q) by (apply Qle_alt; congruence).
    apply Qle_bool_iff in H. congruence.
Qed.

Lemma severity_weights_range s : 10 <= severity_weights s <= 100.
Proof. destruct s; simpl; lia. Qed.

Lemma max_from_same s l :
  Forall (fun x => x = s) l -> max_from s l = s.
Proof.
  induction 1 as [|x l -> _ IH]; simpl; [reflexivity|].
  replace (severity_gt s s) with false by (destruct s; reflexivity).
  exact IH.
Qed.

Lemma highest_severity_same s (l : list SecurityFinding.t) :
  l <> [] ->
  Forall (fun f => SecurityFinding.severity f = s) l ->
  Spec.highest_severity l = s.
Proof.
  intros Hne Hall. induction Hall as [|f l Hf Hall IH]; [congruence|].
  simpl. rewrite Hf. destruct l as [|g l'].
  - simpl. destruct s; reflexivity.
  - rewrite IH by discriminate. destruct s; reflexivity.
Qed.
End ResourceScore.

(** The per-resource score of a non-empty list lies between 10 and 100,
    and when all findings of the resource have the same severity it is
    the weight of that severity times min(1.5, 1 + n/10), capped at 100
    and truncated. *)
Theorem resource_score_bounds_and_uniform_case :
  forall findings : list SecurityFinding.t,
    findings <> [] ->
    10 <= RiskScoring.calculate_resource_risk_score findings <= 100
    /\ (forall s,
          Forall (fun f => SecurityFinding.severity f = s) findings ->
          RiskScoring.calculate_resource_risk_score findings
          = py_int
              (Qmin 100
                 (inject_Z (RiskScoring.severity_weights s)
                  * Qmin (3 # 2) (1 + inject_Z (len findings) / 10))%Q)
          /\ RiskScoring.calculate_resource_risk_score findings
             = Spec.resourceScore findings).
Proof.
  intros [|f l] Hne; [congruence|]. split.
  - unfold RiskScoring.calculate_resource_risk_score.
    set (w := RiskScoring.severity_weights _).
    set (factor := py_min (3 # 2) _).
    assert (Hw : 10 <= w <= 100) by apply severity_weights_range.
    assert (Hf : (1 <= factor)%Q).
    { apply py_min_lower; [lra|].
      apply density_ge_1; [apply len_nonneg | lra]. }
    assert (Hw10 : (10 <= inject_Z w)%Q)
      by (change 10%Q with (inject_Z 10); rewrite <- Zle_Qle; lia).
    assert (Hw100 : (inject_Z w <= 100)%Q)
      by (change 100%Q with (inject_Z 100); rewrite <- Zle_Qle; lia).
    split.
    + apply py_int_lower; [lia|]. change (inject_Z 10) with 10%Q.
      apply py_min_lower; [lra | nra].
    + apply py_int_upper.
      * apply py_min_lower; [lra | nra].
      * change (inject_Z 100) with 100%Q. apply py_min_le_l.
  - intros s Hall.
    assert (Hcode :
      RiskScoring.calculate_resource_risk_score (f :: l)
      = py_int
          (Qmin 100
             (inject_Z (RiskScoring.severity_weights s)
              * Qmin (3 # 2) (1 + inject_Z (len (f :: l)) / 10))%Q)).
    { unfold RiskScoring.calculate_resource_risk_score.
      inversion Hall as [|? ? Hf Hl]; subst.
      rewrite max_from_same.
      - rewrite !py_min_Qmin. reflexivity.
      - rewrite Forall_map. exact Hl. }
    split; [exact Hcode|].
    rewrite Hcode. unfold Spec.resourceScore.
    rewrite (highest_severity_same s) by (assumption || discriminate).
    reflexivity.
Qed.

Lemma resource_score_bounds_and_uniform_case_witness :
  let fs := [Sample.finding "vm-1" HIGH 70; Sample.finding "vm-1" HIGH 60] in
  fs <> [] /\ RiskScoring.calculate_resource_risk_score fs = 90.
Proof.
  intros fs. split; [discriminate|].
  destruct (resource_score_bounds_and_uniform_case fs) as [_ Huniform];
    [discriminate|].
  destruct (Huniform HIGH) as [Hcode _].
  { repeat constructor. }
  rewrite Hcode. reflexivity.
Defined.

(** ** Recommendations and the risk summary *)

Section Recommendations.
Import RiskScoring RiskSummary.

Lemma resource_type_eqb_spec (a b : ResourceType) :
  reflect (a = b) (resource_type_eqb a b).
Proof. destruct a, b; simpl; constructor; congruence. Qed.

Lemma count_type_cons r f l :
  Derived.count_type r (f :: l)
  = (if resource_type_eqb (SecurityFinding.resource_type f) r then 1 else 0)
    + Derived.count_type r l.
Proof.
  unfold Derived.count_type. simpl.
  destruct (resource_type_eqb _ _); [apply len_cons | reflexivity].
Qed.

Lemma resource_type_counter_fold l d r :
  dict_get resource_type_eqb
    (fold_left
       (fun d r =>
          dict_set resource_type_eqb d r
                   (dict_get resource_type_eqb d r 0 + 1))
       (map SecurityFinding.resource_type l) d) r 0
  = dict_get resource_type_eqb d r 0 + Derived.count_type r l.
Proof.
  revert d. induction l as [|f l IH]; intros d; simpl.
  - unfold Derived.count_type, len. simpl. lia.
  - rewrite IH, (dict_get_set _ resource_type_eqb_spec), count_type_cons.
    destruct (resource_type_eqb_spec (SecurityFinding.resource_type f) r)
      as [->|]; lia.
Qed.

Lemma resource_type_counter_get findings r :
  dict_get resource_type_eqb
    (resource_type_counter (map SecurityFinding.resource_type findings)) r 0
  = Derived.count_type r findings.
Proof. apply (resource_type_counter_fold findings []). Qed.

(** The recommendations, rule by rule. *)
Lemma recommendations_explicit findings :
  _generate_recommendations findings
  = match
      (if 0 <? Spec.count CRITICAL findings
       then [msg_critical (Spec.count CRITICAL findings)] else [])
      ++ (if 5 <? Spec.count HIGH findings
          then [msg_high (Spec.count HIGH findings)] else [])
      ++ (if 3 <? Derived.count_type STORAGE_ACCOUNT findings
          then [msg_storage] else [])
      ++ (if 2 <? Derived.count_type NETWORK_SECURITY_GROUP findings
          then [msg_network] else [])
      ++ (if 1 <? Derived.count_type KEY_VAULT findings
          then [msg_keyvault] else [])
      ++ (if 20 <? len findings then [msg_monitoring] else [])
    with
    | [] => [msg_continue]
    | fired => fired
    end.
Proof.
  unfold _generate_recommendations.
  rewrite !histogram_get, !resource_type_counter_get.
  unfold append_if.
  destruct (0 <? Spec.count CRITICAL findings),
    (5 <? Spec.count HIGH findings),
    (3 <? Derived.count_type STORAGE_ACCOUNT findings),
    (2 <? Derived.count_type NETWORK_SECURITY_GROUP findings),
    (1 <? Derived.count_type KEY_VAULT findings),
    (20 <? len findings); reflexivity.
Qed.

Lemma count_type_le_len r findings : Derived.count_type r findings <= len findings.
Proof.
  induction findings as [|f l IH].
  - unfold Derived.count_type, len. simpl. lia.
  - rewrite count_type_cons, len_cons.
    destruct (resource_type_eqb _ _); lia.
Qed.

Lemma count_le_len s findings : Spec.count s findings <= len findings.
Proof.
  induction findings as [|f l IH].
  - unfold Spec.count, len. simpl. lia.
  - rewrite count_cons, len_cons. destruct (severity_eqb _ _); lia.
Qed.
End Recommendations.

Ltac expose_messages :=
  unfold RiskSummary.msg_critical, RiskSummary.msg_high,
    RiskSummary.msg_storage, RiskSummary.msg_network,
    RiskSummary.msg_keyvault, RiskSummary.msg_monitoring,
    RiskSummary.msg_continue in *;
  cbn [append] in *.

Ltac decide_membership :=
  split; intros Hside;
  [ try lia;
    exfalso;
    repeat (destruct Hside as [Hside|Hside];
            [expose_messages; discriminate Hside|]);
    exact Hside
  | try (exfalso; lia); cbn [In]; auto 10 ].

(** [_generate_recommendations] always returns between one and six
    texts, and each rule contributes its text exactly when its condition
    holds: some critical finding; more than 5 high findings; more than 3
    storage-account, 2 network-security-group or 1 key-vault findings;
    more than 20 findings in all.  The general advice to continue
    monitoring is returned exactly when no rule fired, and then alone. *)
Theorem recommendations_follow_their_rules :
  forall findings : list SecurityFinding.t,
    let recs := RiskSummary._generate_recommendations findings in
    let critical := Spec.count CRITICAL findings in
    let high := Spec.count HIGH findings in
    (1 <= List.length recs <= 6)%nat
    /\ (In (RiskSummary.msg_critical critical) recs <-> 0 < critical)
    /\ (In (RiskSummary.msg_high high) recs <-> 5 < high)
    /\ (In RiskSummary.msg_storage recs
        <-> 3 < Derived.count_type STORAGE_ACCOUNT findings)
    /\ (In RiskSummary.msg_network recs
        <-> 2 < Derived.count_type NETWORK_SECURITY_GROUP findings)
    /\ (In RiskSummary.msg_keyvault recs
        <-> 1 < Derived.count_type KEY_VAULT findings)
    /\ (In RiskSummary.msg_monitoring recs <-> 20 < len findings)
    /\ (In RiskSummary.msg_continue recs
        <-> recs = [RiskSummary.msg_continue])
    /\ (recs = [RiskSummary.msg_continue]
        <-> critical <= 0 /\ high <= 5
            /\ Derived.count_type STORAGE_ACCOUNT findings <= 3
            /\ Derived.count_type NETWORK_SECURITY_GROUP findings <= 2
            /\ Derived.count_type KEY_VAULT findings <= 1
            /\ len findings <= 20).
Proof.
  intros findings recs critical high. unfold recs.
  rewrite recommendations_explicit. fold critical. fold high.
  destruct (Z.ltb_spec 0 critical), (Z.ltb_spec 5 high),
    (Z.ltb_spec 3 (Derived.count_type STORAGE_ACCOUNT findings)),
    (Z.ltb_spec 2 (Derived.count_type NETWORK_SECURITY_GROUP findings)),
    (Z.ltb_spec 1 (Derived.count_type KEY_VAULT findings)),
    (Z.ltb_spec 20 (len findings));
    cbn [app];
    (split; [cbn [List.length]; lia|]);
    (split; [decide_membership|]);
    (split; [decide_membership|]);
    (split; [decide_membership|]);
    (split; [decide_membership|]);
    (split; [decide_membership|]);
    (split; [decide_membership|]);
    (split;
     [ split; intros Hside;
       [ try reflexivity; exfalso;
         repeat (destruct Hside as [Hside|Hside];
                 [expose_messages; discriminate Hside|]);
         exact Hside
       | first [ cbn [In]; solve [auto]
               | rewrite Hside; cbn [In]; auto ] ]
     | split; intros Hside;
       [ try lia; exfalso; expose_messages; discriminate Hside
       | try reflexivity; exfalso; lia ] ]).
Qed.

Section SummaryFacts.
Import RiskScoring RiskSummary.

Lemma prioritize_perm findings :
  Permutation (prioritize_findings findings) findings.
Proof. apply sorted_perm. Qed.

Lemma prioritize_sorted findings :
  StronglySorted Spec.before (prioritize_findings findings).
Proof.
  eapply StronglySorted_impl;
    [|apply sorted_sorted; [apply pair_leb_total | apply pair_leb_trans]].
  intros x y. apply pair_leb_before.
Qed.

Lemma StronglySorted_app_inv {A : Type} (R : A -> A -> Prop) (l1 l2 : list A) :
  StronglySorted R (l1 ++ l2) ->
  StronglySorted R l1 /\ StronglySorted R l2
  /\ (forall a b, In a l1 -> In b l2 -> R a b).
Proof.
  induction l1 as [|x l1 IH]; simpl; intros Hs.
  - split; [constructor | split; [exact Hs | intros a b []]].
  - inversion Hs as [|? ? Hs' Hall]; subst.
    destruct (IH Hs') as (H1 & H2 & H12).
    rewrite Forall_app in Hall. destruct Hall as [Hall1 Hall2].
    split; [constructor; assumption | split; [exact H2|]].
    intros a b [<-|Ha] Hb.
    + rewrite Forall_forall in Hall2. apply Hall2, Hb.
    + apply H12; assumption.
Qed.

Lemma recommendations_not_nil findings :
  _generate_recommendations findings <> [].
Proof.
  rewrite recommendations_explicit.
  destruct (_ ++ _); discriminate.
Qed.
End SummaryFacts.

(** The risk summary of an empty list is the fixed "Minimal" summary
    with score 0 and no recommendation; the summary of any non-empty
    list has score 100, level "Critical" and at least one
    recommendation.  No list is summarised as "Low", "Medium" or
    "High". *)
Theorem risk_summary_is_minimal_or_critical :
  forall findings : list SecurityFinding.t,
    let s := RiskSummary.generate_risk_summary findings in
    (findings = [] ->
       RiskSummary.overall_risk_score s = 0
       /\ RiskSummary.risk_level s = "Minimal"%string
       /\ RiskSummary.top_risks s = []
       /\ RiskSummary.recommendations s = [])
    /\ (findings <> [] ->
          RiskSummary.overall_risk_score s = 100
          /\ RiskSummary.risk_level s = "Critical"%string
          /\ RiskSummary.top_risks s <> []
          /\ RiskSummary.recommendations s <> []).
Proof.
  intros findings s. split.
  - intros ->. repeat split; reflexivity.
  - intros Hne. destruct findings as [|f l]; [congruence|].
    unfold s, RiskSummary.generate_risk_summary.
    cbn [RiskSummary.overall_risk_score RiskSummary.risk_level
         RiskSummary.top_risks RiskSummary.recommendations].
    rewrite overall_score_nonempty.
    split; [reflexivity|]. split; [reflexivity|]. split.
    + pose proof (Permutation_length (prioritize_perm (f :: l))) as Hlen.
      destruct (RiskScoring.prioritize_findings (f :: l));
        [discriminate Hlen | discriminate].
    + apply recommendations_not_nil.
Qed.

Lemma risk_summary_is_minimal_or_critical_witness :
  let fs := [Sample.finding "kv-1" LOW 10] in
  fs <> []
  /\ RiskSummary.risk_level (RiskSummary.generate_risk_summary fs)
     = "Critical"%string.
Proof.
  intros fs. split; [discriminate|].
  destruct (risk_summary_is_minimal_or_critical fs) as [_ H].
  destruct H as (_ & Hlevel & _); [discriminate | exact Hlevel].
Defined.

(** In every risk summary, [total_findings] is the number of findings,
    the histogram has the five severity keys, each holding the number of
    findings of that severity, and its values add up to
    [total_findings]. *)
Theorem risk_summary_counts_agree :
  forall findings : list SecurityFinding.t,
    let s := RiskSummary.generate_risk_summary findings in
    RiskSummary.total_findings s = len findings
    /\ dict_keys (RiskSummary.findings_by_severity s) = all_severities
    /\ (forall sev,
          dict_get severity_eqb (RiskSummary.findings_by_severity s) sev 0
          = Spec.count sev findings)
    /\ Spec.sumZ (dict_values (RiskSummary.findings_by_severity s))
       = RiskSummary.total_findings s.
Proof.
  intros [|f l] s.
  - split; [reflexivity|]. split; [reflexivity|]. split; [|reflexivity].
    intros []; reflexivity.
  - unfold s, RiskSummary.generate_risk_summary.
    cbn [RiskSummary.total_findings RiskSummary.findings_by_severity].
    split; [reflexivity|]. split; [apply histogram_keys|].
    split; [intros sev; apply histogram_get|].
    apply histogram_shape.
Qed.

(** The top risks of a summary are the first five findings in priority
    order (all of them when there are fewer): together with the findings
    left out they make up the input, and every top risk is at least as
    urgent as every finding left out. *)
Theorem risk_summary_top_risks_are_most_urgent :
  forall findings : list SecurityFinding.t,
    let s := RiskSummary.generate_risk_summary findings in
    exists top rest,
      RiskSummary.top_risks s = map RiskSummary.top_risk_of top
      /\ List.length top = Nat.min 5 (List.length findings)
      /\ Permutation (top ++ rest) findings
      /\ StronglySorted Spec.before top
      /\ (forall a b, In a top -> In b rest -> Spec.before a b).
Proof.
  intros findings s.
  exists (firstn 5 (RiskScoring.prioritize_findings findings)),
         (skipn 5 (RiskScoring.prioritize_findings findings)).
  pose proof (prioritize_sorted findings) as Hs.
  pose proof (prioritize_perm findings) as Hp.
  rewrite <- (firstn_skipn 5 (RiskScoring.prioritize_findings findings))
    in Hs.
  apply StronglySorted_app_inv in Hs. destruct Hs as (H1 & _ & H12).
  split.
  - destruct findings as [|f l]; reflexivity.
  - split.
    + rewrite length_firstn, (Permutation_length Hp). reflexivity.
    + split; [rewrite firstn_skipn; exact Hp|].
      split; [exact H1 | exact H12].
Qed.

(** ** Scanner selection and request validation *)

Section Selection.
Import Engine EngineApi.

Lemma dict_set_incl {K V : Type} (eqb : K -> K -> bool)
      (d S : list (K * V)) (k : K) (v : V) :
  (forall a b, eqb a b = true -> a = b) ->
  incl d S -> In (k, v) S -> incl (dict_set eqb d k v) S.
Proof.
  intros Heq Hd Hkv. induction d as [|[k' v'] d IH]; simpl.
  - intros x [<-|[]]. exact Hkv.
  - destruct (eqb k' k) eqn:E.
    + apply Heq in E. subst k'.
      intros x [<-|Hx]; [exact Hkv | apply Hd; right; exact Hx].
    + intros x [<-|Hx]; [apply Hd; left; reflexivity|].
      apply IH; [|exact Hx]. intros y Hy. apply Hd. right. exact Hy.
Qed.

Lemma registered_class resource_type :
  dict_mem resource_type_eqb scanners resource_type = true ->
  In (resource_type,
      dict_get resource_type_eqb scanners resource_type StorageScanner)
     scanners.
Proof. destruct resource_type; simpl; intros H; try discriminate; tauto. Qed.

Lemma scanners_functional resource_type cls cls' :
  In (resource_type, cls) scanners -> In (resource_type, cls') scanners ->
  cls = cls'.
Proof.
  unfold scanners. simpl. intros H H'.
  repeat (destruct H as [H|H];
          [inversion H; subst;
           repeat (destruct H' as [H'|H'];
                   [inversion H'; subst; try reflexivity; discriminate|]);
           contradiction|]).
  contradiction.
Qed.

(** The selection loop: what it has picked so far stays inside the
    registry, without repeated resource types. *)
Let select (acc : list (ResourceType * ScannerClass))
    (resource_type : ResourceType) :=
  if dict_mem resource_type_eqb scanners resource_type then
    dict_set resource_type_eqb acc resource_type
      (dict_get resource_type_eqb scanners resource_type StorageScanner)
  else acc.

Lemma selection_fold requested acc :
  NoDup (dict_keys acc) -> incl acc scanners ->
  NoDup (dict_keys (fold_left select requested acc))
  /\ incl (fold_left select requested acc) scanners
  /\ (forall rt, In rt (dict_keys (fold_left select requested acc))
                 <-> In rt (dict_keys acc)
                     \/ (In rt requested
                         /\ dict_mem resource_type_eqb scanners rt = true)).
Proof.
  revert acc. induction requested as [|r requested IH]; intros acc Hnd Hincl.
  - split; [exact Hnd | split; [exact Hincl|]].
    intros rt. cbn [fold_left In]. tauto.
  - cbn [fold_left]. unfold select at 2 4 6.
    destruct (dict_mem resource_type_eqb scanners r) eqn:Hreg.
    + edestruct (IH (dict_set resource_type_eqb acc r
                       (dict_get resource_type_eqb scanners r
                                 StorageScanner)))
        as (H1 & H2 & H3).
      * apply (dict_keys_set_NoDup _ resource_type_eqb_spec), Hnd.
      * apply dict_set_incl; [|exact Hincl | apply registered_class, Hreg].
        intros a b E. destruct (resource_type_eqb_spec a b);
          [assumption | discriminate].
      * split; [exact H1 | split; [exact H2|]].
        intros rt. rewrite H3, (dict_keys_set_In _ resource_type_eqb_spec).
        cbn [In]. split.
        -- intros [[H | ->] | [H H']]; auto.
        -- intros [H | [[-> | H] H']]; auto.
    + destruct (IH acc Hnd Hincl) as (H1 & H2 & H3).
      split; [exact H1 | split; [exact H2|]].
      intros rt. rewrite H3. cbn [In]. split.
      * intros [H|[H H']]; auto.
      * intros [H | [[-> | H] H']]; auto. congruence.
Qed.
End Selection.

(** The resource types selected by a non-empty selection. *)
Lemma scanners_to_run_keys request requested :
  ScanRequest.resource_types request = Some requested ->
  requested <> [] ->
  let to_run := Engine._get_scanners_to_run (Some request) in
  (NoDup (dict_keys to_run) /\ incl to_run Engine.scanners)
  /\ (forall rt,
        In rt (dict_keys to_run)
        <-> In rt requested
            /\ dict_mem resource_type_eqb Engine.scanners rt = true).
Proof.
  intros Hreq Hne to_run.
  assert (Hrun : to_run
    = fold_left
        (fun acc resource_type =>
           if dict_mem resource_type_eqb Engine.scanners resource_type then
             dict_set resource_type_eqb acc resource_type
               (dict_get resource_type_eqb Engine.scanners resource_type
                         Engine.StorageScanner)
           else acc)
        requested []).
  { unfold to_run, Engine._get_scanners_to_run. rewrite Hreq.
    destruct requested; [congruence | reflexivity]. }
  destruct (selection_fold requested []) as (Hnd & Hincl & Hkeys);
    [constructor | intros x [] |].
  rewrite <- Hrun in Hnd, Hincl, Hkeys.
  split; [split; assumption|].
  intros rt. rewrite Hkeys. cbn [dict_keys map In]. tauto.
Qed.

(** [_get_scanners_to_run]: without a request or with an absent or empty
    selection every registered scanner runs.  With a non-empty selection
    a scanner runs exactly when its resource type was requested and is
    registered, each at most once however often it was requested; a
    requested type that is not registered is ignored. *)
Theorem scanners_to_run_are_the_requested_registered_ones :
  Engine._get_scanners_to_run None = Engine.scanners
  /\ (forall request,
        ScanRequest.resource_types request = None
        \/ ScanRequest.resource_types request = Some [] ->
        Engine._get_scanners_to_run (Some request) = Engine.scanners)
  /\ (forall request requested,
        ScanRequest.resource_types request = Some requested ->
        requested <> [] ->
        let to_run := Engine._get_scanners_to_run (Some request) in
        NoDup (dict_keys to_run)
        /\ (forall rt cls,
              In (rt, cls) to_run
              <-> In rt requested /\ In (rt, cls) Engine.scanners)
        /\ ~ In DISK (dict_keys to_run)).
Proof.
  split; [reflexivity | split].
  - intros request [H|H]; unfold Engine._get_scanners_to_run;
      rewrite H; reflexivity.
  - intros request requested Hreq Hne to_run.
    assert (Hrun : to_run
      = fold_left
          (fun acc resource_type =>
             if dict_mem resource_type_eqb Engine.scanners resource_type then
               dict_set resource_type_eqb acc resource_type
                 (dict_get resource_type_eqb Engine.scanners resource_type
                           Engine.StorageScanner)
             else acc)
          requested []).
    { unfold to_run, Engine._get_scanners_to_run. rewrite Hreq.
      destruct requested; [congruence | reflexivity]. }
    destruct (selection_fold requested []) as (Hnd & Hincl & Hkeys);
      [constructor | intros x [] |].
    rewrite <- Hrun in Hnd, Hincl, Hkeys.
    split; [exact Hnd|]. split.
    + intros rt cls. split.
      * intros Hin. split; [|apply Hincl, Hin].
        assert (Hk : In rt (dict_keys to_run))
          by (apply in_map_iff; exists (rt, cls); auto).
        apply Hkeys in Hk. destruct Hk as [[]|[Hk _]]. exact Hk.
      * intros [Hin Hreg].
        assert (Hk : In rt (dict_keys to_run)).
        { apply Hkeys. right. split; [exact Hin|].
          apply (dict_mem_In _ resource_type_eqb_spec).
          apply in_map_iff. exists (rt, cls). auto. }
        apply in_map_iff in Hk. destruct Hk as [[rt' cls'] [E Hin']].
        simpl in E. subst rt'.
        rewrite (scanners_functional rt cls cls' Hreg (Hincl _ Hin')).
        exact Hin'.
    + intros Hk. apply Hkeys in Hk. destruct Hk as [[]|[_ Hk]].
      discriminate Hk.
Qed.

Lemma scanners_to_run_are_the_requested_registered_ones_witness :
  let request :=
    ScanRequest.Build None (Some [KEY_VAULT; DISK; KEY_VAULT]) LOW in
  Engine._get_scanners_to_run (Some request)
  = [(KEY_VAULT, Engine.KeyVaultScanner)]
  /\ In (KEY_VAULT, Engine.KeyVaultScanner)
        (Engine._get_scanners_to_run (Some request)).
Proof.
  intros request. split; [reflexivity|].
  destruct scanners_to_run_are_the_requested_registered_ones
    as (_ & _ & H).
  destruct (H request [KEY_VAULT; DISK; KEY_VAULT] eq_refl)
    as (_ & Hin & _); [discriminate|].
  apply Hin. split; simpl; tauto.
Defined.

Section RequestFacts.
Import Engine EngineApi Observed.

Lemma not_supported_iff_disk resource_type :
  not_supported resource_type = true <-> resource_type = DISK.
Proof. destruct resource_type; vm_compute; split; congruence. Qed.

Lemma not_supported_not_registered resource_type :
  not_supported resource_type
  = negb (dict_mem resource_type_eqb scanners resource_type).
Proof. destruct resource_type; reflexivity. Qed.

(** The warning loop keeps the unsupported types, in order. *)
Lemma warnings_fold requested v :
  fold_left
    (fun result resource_type =>
       if not_supported resource_type then
         {| valid := valid result;
            errors := errors result;
            warnings := warnings result ++ [resource_type] |}
       else result)
    requested v
  = {| valid := valid v;
       errors := errors v;
       warnings := warnings v ++ filter not_supported requested |}.
Proof.
  revert v. induction requested as [|r requested IH]; intros v; simpl.
  - rewrite app_nil_r. destruct v; reflexivity.
  - rewrite IH. destruct (not_supported r); simpl.
    + rewrite <- app_assoc. reflexivity.
    + reflexivity.
Qed.

(** A selection that names only unregistered types selects nothing. *)
Lemma nothing_to_run request requested :
  ScanRequest.resource_types request = Some requested ->
  requested <> [] ->
  Forall (fun rt => not_supported rt = true) requested ->
  _get_scanners_to_run (Some request) = [].
Proof.
  intros Hreq Hne Hall.
  unfold _get_scanners_to_run. rewrite Hreq.
  destruct requested as [|r0 rest]; [congruence|].
  generalize (r0 :: rest) Hall. clear.
  intros requested Hall. induction Hall as [|r requested Hr _ IH].
  - reflexivity.
  - cbn [fold_left]. rewrite not_supported_not_registered in Hr.
    apply negb_true_iff in Hr. rewrite Hr. exact IH.
Qed.
End RequestFacts.

(** [validate_scan_request] never raises and runs no scanner.  The
    request is invalid exactly when it names a non-empty subscription
    whose access check fails, and then carries exactly one error;
    unsupported resource types only produce warnings, one per
    occurrence and in the order requested; the only unsupported type is
    the disk type; and for a non-empty selection the types warned about
    are exactly the requested types that [_get_scanners_to_run]
    ignores. *)
Theorem validation_reports_access_and_unsupported_types :
  forall (env : Engine.Env) (scan_request : ScanRequest.t)
         (trace : Engine.Trace),
    let requested :=
      match ScanRequest.resource_types scan_request with
      | Some l => l
      | None => []
      end in
    exists v trace',
      EngineApi.validate_scan_request env scan_request trace
      = (Engine.Returned v, trace')
      /\ filter Observed.is_scan trace' = filter Observed.is_scan trace
      /\ (EngineApi.valid v = false
          <-> exists s,
                ScanRequest.subscription_id scan_request = Some s
                /\ s <> ""%string
                /\ Engine.validate_access env s = false)
      /\ (EngineApi.valid v = true -> EngineApi.errors v = [])
      /\ (EngineApi.valid v = false -> List.length (EngineApi.errors v) = 1%nat)
      /\ EngineApi.warnings v = filter EngineApi.not_supported requested
      /\ (forall rt, In rt (EngineApi.warnings v)
                     <-> In rt requested /\ rt = DISK)
      /\ (requested <> [] ->
          forall rt,
            In rt (EngineApi.warnings v)
            <-> In rt requested
                /\ ~ In rt (dict_keys
                              (Engine._get_scanners_to_run
                                 (Some scan_request)))).
Proof.
  intros env scan_request trace requested.
  assert (Hwarn : forall v0,
    match ScanRequest.resource_types scan_request with
    | Some resource_types =>
        fold_left
          (fun result resource_type =>
             if EngineApi.not_supported resource_type then
               {| EngineApi.valid := EngineApi.valid result;
                  EngineApi.errors := EngineApi.errors result;
                  EngineApi.warnings :=
                    EngineApi.warnings result ++ [resource_type] |}
             else result)
          resource_types v0
    | None => v0
    end
    = {| EngineApi.valid := EngineApi.valid v0;
         EngineApi.errors := EngineApi.errors v0;
         EngineApi.warnings :=
           EngineApi.warnings v0
           ++ filter EngineApi.not_supported requested |}).
  { intros v0. unfold requested.
    destruct (ScanRequest.resource_types scan_request).
    - apply warnings_fold.
    - simpl. rewrite app_nil_r. destruct v0; reflexivity. }
  assert (Hdisk : forall rt,
    In rt (filter EngineApi.not_supported requested)
    <-> In rt requested /\ rt = DISK).
  { intros rt. rewrite filter_In, not_supported_iff_disk. reflexivity. }
  assert (Hrun : requested <> [] ->
    forall rt,
      In rt (filter EngineApi.not_supported requested)
      <-> In rt requested
          /\ ~ In rt (dict_keys
                        (Engine._get_scanners_to_run (Some scan_request)))).
  { intros Hne rt. rewrite filter_In.
    unfold requested in *.
    destruct (ScanRequest.resource_types scan_request) as [l|] eqn:Hl;
      [|congruence].
    destruct (scanners_to_run_keys scan_request l Hl Hne) as [_ Hkeys].
    rewrite Hkeys, not_supported_not_registered, negb_true_iff.
    split.
    - intros [Hin Hreg]. split; [exact Hin|]. intros [_ H]. congruence.
    - intros [Hin Hnot]. split; [exact Hin|].
      apply not_true_is_false. intros H. apply Hnot. auto. }
  unfold EngineApi.validate_scan_request.
  destruct (ScanRequest.subscription_id scan_request) as [s|] eqn:Hs.
  - destruct (String.eqb_spec s "") as [Hempty|Hnonempty].
    + unfold Engine.bind, Engine.ret. rewrite Hwarn. cbn [app].
      do 2 eexists. split; [reflexivity|].
      cbn [EngineApi.valid EngineApi.errors EngineApi.warnings].
      split; [reflexivity|]. split.
      { split; [discriminate|]. intros (s' & E & Hne & _). congruence. }
      split; [reflexivity|]. split; [discriminate|].
      split; [reflexivity|]. split; [exact Hdisk | exact Hrun].
    + unfold Engine.bind at 1. unfold Engine.do_validate_access.
      rewrite bind_perform.
      destruct (Engine.validate_access env s) eqn:Haccess; cbn [negb];
        unfold Engine.ret; rewrite Hwarn; cbn [app];
        do 2 eexists; (split; [reflexivity|]);
        cbn [EngineApi.valid EngineApi.errors EngineApi.warnings];
        (split; [rewrite filter_app; cbn; apply app_nil_r|]).
      * split.
        { split; [discriminate|].
          intros (s' & E & _ & Hden). congruence. }
        split; [reflexivity|]. split; [discriminate|].
        split; [reflexivity|]. split; [exact Hdisk | exact Hrun].
      * split.
        { split; [|reflexivity]. intros _. exists s. auto. }
        split; [discriminate|]. split; [reflexivity|].
        split; [reflexivity|]. split; [exact Hdisk | exact Hrun].
  - unfold Engine.bind, Engine.ret. rewrite Hwarn. cbn [app].
    do 2 eexists. split; [reflexivity|].
    cbn [EngineApi.valid EngineApi.errors EngineApi.warnings].
    split; [reflexivity|]. split.
    { split; [discriminate|]. intros (s' & E & _). congruence. }
    split; [reflexivity|]. split; [discriminate|].
    split; [reflexivity|]. split; [exact Hdisk | exact Hrun].
Qed.

Lemma validation_reports_access_and_unsupported_types_witness :
  let request :=
    ScanRequest.Build (Some "sub-1"%string) (Some [DISK; KEY_VAULT; DISK])
                      LOW in
  exists v trace',
    EngineApi.validate_scan_request Sample.env_denied request []
    = (Engine.Returned v, trace')
    /\ EngineApi.valid v = false
    /\ EngineApi.warnings v = [DISK; DISK].
Proof.
  intros request.
  destruct (validation_reports_access_and_unsupported_types
              Sample.env_denied request [])
    as (v & trace' & Hrun & _ & Hvalid & _ & _ & Hwarn & _).
  exists v, trace'. split; [exact Hrun|]. split.
  - apply Hvalid. exists "sub-1"%string.
    split; [reflexivity|]. split; [discriminate | reflexivity].
  - rewrite Hwarn. reflexivity.
Defined.

(** ** The Scan Result of any scan *)

(** [scan_subscription] returns a Scan Result for the requested target
    in every environment of the model: whether the access check answers
    true or false, and whether the directory and each scanner return or
    raise an [Exception].  (These are the outcomes the handlers of the
    engine are written for: an exception outside [Exception], such as a
    cancellation or an interrupt, passes [except Exception] and is not an
    outcome of the model, and neither is a scanner that never answers.)
    In the result [total_findings] is the number of findings, the values
    of the histogram add up to it, every finding meets the severity
    threshold of the request, and the risk score is 0 when there are no
    findings and 100 otherwise. *)
Theorem scan_result_is_always_consistent :
  forall (env : Engine.Env) (subscription_id : string)
         (scan_request : option ScanRequest.t),
    exists result trace,
      Engine.run_scan env subscription_id scan_request
      = (Engine.Returned result, trace)
      /\ ScanResult.subscription_id result = subscription_id
      /\ ScanResult.total_findings result
         = len (ScanResult.findings result)
      /\ Spec.sumZ (dict_values (ScanResult.findings_by_severity result))
         = ScanResult.total_findings result
      /\ (forall request f,
            scan_request = Some request ->
            In f (ScanResult.findings result) ->
            Spec.severity_rank (ScanRequest.severity_threshold request)
            <= Spec.severity_rank (SecurityFinding.severity f))
      /\ (ScanResult.findings result = []
          -> ScanResult.risk_score result = 0)
      /\ (ScanResult.findings result <> []
          -> ScanResult.risk_score result = 100)
      /\ 0 <= ScanResult.total_resources_scanned result
      /\ Derived.histogram_consistent result.
Proof.
  intros env subscription_id scan_request.
  destruct (Engine.validate_access env subscription_id) eqn:Haccess.
  - destruct (scan_granted env subscription_id scan_request Haccess)
      as (name & now & duration & Hrun).
    do 2 eexists. split; [exact Hrun|].
    cbn [ScanResult.subscription_id ScanResult.total_findings
         ScanResult.findings ScanResult.findings_by_severity
         ScanResult.risk_score ScanResult.total_resources_scanned].
    split; [reflexivity|]. split; [reflexivity|].
    split; [apply histogram_shape|]. split.
    + intros request f -> Hin. unfold Observed.apply_threshold in Hin.
      unfold Engine._filter_findings_by_severity in Hin.
      apply filter_In in Hin. destruct Hin as [_ Hin].
      apply Z.leb_le in Hin. exact Hin.
    + split; [intros ->; reflexivity|]. split.
      * intros Hne.
        destruct (Observed.apply_threshold _ _) as [|f l];
          [congruence | apply overall_score_nonempty].
      * split; [|left; reflexivity].
        eapply Z.le_trans; [|apply count_succeeded_le].
        apply len_nonneg.
  - destruct (scan_denied env subscription_id scan_request Haccess)
      as (now & duration & Hrun).
    do 2 eexists. split; [exact Hrun|].
    cbn [ScanResult.subscription_id ScanResult.total_findings
         ScanResult.findings ScanResult.findings_by_severity
         ScanResult.risk_score ScanResult.total_resources_scanned].
    split; [reflexivity|]. split; [reflexivity|]. split; [reflexivity|].
    split; [intros request f _ []|]. split; [reflexivity|].
    split; [congruence|]. split; [lia|].
    right. split; reflexivity.
Qed.

(** A scan whose access check succeeds but whose request selects only
    resource types without a registered scanner calls no scanner and
    returns the Scan Result of a clean target: no findings, no resource
    counted, a histogram of zeros and risk score 0. *)
Theorem unsupported_selection_scans_nothing :
  forall (env : Engine.Env) (subscription_id : string)
         (request : ScanRequest.t) (requested : list ResourceType),
    Engine.validate_access env subscription_id = true ->
    ScanRequest.resource_types request = Some requested ->
    requested <> [] ->
    Forall (fun rt => EngineApi.not_supported rt = true) requested ->
    exists result trace,
      Engine.run_scan env subscription_id (Some request)
      = (Engine.Returned result, trace)
      /\ filter Observed.is_scan trace = []
      /\ ScanResult.findings result = []
      /\ ScanResult.total_findings result = 0
      /\ ScanResult.total_resources_scanned result = 0
      /\ ScanResult.findings_by_severity result
         = map (fun s => (s, 0)) all_severities
      /\ ScanResult.risk_score result = 0.
Proof.
  intros env subscription_id request requested Haccess Hreq Hne Hall.
  destruct (scan_granted env subscription_id (Some request) Haccess)
    as (name & now & duration & Hrun).
  rewrite (nothing_to_run request requested Hreq Hne Hall) in Hrun.
  do 2 eexists. split; [exact Hrun|].
  repeat split; reflexivity.
Qed.

Lemma unsupported_selection_scans_nothing_witness :
  let request := ScanRequest.Build None (Some [DISK]) INFO in
  Engine.validate_access Sample.env_partial "sub-1" = true
  /\ exists result trace,
       Engine.run_scan Sample.env_partial "sub-1" (Some request)
       = (Engine.Returned result, trace)
       /\ ScanResult.findings result = []
       /\ ScanResult.risk_score result = 0.
Proof.
  intros request. split; [reflexivity|].
  destruct (unsupported_selection_scans_nothing
              Sample.env_partial "sub-1" request [DISK] eq_refl eq_refl)
    as (result & trace & Hrun & _ & Hf & _ & _ & _ & Hscore).
  - discriminate.
  - repeat constructor.
  - exists result, trace. repeat split; assumption.
Defined.

Section Directory.
Import Engine Observed.

(** A scan whose access check succeeds, with its clock readings. *)
Lemma scan_granted_exact env subscription_id scan_request :
  validate_access env subscription_id = true ->
  let to_run := _get_scanners_to_run scan_request in
  let kept :=
    apply_threshold scan_request
      (succeeded_findings env subscription_id to_run) in
  let before_end :=
    [EvTime; EvValidateAccess subscription_id; EvListSubscriptions]
      ++ loop_events env subscription_id to_run in
  exists name,
    (forall e, list_subscriptions env = Raised e -> name = None)
    /\ run_scan env subscription_id scan_request
       = (Returned
            (ScanResult.Build
               subscription_id name
               (utcnow env (before_end ++ [EvTime]))
               (resources_counted env subscription_id to_run)
               (len kept)
               (RiskScoring.get_findings_by_severity kept)
               kept
               (RiskScoring.calculate_overall_risk_score kept)
               (Some (time_time env before_end - time_time env [])%Q)),
          before_end ++ [EvTime; EvUtcNow]).
Proof.
  intros Haccess to_run kept before_end.
  assert (Hdetails : exists details,
    (forall e, list_subscriptions env = Raised e -> details = None)
    /\ forall (B : Type) (k : option Subscription -> M B) tr,
         bind (_get_subscription_details env subscription_id) k tr
         = k details (tr ++ [EvListSubscriptions])).
  { unfold _get_subscription_details, try_except, do_list_subscriptions.
    destruct (list_subscriptions env) as [subs|e].
    - eexists. split; [discriminate|].
      intros B k tr. unfold bind, perform, ret. reflexivity.
    - exists None. split; [reflexivity|].
      intros B k tr. unfold bind, perform, ret. reflexivity. }
  destruct Hdetails as (details & Hnone & Hdetails).
  exists (match details with
          | Some sub => display_name sub
          | None => None
          end).
  split.
  - intros e He. rewrite (Hnone e He). reflexivity.
  - unfold run_scan, scan_subscription, do_time at 1.
    rewrite bind_perform. unfold try_except, do_validate_access.
    rewrite bind_perform, Haccess. cbn [negb].
    rewrite Hdetails, bind_run_scanners.
    unfold do_time, do_utcnow. rewrite !bind_perform. unfold ret.
    cbn [fst snd app]. fold to_run. rewrite Z.add_0_l.
    fold (apply_threshold scan_request
            (succeeded_findings env subscription_id to_run)).
    fold kept. unfold before_end. cbn [app].
    rewrite <- !app_assoc. reflexivity.
Qed.

Lemma findings_of_ext env1 env2 subscription_id :
  (forall cls s, scanner_scan env1 cls s = scanner_scan env2 cls s) ->
  forall scanners_to_run,
    succeeded_findings env1 subscription_id scanners_to_run
    = succeeded_findings env2 subscription_id scanners_to_run
    /\ resources_counted env1 subscription_id scanners_to_run
       = resources_counted env2 subscription_id scanners_to_run
    /\ loop_events env1 subscription_id scanners_to_run
       = loop_events env2 subscription_id scanners_to_run.
Proof.
  intros Hscan scanners_to_run.
  unfold succeeded_findings, resources_counted, loop_events.
  assert (Hf : forall entry,
            findings_of env1 subscription_id entry
            = findings_of env2 subscription_id entry).
  { intros entry. unfold findings_of. rewrite Hscan. reflexivity. }
  assert (He : forall entry,
            events_of env1 subscription_id entry
            = events_of env2 subscription_id entry).
  { intros entry. unfold events_of. rewrite Hscan. reflexivity. }
  split; [|split].
  - f_equal. apply map_ext, Hf.
  - f_equal. apply map_ext. intros entry. rewrite Hf. reflexivity.
  - f_equal. apply map_ext, He.
Qed.
End Directory.

(** The subscription directory only supplies the display name.  Two
    environments that differ at most in what [list_subscriptions] does
    (it may list other entries, or raise) give, for a target whose
    access check succeeds, the same external calls and Scan Results that
    agree in every field except [subscription_name]; when the directory
    raises the name is absent. *)
Theorem directory_only_supplies_the_name :
  forall (env1 env2 : Engine.Env) (subscription_id : string)
         (scan_request : option ScanRequest.t),
    Derived.same_but_directory env1 env2 ->
    Engine.validate_access env1 subscription_id = true ->
    exists r1 r2 trace,
      Engine.run_scan env1 subscription_id scan_request
      = (Engine.Returned r1, trace)
      /\ Engine.run_scan env2 subscription_id scan_request
         = (Engine.Returned r2, trace)
      /\ r2 = ScanResult.Build
                (ScanResult.subscription_id r1)
                (ScanResult.subscription_name r2)
                (ScanResult.scan_timestamp r1)
                (ScanResult.total_resources_scanned r1)
                (ScanResult.total_findings r1)
                (ScanResult.findings_by_severity r1)
                (ScanResult.findings r1)
                (ScanResult.risk_score r1)
                (ScanResult.scan_duration_seconds r1)
      /\ (forall e, Engine.list_subscriptions env2 = Engine.Raised e ->
                    ScanResult.subscription_name r2 = None).
Proof.
  intros env1 env2 subscription_id scan_request
         (Haccess12 & Hscan & Htime & Hnow) Haccess1.
  assert (Haccess2 : Engine.validate_access env2 subscription_id = true)
    by (rewrite <- Haccess12; exact Haccess1).
  destruct (scan_granted_exact env1 subscription_id scan_request Haccess1)
    as (name1 & _ & Hrun1).
  destruct (scan_granted_exact env2 subscription_id scan_request Haccess2)
    as (name2 & Hnone2 & Hrun2).
  destruct (findings_of_ext env1 env2 subscription_id Hscan
              (Engine._get_scanners_to_run scan_request))
    as (Hf & Hc & He).
  rewrite <- Hf, <- Hc, <- He, <- !Htime, <- Hnow in Hrun2.
  do 3 eexists. split; [exact Hrun1|]. split; [exact Hrun2|].
  split; [reflexivity | exact Hnone2].
Qed.

Lemma directory_only_supplies_the_name_witness :
  Derived.same_but_directory Sample.env_partial Derived.env_no_directory
  /\ exists r1 r2 trace,
       Engine.run_scan Sample.env_partial "sub-1" None
       = (Engine.Returned r1, trace)
       /\ Engine.run_scan Derived.env_no_directory "sub-1" None
          = (Engine.Returned r2, trace)
       /\ ScanResult.findings r2 = ScanResult.findings r1
       /\ ScanResult.subscription_name r1 = Some "Production"%string
       /\ ScanResult.subscription_name r2 = None.
Proof.
  assert (Hsame : Derived.same_but_directory
                    Sample.env_partial Derived.env_no_directory).
  { repeat split; reflexivity. }
  split; [exact Hsame|].
  destruct (directory_only_supplies_the_name
              Sample.env_partial Derived.env_no_directory
              "sub-1" None Hsame eq_refl)
    as (r1 & r2 & trace & Hrun1 & Hrun2 & Heq & Hnone).
  exists r1, r2, trace.
  split; [exact Hrun1|]. split; [exact Hrun2|].
  split; [rewrite Heq; reflexivity|].
  split; [|apply (Hnone "directory unavailable"%string); reflexivity].
  vm_compute in Hrun1. inversion Hrun1. reflexivity.
Defined.

(** ** Facts about doubles *)

Section PyFloatFacts.
Import PyFloat.
Local Open Scope Q_scope.

Lemma py_round_comp (x y : Q) : x == y -> py_round x = py_round y.
Proof.
  intros H. unfold py_round. rewrite (Qfloor_comp _ _ H).
  assert (E : x - inject_Z (Qfloor y) == y - inject_Z (Qfloor y))
    by (rewrite H; reflexivity).
  rewrite (Qcompare_comp _ _ E _ _ (Qeq_refl (1 # 2))). reflexivity.
Qed.

Lemma Qabs_nonneg_eq (x : Q) : 0 <= x -> Qabs x = x.
Proof.
  destruct x as [n d]. unfold Qle. simpl. intros H.
  unfold Qabs. f_equal. lia.
Qed.

Lemma pow2_pos (e : Z) : 0 < 2 ^ e.
Proof. apply Qpower_0_lt. reflexivity. Qed.

Lemma pow2_plus (a b : Z) : 2 ^ (a + b) == 2 ^ a * 2 ^ b.
Proof. apply Qpower_plus. discriminate. Qed.

Lemma pow2_le (a b : Z) : (a <= b)%Z -> 2 ^ a <= 2 ^ b.
Proof. intros H. apply Qpower_le_compat_l; [exact H | discriminate]. Qed.

Lemma pow2_Z (n : Z) : (0 <= n)%Z -> inject_Z (2 ^ n) == 2 ^ n.
Proof. intros H. apply (Zpower_Qpower 2 n H). Qed.

Lemma pow2_succ (a : Z) : 2 ^ (a + 1) == 2 * 2 ^ a.
Proof. rewrite pow2_plus. change (2 ^ 1) with 2. ring. Qed.

Lemma ilog2_spec (x : Q) :
  0 < x -> 2 ^ ilog2 x <= x /\ x < 2 ^ (ilog2 x + 1).
Proof.
  intros Hx. unfold ilog2.
  set (a := Z.log2 (Qnum x)). set (b := Z.log2 (Z.pos (Qden x))).
  assert (Hn : (0 < Qnum x)%Z)
    by (destruct x as [n d]; unfold Qlt in Hx; simpl in *; lia).
  destruct (Z.log2_spec _ Hn) as [Ha1 Ha2].
  destruct (Z.log2_spec (Z.pos (Qden x)) eq_refl) as [Hb1 Hb2].
  fold a in Ha1, Ha2. fold b in Hb1, Hb2.
  assert (Ha0 : (0 <= a)%Z) by apply Z.log2_nonneg.
  assert (Hb0 : (0 <= b)%Z) by apply Z.log2_nonneg.
  rewrite Z.pow_succ_r in Ha2, Hb2 by assumption.
  rewrite Zle_Qle in Ha1, Hb1. rewrite Zlt_Qlt in Ha2, Hb2.
  rewrite inject_Z_mult in Ha2, Hb2.
  rewrite pow2_Z in Ha1, Ha2, Hb1, Hb2 by assumption.
  change (inject_Z 2) with 2 in Ha2, Hb2.
  set (N := inject_Z (Qnum x)) in *.
  set (D := inject_Z (Z.pos (Qden x))) in *.
  assert (HD : 0 < D) by (unfold D, Qlt; simpl; lia).
  assert (Ex : x == N / D)
    by (destruct x as [n d]; apply Qmake_Qdiv).
  set (P := 2 ^ (a - b)).
  assert (HP : 0 < P) by apply pow2_pos.
  assert (HPB : P * 2 ^ b == 2 ^ a).
  { unfold P. rewrite <- pow2_plus. replace (a - b + b)%Z with a by lia.
    reflexivity. }
  pose proof (pow2_pos b) as HB.
  assert (Hup : x < 2 * P).
  { rewrite Ex. apply Qlt_shift_div_r; [exact HD|].
    assert (P * 2 ^ b <= P * D) by (apply Qmult_le_l; assumption).
    lra. }
  assert (Hlow : P <= 2 * x).
  { assert (ExD : x * D == N) by (rewrite Ex; field; lra).
    apply (Qmult_le_r _ _ D HD).
    assert (P * D <= P * (2 * 2 ^ b))
      by (apply Qmult_le_l; [assumption | lra]).
    lra. }
  destruct (Qle_bool P x) eqn:E.
  - apply Qle_bool_iff in E. split; [exact E|].
    fold P. rewrite pow2_succ. exact Hup.
  - assert (Hlt : x < P).
    { apply Qnot_le_lt. intros H. apply Qle_bool_iff in H. congruence. }
    replace (a - b - 1 + 1)%Z with (a - b)%Z by lia. fold P.
    split; [|exact Hlt].
    assert (E2 : 2 ^ (a - b - 1) * 2 == P).
    { unfold P. replace (a - b)%Z with (a - b - 1 + 1)%Z at 2 by lia.
      rewrite pow2_succ. ring. }
    lra.
Qed.

Lemma ilog2_unique (x : Q) (k : Z) :
  2 ^ k <= x -> x < 2 ^ (k + 1) -> ilog2 x = k.
Proof.
  intros Hlo Hhi.
  assert (Hx : 0 < x) by (pose proof (pow2_pos k); lra).
  destruct (ilog2_spec x Hx) as [L U].
  assert (H1 : (ilog2 x < k + 1)%Z).
  { apply (Qpower_lt_compat_l_inv 2); [|reflexivity].
    eapply Qle_lt_trans; eassumption. }
  assert (H2 : (k < ilog2 x + 1)%Z).
  { apply (Qpower_lt_compat_l_inv 2); [|reflexivity].
    eapply Qle_lt_trans; eassumption. }
  lia.
Qed.

Lemma ulp_pos (x : Q) : 0 < ulp x.
Proof. apply pow2_pos. Qed.

(** The shape of [nearest] away from zero. *)
Lemma nearest_pos (x : Q) :
  0 < x ->
  nearest x
  = inject_Z (py_round (x / 2 ^ (Z.max (ilog2 x) (-1022) - 52)))
    * 2 ^ (Z.max (ilog2 x) (-1022) - 52).
Proof.
  intros Hx. unfold nearest, ulp.
  destruct (Qeq_bool x 0) eqn:E.
  - apply Qeq_bool_iff in E. lra.
  - rewrite Qabs_nonneg_eq by lra. reflexivity.
Qed.

Lemma nearest_zero (x : Q) : x == 0 -> nearest x = 0.
Proof.
  intros H. unfold nearest.
  destruct (Qeq_bool x 0) eqn:E; [reflexivity|].
  apply Qeq_bool_neq in E. contradiction.
Qed.

(** Rounding does not pass a double: below. *)
Lemma nearest_lower (a t : Z) (x : Q) :
  (0 <= a <= 2 ^ 53)%Z -> (-1074 <= t)%Z ->
  inject_Z a * 2 ^ t <= x -> inject_Z a * 2 ^ t <= nearest x.
Proof.
  intros Ha Ht Hz.
  assert (Hz0 : 0 <= inject_Z a * 2 ^ t).
  { apply Qmult_le_0_compat; [|apply Qlt_le_weak, pow2_pos].
    change 0 with (inject_Z 0). rewrite <- Zle_Qle. lia. }
  destruct (Qlt_le_dec 0 x) as [Hx|Hx].
  2:{ rewrite nearest_zero by lra. lra. }
  rewrite (nearest_pos x Hx).
  set (E := Z.max (ilog2 x) (-1022)).
  set (u := 2 ^ (E - 52)).
  assert (Hu : 0 < u) by apply pow2_pos.
  destruct (Z_le_gt_dec (E - 52) t) as [Hcase|Hcase].
  - set (m := (a * 2 ^ (t - (E - 52)))%Z).
    assert (Em : inject_Z m * u == inject_Z a * 2 ^ t).
    { unfold m, u. rewrite inject_Z_mult, pow2_Z by lia.
      rewrite <- Qmult_assoc, <- pow2_plus.
      replace (t - (E - 52) + (E - 52))%Z with t by lia. reflexivity. }
    rewrite <- Em. apply Qmult_le_compat_r; [|lra].
    rewrite <- Zle_Qle. apply py_round_lower.
    apply Qle_shift_div_l; [exact Hu|]. rewrite Em. exact Hz.
  - assert (HE : E = ilog2 x) by (unfold E in *; lia).
    destruct (ilog2_spec x Hx) as [Hlo _]. rewrite <- HE in Hlo.
    assert (E52 : inject_Z (2 ^ 52) * u == 2 ^ E).
    { unfold u. rewrite pow2_Z by lia. rewrite <- pow2_plus.
      replace (52 + (E - 52))%Z with E by lia. reflexivity. }
    assert (Hr : (2 ^ 52 <= py_round (x / u))%Z).
    { apply py_round_lower. apply Qle_shift_div_l; [exact Hu|].
      rewrite E52. exact Hlo. }
    rewrite Zle_Qle in Hr.
    assert (H1 : inject_Z (2 ^ 52) * u
                 <= inject_Z (py_round (x / u)) * u)
      by (apply Qmult_le_compat_r; [exact Hr | lra]).
    assert (H2 : inject_Z a * 2 ^ t <= 2 ^ E).
    { eapply Qle_trans; [|apply (pow2_le (53 + t)); lia].
      rewrite pow2_plus, <- (pow2_Z 53) by lia.
      apply Qmult_le_compat_r; [|apply Qlt_le_weak, pow2_pos].
      rewrite <- Zle_Qle. lia. }
    lra.
Qed.

(** Rounding does not pass a double: above. *)
Lemma nearest_upper (a t : Z) (x : Q) :
  (0 <= a <= 2 ^ 53)%Z -> (-1074 <= t)%Z ->
  0 <= x -> x <= inject_Z a * 2 ^ t -> nearest x <= inject_Z a * 2 ^ t.
Proof.
  intros Ha Ht Hx0 Hz.
  destruct (Qlt_le_dec 0 x) as [Hx|Hx].
  2:{ rewrite nearest_zero by lra. lra. }
  rewrite (nearest_pos x Hx).
  set (E := Z.max (ilog2 x) (-1022)).
  set (u := 2 ^ (E - 52)).
  assert (Hu : 0 < u) by apply pow2_pos.
  destruct (Z_le_gt_dec (E - 52) t) as [Hcase|Hcase].
  - set (m := (a * 2 ^ (t - (E - 52)))%Z).
    assert (Em : inject_Z m * u == inject_Z a * 2 ^ t).
    { unfold m, u. rewrite inject_Z_mult, pow2_Z by lia.
      rewrite <- Qmult_assoc, <- pow2_plus.
      replace (t - (E - 52) + (E - 52))%Z with t by lia. reflexivity. }
    rewrite <- Em. apply Qmult_le_compat_r; [|lra].
    rewrite <- Zle_Qle. apply py_round_upper.
    apply Qle_shift_div_r; [exact Hu|]. rewrite Em. exact Hz.
  - assert (HE : E = ilog2 x) by (unfold E in *; lia).
    destruct (ilog2_spec x Hx) as [Hlo _]. rewrite <- HE in Hlo.
    assert (E52 : inject_Z (2 ^ 52) * u == 2 ^ E).
    { unfold u. rewrite pow2_Z by lia. rewrite <- pow2_plus.
      replace (52 + (E - 52))%Z with E by lia. reflexivity. }
    assert (H2 : inject_Z a * 2 ^ t <= 2 ^ E).
    { eapply Qle_trans; [|apply (pow2_le (53 + t)); lia].
      rewrite pow2_plus, <- (pow2_Z 53) by lia.
      apply Qmult_le_compat_r; [|apply Qlt_le_weak, pow2_pos].
      rewrite <- Zle_Qle. lia. }
    assert (Hr : (py_round (x / u) <= 2 ^ 52)%Z).
    { apply py_round_upper. apply Qle_shift_div_r; [exact Hu|].
      rewrite E52. lra. }
    rewrite Zle_Qle in Hr.
    assert (H1 : inject_Z (py_round (x / u)) * u
                 <= inject_Z (2 ^ 52) * u)
      by (apply Qmult_le_compat_r; [exact Hr | lra]).
    lra.
Qed.

Lemma nearest_nonneg (x : Q) : 0 <= x -> 0 <= nearest x.
Proof.
  intros Hx.
  pose proof (nearest_lower 0 0 x) as H.
  change (inject_Z 0 * 2 ^ 0) with (0 * 1) in H.
  assert (0 * 1 <= nearest x) by (apply H; [lia | lia | lra]).
  lra.
Qed.

(** Rounding moves a value by at most half the spacing. *)
Lemma nearest_error (x : Q) :
  0 < x ->
  x - (1 # 2) * ulp x <= nearest x <= x + (1 # 2) * ulp x.
Proof.
  intros Hx. rewrite (nearest_pos x Hx). unfold ulp.
  rewrite (Qabs_nonneg_eq x) by lra.
  set (u := 2 ^ (Z.max (ilog2 x) (-1022) - 52)).
  assert (Hu : 0 < u) by apply pow2_pos.
  pose proof (py_round_near (x / u)) as [Hlo Hhi].
  assert (Ex : x / u * u == x) by (field; lra).
  apply (Qmult_le_compat_r _ _ u) in Hlo; [|lra].
  apply (Qmult_le_compat_r _ _ u) in Hhi; [|lra].
  assert (E1 : (x / u - (1 # 2)) * u == x - (1 # 2) * u) by (field; lra).
  assert (E2 : (x / u + (1 # 2)) * u == x + (1 # 2) * u) by (field; lra).
  rewrite E1 in Hlo. rewrite E2 in Hhi. split; assumption.
Qed.

End PyFloatFacts.

Section DoubleRange.
Import PyFloat.
Local Open Scope Q_scope.

Lemma nearest_lower_int (a : Z) (x : Q) :
  (0 <= a <= 2 ^ 53)%Z -> inject_Z a <= x -> inject_Z a <= nearest x.
Proof.
  intros Ha Hx. pose proof (nearest_lower a 0 x Ha) as H.
  change (2 ^ 0) with 1 in H.
  assert (inject_Z a * 1 <= nearest x) by (apply H; [lia | lra]).
  lra.
Qed.

Lemma nearest_upper_int (a : Z) (x : Q) :
  (0 <= a <= 2 ^ 53)%Z -> 0 <= x -> x <= inject_Z a ->
  nearest x <= inject_Z a.
Proof.
  intros Ha Hx0 Hx. pose proof (nearest_upper a 0 x Ha) as H.
  change (2 ^ 0) with 1 in H.
  assert (nearest x <= inject_Z a * 1) by (apply H; [lia | lra | lra]).
  lra.
Qed.

Lemma finite_below (x : Q) : 0 <= x -> x < 2 ^ 1024 -> finite x = true.
Proof.
  intros H0 H. unfold finite. rewrite Qabs_nonneg_eq by exact H0.
  destruct (Qle_bool (2 ^ 1024) x) eqn:E; [|reflexivity].
  apply Qle_bool_iff in E. exfalso. revert H E.
  generalize (2 ^ 1024). intros; lra.
Qed.

Lemma infinite_above (x : Q) : 2 ^ 1024 <= x -> finite x = false.
Proof.
  intros H. unfold finite.
  assert (H0 : 0 <= x)
    by (pose proof (pow2_pos 1024); revert H H0;
        generalize (2 ^ 1024); intros; lra).
  rewrite Qabs_nonneg_eq by exact H0.
  apply Qle_bool_iff in H. rewrite H. reflexivity.
Qed.

(** The largest double. *)
Lemma largest_is_finite (x : Q) :
  0 <= x -> x <= inject_Z (2 ^ 53 - 1) * 2 ^ 971 -> finite x = true.
Proof.
  intros H0 H. apply finite_below; [exact H0|].
  eapply Qle_lt_trans; [exact H|].
  assert (E : 2 ^ 1024 == inject_Z (2 ^ 53) * 2 ^ 971).
  { rewrite pow2_Z by lia. rewrite <- pow2_plus. reflexivity. }
  rewrite E. apply Qmult_lt_r; [apply pow2_pos|].
  rewrite <- Zlt_Qlt. lia.
Qed.

(** Between [2 ^ 1023] and [2 ^ 1024] the doubles are [2 ^ 971]
    apart. *)
Lemma nearest_top_binade (n : Z) :
  (2 ^ 1023 <= n < 2 ^ 1024)%Z ->
  nearest (inject_Z n)
  = inject_Z (py_round (inject_Z n / 2 ^ 971)) * 2 ^ 971.
Proof.
  intros [Hlo Hhi].
  rewrite Zle_Qle in Hlo. rewrite Zlt_Qlt in Hhi.
  rewrite pow2_Z in Hlo, Hhi by lia.
  assert (Hx : 0 < inject_Z n)
    by (pose proof (pow2_pos 1023); revert Hlo H;
        generalize (2 ^ 1023); intros; lra).
  rewrite (nearest_pos _ Hx).
  rewrite (ilog2_unique (inject_Z n) 1023 Hlo Hhi).
  reflexivity.
Qed.

(** The conversion of an integer below [2 ^ 1024 - 2 ^ 970]. *)
Lemma of_int_in_range (n : Z) :
  (0 <= n < 2 ^ 1024 - 2 ^ 970)%Z ->
  exists v,
    of_int n = inr v
    /\ 0 <= v <= inject_Z (2 ^ 53 - 1) * 2 ^ 971
    /\ (forall a, (0 <= a <= 2 ^ 53)%Z -> (a <= n)%Z -> inject_Z a <= v).
Proof.
  intros [Hn0 Hn].
  assert (Hx0 : 0 <= inject_Z n)
    by (change 0 with (inject_Z 0); rewrite <- Zle_Qle; exact Hn0).
  assert (Hv0 : 0 <= nearest (inject_Z n)) by (apply nearest_nonneg, Hx0).
  assert (Hv1 : nearest (inject_Z n) <= inject_Z (2 ^ 53 - 1) * 2 ^ 971).
  { destruct (Z_le_gt_dec n ((2 ^ 53 - 1) * 2 ^ 971)) as [Hle|Hgt].
    - apply nearest_upper; [lia | lia | exact Hx0 |].
      rewrite <- (pow2_Z 971), <- inject_Z_mult, <- Zle_Qle by lia.
      exact Hle.
    - rewrite nearest_top_binade by lia.
      apply Qmult_le_compat_r; [|apply Qlt_le_weak, pow2_pos].
      rewrite <- Zle_Qle.
      assert (Hr : (py_round (inject_Z n / 2 ^ 971) < 2 ^ 53)%Z).
      { rewrite Zlt_Qlt.
        eapply Qle_lt_trans; [apply py_round_near|].
        assert (Hlt : inject_Z n + inject_Z (2 ^ 970)
                      < inject_Z (2 ^ 53) * 2 ^ 971).
        { rewrite <- (pow2_Z 971), <- inject_Z_mult, <- inject_Z_plus,
            <- Zlt_Qlt by lia.
          lia. }
        assert (Eh : inject_Z (2 ^ 970) == (1 # 2) * 2 ^ 971).
        { rewrite (pow2_Z 970) by lia.
          change 971%Z with (970 + 1)%Z. rewrite pow2_succ. field. }
        rewrite Eh in Hlt.
        pose proof (pow2_pos 971) as Hu. revert Hlt Hu.
        generalize (2 ^ 971). intros u Hlt Hu.
        assert (E : inject_Z n / u + (1 # 2)
                    == (inject_Z n + (1 # 2) * u) / u) by (field; lra).
        rewrite E. apply Qlt_shift_div_r; [exact Hu | exact Hlt]. }
      lia. }
  exists (nearest (inject_Z n)). split; [|split].
  - unfold of_int. cbv zeta.
    rewrite (largest_is_finite _ Hv0 Hv1). reflexivity.
  - split; assumption.
  - intros a Ha Han. apply nearest_lower_int; [exact Ha|].
    rewrite <- Zle_Qle. exact Han.
Qed.

(** From [2 ^ 1024 - 2 ^ 970] on the conversion overflows. *)
Lemma of_int_overflow (n : Z) :
  (2 ^ 1024 - 2 ^ 970 <= n)%Z -> of_int n = inl OverflowError.
Proof.
  intros Hn.
  assert (Hinf : 2 ^ 1024 <= nearest (inject_Z n)).
  { destruct (Z_le_gt_dec (2 ^ 1024) n) as [Hle|Hgt].
    - assert (H : inject_Z 1 * 2 ^ 1024 <= nearest (inject_Z n)).
      { apply nearest_lower; [lia | lia |].
        change (inject_Z 1) with 1. rewrite Qmult_1_l.
        rewrite <- (pow2_Z 1024), <- Zle_Qle by lia. exact Hle. }
      change (inject_Z 1) with 1 in H. rewrite Qmult_1_l in H. exact H.
    - destruct (Z.eq_dec n (2 ^ 1024 - 2 ^ 970)) as [->|Hne].
      + apply Qle_bool_iff. vm_compute. reflexivity.
      + rewrite nearest_top_binade by lia.
        assert (E : 2 ^ 1024 == inject_Z (2 ^ 53) * 2 ^ 971).
        { rewrite pow2_Z by lia. rewrite <- pow2_plus. reflexivity. }
        rewrite E.
        apply Qmult_le_compat_r; [|apply Qlt_le_weak, pow2_pos].
        rewrite <- Zle_Qle.
        assert (Hr : (2 ^ 53 - 1 < py_round (inject_Z n / 2 ^ 971))%Z).
        { rewrite Zlt_Qlt.
          eapply Qlt_le_trans; [|apply py_round_near].
          assert (Hlt : inject_Z (2 ^ 53 - 1) * 2 ^ 971
                        + inject_Z (2 ^ 970)
                        < inject_Z n).
          { rewrite <- (pow2_Z 971), <- inject_Z_mult, <- inject_Z_plus,
              <- Zlt_Qlt by lia.
            lia. }
          assert (Eh : inject_Z (2 ^ 970) == (1 # 2) * 2 ^ 971).
          { rewrite (pow2_Z 970) by lia.
            change 971%Z with (970 + 1)%Z. rewrite pow2_succ. field. }
          rewrite Eh in Hlt.
          pose proof (pow2_pos 971) as Hu. revert Hlt Hu.
          generalize (2 ^ 971). intros u Hlt Hu.
          assert (E' : inject_Z n / u - (1 # 2)
                       == (inject_Z n - (1 # 2) * u) / u) by (field; lra).
          rewrite E'. apply Qlt_shift_div_l; [exact Hu|].
          revert Hlt. generalize (inject_Z (2 ^ 53 - 1)).
          intros; lra. }
        lia. }
  unfold of_int. cbv zeta. rewrite (infinite_above _ Hinf). reflexivity.
Qed.

End DoubleRange.

(** ** The base scanner *)

Section BaseScannerFacts.
Import PyFloat BaseScanner.
Local Open Scope Q_scope.

Lemma multiplier_range (s : SeverityLevel) :
  1 # 5 <= severity_multipliers s <= 1.
Proof.
  split; apply Qle_bool_iff; destruct s; vm_compute; reflexivity.
Qed.

(** A base score of 501 or more is capped at 100. *)
Lemma calculate_risk_score_capped severity base_score :
  (501 <= base_score < 2 ^ 1024 - 2 ^ 970)%Z ->
  calculate_risk_score severity base_score = inr 100%Z.
Proof.
  intros [Hlo Hhi]. unfold calculate_risk_score. cbv zeta.
  destruct (of_int_in_range base_score) as (v & Hv & [Hv0 Hv1] & Hbelow);
    [lia|].
  rewrite Hv.
  pose proof (multiplier_range severity) as [Hm0 Hm1].
  set (m := severity_multipliers severity) in *.
  assert (H501 : 501 <= v)
    by (change 501 with (inject_Z 501); apply Hbelow; lia).
  assert (Hp0 : v * (1 # 5) <= v * m) by (apply Qmult_le_l; lra).
  assert (Hp1 : v * m <= v * 1) by (apply Qmult_le_l; lra).
  assert (H100 : inject_Z 100 <= nearest (v * m)).
  { apply nearest_lower_int; [lia|]. change (inject_Z 100) with 100. lra. }
  assert (Hfin : finite (nearest (v * m)) = true).
  { apply largest_is_finite.
    - apply nearest_nonneg. lra.
    - apply nearest_upper; [lia | lia | lra |].
      revert Hv1. generalize (inject_Z (2 ^ 53 - 1) * 2 ^ 971).
      intros; lra. }
  unfold mul. cbv zeta. rewrite Hfin. cbn [to_int].
  f_equal. apply Z.min_l. apply py_int_lower; [lia | exact H100].
Qed.

(** Up to 500 the float product truncates as the exact product does. *)
Lemma calculate_risk_score_small severity base_score :
  (0 <= base_score <= 500)%Z ->
  calculate_risk_score severity base_score
  = inr (Z.min 100 (base_score * tenths severity / 10))%Z.
Proof.
  intros Hb.
  assert (Hall :
    forallb
      (fun b =>
         forallb
           (fun s =>
              match calculate_risk_score s (Z.of_nat b) with
              | inr r => (r =? Z.min 100 (Z.of_nat b * tenths s / 10))%Z
              | inl _ => false
              end)
           [CRITICAL; HIGH; MEDIUM; LOW; INFO])
      (seq 0 501) = true) by (vm_compute; reflexivity).
  rewrite forallb_forall in Hall.
  specialize (Hall (Z.to_nat base_score)).
  rewrite in_seq, forallb_forall in Hall.
  specialize (Hall ltac:(lia) severity).
  rewrite Z2Nat.id in Hall by lia.
  destruct (calculate_risk_score severity base_score) as [e|r].
  - discriminate Hall; destruct severity; simpl; tauto.
  - f_equal. apply Z.eqb_eq. apply Hall.
    destruct severity; simpl; tauto.
Qed.

(** The float computation agrees with the exact one on every base
    score that converts to a float. *)
Lemma calculate_risk_score_tenths severity base_score :
  (0 <= base_score < 2 ^ 1024 - 2 ^ 970)%Z ->
  calculate_risk_score severity base_score
  = inr (Z.min 100 (base_score * tenths severity / 10))%Z.
Proof.
  intros [H0 H1].
  destruct (Z_le_gt_dec base_score 500) as [Hs|Hl].
  - apply calculate_risk_score_small. lia.
  - rewrite calculate_risk_score_capped by lia. clear H1. f_equal.
    symmetry. apply Z.min_l.
    destruct severity; cbn [tenths];
      Z.to_euclidean_division_equations; lia.
Qed.

Lemma calculate_risk_score_overflow severity base_score :
  (2 ^ 1024 - 2 ^ 970 <= base_score)%Z ->
  calculate_risk_score severity base_score = inl OverflowError.
Proof.
  intros H. unfold calculate_risk_score. cbv zeta.
  rewrite (of_int_overflow _ H). reflexivity.
Qed.

Lemma split_not_nil sep s : split sep s <> [].
Proof.
  destruct s as [|c s]; simpl; [discriminate|].
  destruct (Ascii.eqb c sep); [discriminate|].
  destruct (split sep s); discriminate.
Qed.

Lemma split_no_slash s : no_slash s = true -> split "/" s = [s].
Proof.
  unfold no_slash. induction s as [|c s IH]; simpl; intros H.
  - reflexivity.
  - apply andb_true_iff in H. destruct H as [Hc Hs].
    apply negb_true_iff in Hc. rewrite Hc, (IH Hs). reflexivity.
Qed.

Lemma split_segment s t :
  no_slash s = true ->
  split "/" (s ++ "/" ++ t)%string = s :: split "/" t.
Proof.
  unfold no_slash. induction s as [|c s IH]; simpl; intros H.
  - reflexivity.
  - apply andb_true_iff in H. destruct H as [Hc Hs].
    apply negb_true_iff in Hc. rewrite Hc.
    change (split "/" (s ++ String "/" t))
      with (split "/" (s ++ "/" ++ t)%string).
    rewrite (IH Hs). reflexivity.
Qed.

(** Splitting at "/" undoes joining with "/". *)
Lemma split_concat segments :
  segments <> [] ->
  Forall (fun s => no_slash s = true) segments ->
  split "/" (String.concat "/" segments) = segments.
Proof.
  intros Hne Hall. induction Hall as [|s rest Hs Hall IH]; [congruence|].
  destruct rest as [|s' rest'].
  - simpl. apply split_no_slash, Hs.
  - change (String.concat "/" (s :: s' :: rest'))
      with (s ++ "/" ++ String.concat "/" (s' :: rest'))%string.
    rewrite (split_segment _ _ Hs), IH by discriminate. reflexivity.
Qed.
End BaseScannerFacts.

(** [calculate_risk_score] multiplies the base score by a float and
    truncates the product.  A base score from 0 up to, but excluding,
    [2 ^ 1024 - 2 ^ 970] converts to a float, and the score returned is
    then the one exact arithmetic gives, [min(100, base * tenths // 10)]
    with the multiplier in tenths: an integer between 0 and 100 that
    does not exceed the base score, that grows with the base score and
    with the severity, and that is the base score capped at 100 for a
    critical finding.  From [2 ^ 1024 - 2 ^ 970] on the conversion of
    the base score raises [OverflowError]. *)
Theorem scanner_risk_score_is_bounded_and_monotone :
  forall (severity : SeverityLevel) (base_score : Z),
    0 <= base_score ->
    (base_score < 2 ^ 1024 - 2 ^ 970 ->
     exists score,
       BaseScanner.calculate_risk_score severity base_score = inr score
       /\ score
          = Z.min 100 (base_score * BaseScanner.tenths severity / 10)
       /\ 0 <= score <= 100
       /\ score <= base_score
       /\ BaseScanner.calculate_risk_score CRITICAL base_score
          = inr (Z.min 100 base_score)
       /\ (forall higher score',
             base_score <= higher ->
             BaseScanner.calculate_risk_score severity higher
             = inr score' ->
             score <= score')
       /\ (forall graver score',
             Spec.severity_rank severity <= Spec.severity_rank graver ->
             BaseScanner.calculate_risk_score graver base_score
             = inr score' ->
             score <= score'))
    /\ (2 ^ 1024 - 2 ^ 970 <= base_score ->
        BaseScanner.calculate_risk_score severity base_score
        = inl PyFloat.OverflowError).
Proof.
  intros severity base_score Hbase.
  split; [|apply calculate_risk_score_overflow].
  intros Hrange.
  exists (Z.min 100 (base_score * BaseScanner.tenths severity / 10)).
  split; [apply calculate_risk_score_tenths; lia|].
  split; [reflexivity|].
  split; [|split; [|split; [|split]]].
  - clear Hrange.
    destruct severity; cbn [BaseScanner.tenths];
      Z.to_euclidean_division_equations; lia.
  - clear Hrange.
    destruct severity; cbn [BaseScanner.tenths];
      Z.to_euclidean_division_equations; lia.
  - rewrite calculate_risk_score_tenths by lia. clear Hrange.
    cbn [BaseScanner.tenths]. f_equal.
    Z.to_euclidean_division_equations. lia.
  - intros higher score' Hhigher Hscore.
    destruct (Z_lt_le_dec higher (2 ^ 1024 - 2 ^ 970)) as [Hin|Hout].
    + rewrite calculate_risk_score_tenths in Hscore by lia.
      injection Hscore as <-. clear Hrange Hin.
      destruct severity; cbn [BaseScanner.tenths];
        Z.to_euclidean_division_equations; lia.
    + rewrite calculate_risk_score_overflow in Hscore by exact Hout.
      discriminate Hscore.
  - intros graver score' Hrank Hscore.
    rewrite calculate_risk_score_tenths in Hscore by lia.
    injection Hscore as <-. clear Hrange.
    destruct severity, graver; cbn [Spec.severity_rank] in Hrank;
      try lia; cbn [BaseScanner.tenths];
      Z.to_euclidean_division_equations; lia.
Qed.

Lemma scanner_risk_score_is_bounded_and_monotone_witness :
  0 <= 80
  /\ 80 < 2 ^ 1024 - 2 ^ 970
  /\ BaseScanner.calculate_risk_score HIGH 80 = inr 64
  /\ BaseScanner.calculate_risk_score HIGH (2 ^ 1024 - 2 ^ 970)
     = inl PyFloat.OverflowError.
Proof.
  assert (H0 : 0 <= 80) by lia.
  assert (H1 : 80 < 2 ^ 1024 - 2 ^ 970) by reflexivity.
  split; [exact H0|]. split; [exact H1|]. split.
  - destruct (proj1 (scanner_risk_score_is_bounded_and_monotone
                       HIGH 80 H0) H1)
      as (score & Hscore & -> & _).
    exact Hscore.
  - apply (proj2 (scanner_risk_score_is_bounded_and_monotone
                    HIGH (2 ^ 1024 - 2 ^ 970) ltac:(discriminate))).
    apply Z.le_refl.
Defined.

(** [get_resource_id_parts] reads the segments 2, 4, 6, 7 and 8 of the
    id split at "/", and the empty string where the id is too short.
    For an id /subscriptions/S/resourceGroups/G/providers/P/T/N whose
    components hold no "/" it returns S, G, P, T and N. *)
Theorem resource_id_parts_are_the_segments :
  (forall segments : list string,
     segments <> [] ->
     Forall (fun s => BaseScanner.no_slash s = true) segments ->
     BaseScanner.split "/" (String.concat "/" segments) = segments
     /\ BaseScanner.get_resource_id_parts (String.concat "/" segments)
        = BaseScanner.Build_Parts
            (nth 2 segments EmptyString) (nth 4 segments EmptyString)
            (nth 6 segments EmptyString) (nth 7 segments EmptyString)
            (nth 8 segments EmptyString))
  /\ (forall subscription group provider type name : string,
        BaseScanner.no_slash subscription = true ->
        BaseScanner.no_slash group = true ->
        BaseScanner.no_slash provider = true ->
        BaseScanner.no_slash type = true ->
        BaseScanner.no_slash name = true ->
        BaseScanner.get_resource_id_parts
          (Derived.azure_id subscription group provider type name)
        = BaseScanner.Build_Parts subscription group provider type name).
Proof.
  assert (Hgen : forall segments : list string,
     segments <> [] ->
     Forall (fun s => BaseScanner.no_slash s = true) segments ->
     BaseScanner.split "/" (String.concat "/" segments) = segments
     /\ BaseScanner.get_resource_id_parts (String.concat "/" segments)
        = BaseScanner.Build_Parts
            (nth 2 segments EmptyString) (nth 4 segments EmptyString)
            (nth 6 segments EmptyString) (nth 7 segments EmptyString)
            (nth 8 segments EmptyString)).
  { intros segments Hne Hall.
    pose proof (split_concat segments Hne Hall) as Hsplit.
    split; [exact Hsplit|].
    unfold BaseScanner.get_resource_id_parts, BaseScanner.part_at.
    rewrite Hsplit. reflexivity. }
  split; [exact Hgen|].
  intros subscription group provider type name Hs Hg Hp Ht Hn.
  unfold Derived.azure_id.
  destruct (Hgen [""; "subscriptions"; subscription; "resourceGroups";
                  group; "providers"; provider; type; name]%string)
    as [_ Hparts]; [discriminate | | exact Hparts].
  repeat constructor; assumption.
Qed.

Lemma resource_id_parts_are_the_segments_witness :
  BaseScanner.get_resource_id_parts
    "/subscriptions/sub-1/resourceGroups/rg-web/providers/Microsoft.Storage/storageAccounts/logs"
  = BaseScanner.Build_Parts
      "sub-1" "rg-web" "Microsoft.Storage" "storageAccounts" "logs".
Proof.
  apply (proj2 resource_id_parts_are_the_segments
           "sub-1" "rg-web" "Microsoft.Storage" "storageAccounts" "logs")%string;
    reflexivity.
Defined.

(** ** The JSON reporter *)

Section ReporterFacts.
Import JsonReporter.

Lemma sum_of_cons {A : Type} (f : A -> Z) (x : A) (l : list A) :
  sum_of f (x :: l) = f x + sum_of f l.
Proof.
  unfold sum_of. cbn [fold_left].
  assert (H : forall a, fold_left (fun acc y => acc + f y) l a
                        = a + fold_left (fun acc y => acc + f y) l 0).
  { induction l as [|y l IH]; intros a; cbn [fold_left]; [lia|].
    rewrite (IH (a + f y)), (IH (0 + f y)). lia. }
  rewrite H. lia.
Qed.

Lemma dict_get_absent (d : list (SeverityLevel * Z)) s default :
  ~ In s (dict_keys d) -> dict_get severity_eqb d s default = default.
Proof.
  induction d as [|[k v] d IH]; simpl; intros Hnot; [reflexivity|].
  destruct (severity_eqb_spec k s) as [->|]; [tauto|].
  apply IH. tauto.
Qed.

(** Adding the items of one histogram adds its count to every
    severity. *)
Lemma add_histogram_get (h acc : list (SeverityLevel * Z)) s :
  NoDup (dict_keys h) ->
  dict_get severity_eqb
    (fold_left
       (fun counts item =>
          dict_set severity_eqb counts (fst item)
            (dict_get severity_eqb counts (fst item) 0 + snd item))
       h acc) s 0
  = dict_get severity_eqb acc s 0 + dict_get severity_eqb h s 0.
Proof.
  revert acc. induction h as [|[k v] h IH]; intros acc Hnd; simpl.
  - lia.
  - inversion Hnd as [|? ? Hnotin Hnd']; subst.
    rewrite (IH _ Hnd'), (dict_get_set _ severity_eqb_spec).
    destruct (severity_eqb_spec k s) as [->|]; [|lia].
    rewrite (dict_get_absent h s 0 Hnotin). lia.
Qed.

Lemma add_histogram_NoDup (h acc : list (SeverityLevel * Z)) :
  NoDup (dict_keys acc) ->
  NoDup (dict_keys
           (fold_left
              (fun counts item =>
                 dict_set severity_eqb counts (fst item)
                   (dict_get severity_eqb counts (fst item) 0 + snd item))
              h acc)).
Proof.
  revert acc. induction h as [|[k v] h IH]; intros acc Hnd; simpl.
  - exact Hnd.
  - apply IH, (dict_keys_set_NoDup _ severity_eqb_spec), Hnd.
Qed.

Lemma aggregate_fold (scan_results : list ScanResult.t) acc s :
  Forall (fun r => NoDup (dict_keys (ScanResult.findings_by_severity r)))
         scan_results ->
  NoDup (dict_keys acc) ->
  let total :=
    fold_left
      (fun all_severity_counts scan =>
         fold_left
           (fun counts item =>
              dict_set severity_eqb counts (fst item)
                (dict_get severity_eqb counts (fst item) 0 + snd item))
           (ScanResult.findings_by_severity scan) all_severity_counts)
      scan_results acc in
  NoDup (dict_keys total)
  /\ dict_get severity_eqb total s 0
     = dict_get severity_eqb acc s 0
       + sum_of (fun r => dict_get severity_eqb
                            (ScanResult.findings_by_severity r) s 0)
                scan_results.
Proof.
  intros Hall. revert acc.
  induction Hall as [|r rs Hr Hall IH]; intros acc Hacc total.
  - split; [exact Hacc|]. unfold total, sum_of. simpl. lia.
  - unfold total. cbn [fold_left].
    destruct (IH _ (add_histogram_NoDup
                      (ScanResult.findings_by_severity r) acc Hacc))
      as [Hnd Hget].
    split; [exact Hnd|].
    rewrite Hget, (add_histogram_get _ _ _ Hr), sum_of_cons. lia.
Qed.

(** The values of a well-formed histogram add up to the sum of its five
    lookups. *)
Lemma sum_values_by_lookup (d : list (SeverityLevel * Z)) :
  NoDup (dict_keys d) ->
  Spec.sumZ (dict_values d)
  = Spec.sumZ (map (fun s => dict_get severity_eqb d s 0) all_severities).
Proof.
  induction d as [|[k v] d IH]; intros Hnd.
  - reflexivity.
  - inversion Hnd as [|? ? Hnotin Hnd']; subst.
    pose proof (dict_get_absent d k 0 Hnotin) as Hk.
    change (Spec.sumZ (dict_values ((k, v) :: d)))
      with (v + Spec.sumZ (dict_values d)).
    rewrite (IH Hnd').
    unfold all_severities. cbn [map Spec.sumZ fold_right dict_get].
    destruct k; cbn [severity_eqb]; lia.
Qed.

Lemma consistent_histogram_sum r :
  Derived.histogram_consistent r ->
  NoDup (dict_keys (ScanResult.findings_by_severity r))
  /\ Spec.sumZ
       (map (fun s => dict_get severity_eqb
                        (ScanResult.findings_by_severity r) s 0)
            all_severities)
     = len (ScanResult.findings r).
Proof.
  intros [H|[H H']]; rewrite H.
  - split.
    + rewrite histogram_keys. unfold all_severities.
      repeat constructor; simpl; intuition discriminate.
    + rewrite <- counts_sum_to_len. f_equal.
      apply map_ext. intros s. apply histogram_get.
  - rewrite H'. split; [constructor | reflexivity].
Qed.

End ReporterFacts.

(** The multi-scan summary is an error for an empty list.  For a
    non-empty list of Scan Results as [scan_subscription] builds them,
    the aggregated histogram holds, for every severity, the sum of the
    scans' counts, and its values add up to the [total_findings] of the
    summary, which is the total number of findings of the scans. *)
Theorem summary_aggregates_the_histograms :
  JsonReporter.overall_summary [] = None
  /\ (forall scan_results : list ScanResult.t,
        scan_results <> [] ->
        Forall Derived.histogram_consistent scan_results ->
        exists summary,
          JsonReporter.overall_summary scan_results = Some summary
          /\ JsonReporter.total_subscriptions summary = len scan_results
          /\ JsonReporter.total_findings summary
             = JsonReporter.sum_of
                 (fun r => len (ScanResult.findings r)) scan_results
          /\ (forall s,
                dict_get severity_eqb
                         (JsonReporter.findings_by_severity summary) s 0
                = JsonReporter.sum_of
                    (fun r => dict_get severity_eqb
                                (ScanResult.findings_by_severity r) s 0)
                    scan_results)
          /\ Spec.sumZ
               (dict_values (JsonReporter.findings_by_severity summary))
             = JsonReporter.total_findings summary).
Proof.
  split; [reflexivity|].
  intros scan_results Hne Hall.
  destruct scan_results as [|r0 rs0]; [congruence|].
  set (rs := r0 :: rs0) in *.
  eexists. split; [reflexivity|].
  cbn [JsonReporter.total_subscriptions JsonReporter.total_findings
       JsonReporter.findings_by_severity].
  assert (Hnd : Forall (fun r => NoDup (dict_keys
                                          (ScanResult.findings_by_severity r)))
                       rs).
  { eapply Forall_impl; [|exact Hall].
    intros r Hr. apply consistent_histogram_sum, Hr. }
  assert (Hagg : forall s,
    NoDup (dict_keys (JsonReporter.aggregate_severity_counts rs))
    /\ dict_get severity_eqb (JsonReporter.aggregate_severity_counts rs) s 0
       = JsonReporter.sum_of
           (fun r => dict_get severity_eqb
                       (ScanResult.findings_by_severity r) s 0) rs).
  { intros s. destruct (aggregate_fold rs [] s Hnd) as [H1 H2];
      [constructor|].
    unfold JsonReporter.aggregate_severity_counts.
    split; [exact H1 | rewrite H2; simpl; lia]. }
  split; [reflexivity|]. split; [reflexivity|].
  split; [intros s; apply Hagg|].
  rewrite (sum_values_by_lookup _ (proj1 (Hagg CRITICAL))).
  unfold all_severities. cbn [map Spec.sumZ fold_right].
  rewrite !(fun s => proj2 (Hagg s)).
  clear Hnd Hagg Hne. generalize rs Hall. clear.
  intros rs Hall. induction Hall as [|r rs Hr Hall IH].
  - reflexivity.
  - rewrite !sum_of_cons. rewrite <- IH.
    destruct (consistent_histogram_sum r Hr) as [_ Hsum].
    unfold all_severities in Hsum. cbn [map Spec.sumZ fold_right] in Hsum.
    lia.
Qed.

Lemma summary_aggregates_the_histograms_witness :
  exists r1 r2 summary,
    fst (Engine.run_scan Sample.env_partial "sub-1" None)
    = Engine.Returned r1
    /\ fst (Engine.run_scan Sample.env_denied "sub-2" None)
       = Engine.Returned r2
    /\ JsonReporter.overall_summary [r1; r2] = Some summary
    /\ JsonReporter.total_findings summary = 3
    /\ Spec.sumZ (dict_values (JsonReporter.findings_by_severity summary))
       = 3.
Proof.
  do 2 eexists.
  assert (H1 : fst (Engine.run_scan Sample.env_partial "sub-1" None)
               = Engine.Returned _) by (vm_compute; reflexivity).
  assert (H2 : fst (Engine.run_scan Sample.env_denied "sub-2" None)
               = Engine.Returned _) by (vm_compute; reflexivity).
  match type of H1 with _ = Engine.Returned ?a =>
  match type of H2 with _ = Engine.Returned ?b =>
    destruct (proj2 summary_aggregates_the_histograms [a; b])
      as (summary & Hsum & _ & Htotal & _ & Hvalues)
  end end.
  - discriminate.
  - constructor; [left; reflexivity|].
    constructor; [right; split; reflexivity | constructor].
  - exists summary. split; [exact H1|]. split; [exact H2|].
    split; [exact Hsum|]. rewrite Hvalues, Htotal. split; reflexivity.
Defined.

Section AverageFacts.
Import PyFloat JsonReporter.
Local Open Scope Q_scope.

Lemma sum_of_scores_range (scan_results : list ScanResult.t) :
  Forall (fun r => (0 <= ScanResult.risk_score r <= 100)%Z) scan_results ->
  (0 <= sum_of ScanResult.risk_score scan_results
   <= 100 * len scan_results)%Z.
Proof.
  induction 1 as [|r rs Hr _ IH].
  - unfold sum_of, len. simpl. lia.
  - rewrite sum_of_cons, len_cons. lia.
Qed.

Lemma two_decimals_range (z : Z) :
  (0 <= z <= 10000)%Z -> 0 <= z # 100 <= 100.
Proof. intros Hz. unfold Qle. simpl. lia. Qed.

(** Up to 100 the doubles are at most [2 ^ -46] apart. *)
Lemma nearest_close (x : Q) :
  0 <= x <= 100 ->
  x - 2 ^ (-47) <= nearest x <= x + 2 ^ (-47).
Proof.
  intros [H0 H100].
  pose proof (pow2_pos (-47)) as H47.
  destruct (Qlt_le_dec 0 x) as [Hx|Hx].
  2:{ rewrite nearest_zero by lra. revert H47. generalize (2 ^ (-47)).
      intros; lra. }
  pose proof (nearest_error x Hx) as [Hlo Hhi].
  assert (Hulp : ulp x <= 2 * 2 ^ (-47)).
  { rewrite <- pow2_succ. unfold ulp.
    rewrite Qabs_nonneg_eq by exact H0. apply pow2_le.
    destruct (ilog2_spec x Hx) as [Hlog _].
    assert (Hlt : 2 ^ ilog2 x < 2 ^ 7)
      by (eapply Qle_lt_trans; [exact Hlog|];
          change (2 ^ 7) with 128; lra).
    apply Qpower_lt_compat_l_inv in Hlt; [|reflexivity]. lia. }
  revert H47 Hulp Hlo Hhi. generalize (2 ^ (-47)) (ulp x). intros; split; lra.
Qed.

Lemma nearest_score (x : Q) : 0 <= x <= 100 -> 0 <= nearest x <= 100.
Proof.
  intros [H0 H100]. split; [apply nearest_nonneg, H0|].
  change 100 with (inject_Z 100).
  apply nearest_upper_int; [lia | exact H0 | exact H100].
Qed.
End AverageFacts.

(** The average risk score of a multi-scan summary, for scans whose
    risk scores are integers between 0 and 100: the division raises no
    error, and the entry is the double nearest to a number of
    hundredths between 0.00 and 100.00; it lies between 0 and 100 and
    within 0.005, plus the rounding of the two float operations, of the
    mean of the scores. *)
Theorem summary_average_is_a_score :
  forall scan_results : list ScanResult.t,
    scan_results <> [] ->
    Forall (fun r => 0 <= ScanResult.risk_score r <= 100) scan_results ->
    let mean :=
      (inject_Z (JsonReporter.sum_of ScanResult.risk_score scan_results)
       / inject_Z (len scan_results))%Q in
    exists average hundredths,
      JsonReporter.average_risk_score scan_results = Some (inr average)
      /\ 0 <= hundredths <= 10000
      /\ average = PyFloat.nearest (hundredths # 100)
      /\ (0 <= average <= 100)%Q
      /\ (mean - (1 # 200) - 2 ^ (-46) <= average
          <= mean + (1 # 200) + 2 ^ (-46))%Q.
Proof.
  intros scan_results Hne Hall mean.
  pose proof (sum_of_scores_range scan_results Hall) as Hsum.
  assert (Hlen : 0 < len scan_results).
  { destruct scan_results as [|r rs]; [congruence|].
    rewrite len_cons. pose proof (len_nonneg rs). lia. }
  assert (Hmean : (0 <= mean <= 100)%Q).
  { unfold mean.
    assert (HL : (0 < inject_Z (len scan_results))%Q)
      by (change 0%Q with (inject_Z 0); rewrite <- Zlt_Qlt; exact Hlen).
    split.
    - apply Qle_shift_div_l; [exact HL|]. rewrite Qmult_0_l.
      change 0%Q with (inject_Z 0). rewrite <- Zle_Qle. lia.
    - apply Qle_shift_div_r; [exact HL|].
      change 100%Q with (inject_Z 100).
      rewrite <- inject_Z_mult, <- Zle_Qle. lia. }
  set (avg := PyFloat.nearest mean).
  pose proof (nearest_score mean Hmean) as Havg. fold avg in Havg.
  pose proof (nearest_close mean Hmean) as Hclose. fold avg in Hclose.
  set (k := py_round (avg * 100)).
  assert (Hk : 0 <= k <= 10000).
  { split; [apply py_round_lower | apply py_round_upper].
    - change (inject_Z 0) with 0%Q. lra.
    - change (inject_Z 10000) with 10000%Q. lra. }
  pose proof (two_decimals_range k Hk) as Hk100.
  pose proof (py_round2_near avg) as Hnear.
  unfold py_round2 in Hnear. fold k in Hnear.
  exists (PyFloat.nearest (k # 100)), k.
  split.
  { unfold JsonReporter.average_risk_score.
    destruct scan_results as [|r rs]; [congruence|].
    unfold PyFloat.true_div.
    destruct (Z.eqb_spec (len (r :: rs)) 0) as [E|_]; [lia|].
    cbv zeta. fold mean. fold avg.
    rewrite finite_below.
    - reflexivity.
    - apply Havg.
    - eapply Qle_lt_trans; [apply Havg|].
      eapply Qlt_le_trans; [|apply (pow2_le 7 1024); lia].
      reflexivity. }
  split; [exact Hk|]. split; [reflexivity|].
  split; [apply nearest_score, Hk100|].
  pose proof (nearest_close (k # 100) Hk100) as Hclose2.
  assert (E46 : (2 ^ (-46) == 2 * 2 ^ (-47))%Q)
    by (rewrite <- pow2_succ; reflexivity).
  rewrite E46. revert Hclose Hclose2. generalize (2 ^ (-47))%Q.
  intros e Hclose Hclose2. lra.
Qed.

Lemma summary_average_is_a_score_witness :
  let scans := Sample.scan 1 1 :: repeat (Sample.scan 2 0) 39 in
  scans <> []
  /\ Forall (fun r => 0 <= ScanResult.risk_score r <= 100) scans
  /\ (inject_Z (JsonReporter.sum_of ScanResult.risk_score scans)
      / inject_Z (len scans) == 1 # 40)%Q
  /\ exists average,
       JsonReporter.average_risk_score scans = Some (inr average)
       /\ (average == 1080863910568919 # 36028797018963968)%Q.
Proof.
  intros scans.
  assert (Hne : scans <> []) by discriminate.
  assert (Hall : Forall (fun r => 0 <= ScanResult.risk_score r <= 100)
                        scans).
  { constructor; [simpl; lia|].
    apply Forall_forall. intros r Hr. apply repeat_spec in Hr.
    rewrite Hr. simpl. lia. }
  split; [exact Hne|]. split; [exact Hall|].
  split; [vm_compute; reflexivity|].
  destruct (summary_average_is_a_score scans Hne Hall)
    as (average & hundredths & Havg & _).
  exists average. split; [exact Havg|].
  vm_compute in Havg. inversion Havg. vm_compute. reflexivity.
Defined.

Section PriorityFacts.
Import JsonReporter.

Lemma before_urgent a b :
  Spec.before a b -> Urgency.is_urgent b = true ->
  Urgency.is_urgent a = true.
Proof.
  unfold Spec.before, Urgency.is_urgent.
  destruct (SecurityFinding.severity a), (SecurityFinding.severity b);
    simpl; intros H Hb; try reflexivity; try discriminate; lia.
Qed.

Lemma priority_of_urgent f :
  priority_of f = "P1"%string <-> Urgency.is_urgent f = true.
Proof.
  unfold priority_of, Urgency.is_urgent.
  destruct (SecurityFinding.severity f); split; intros H;
    try reflexivity; discriminate.
Qed.

Lemma StronglySorted_map {A B : Type} (R : A -> A -> Prop)
      (R' : B -> B -> Prop) (f : A -> B) (l : list A) :
  (forall x y, R x y -> R' (f x) (f y)) ->
  StronglySorted R l -> StronglySorted R' (map f l).
Proof.
  intros Himp. induction 1 as [|x l Hs IH Hall]; simpl; constructor.
  - exact IH.
  - rewrite Forall_map. eapply Forall_impl; [|exact Hall].
    intros y. apply Himp.
Qed.
End PriorityFacts.

(** [_generate_prioritized_recommendations] lists the first 20 findings
    in priority order (all of them when there are fewer): the findings
    listed, followed by those left out, are the findings as
    [prioritize_findings] arranges them; the listed ones stand in
    priority order, each of them comes before every finding left out,
    and every entry carries the fields of its finding, with priority
    "P1" for a critical or high finding and "P2" otherwise.  In the list
    no "P2" entry stands before a "P1" entry, and whenever a critical or
    high finding is left out, all 20 entries listed are "P1". *)
Theorem prioritized_recommendations_put_urgent_first :
  forall (effort : SecurityFinding.t -> string)
         (findings : list SecurityFinding.t),
    let recs :=
      JsonReporter._generate_prioritized_recommendations effort findings in
    exists listed omitted,
      listed ++ omitted = RiskScoring.prioritize_findings findings
      /\ List.length listed = Nat.min 20 (List.length findings)
      /\ Permutation (listed ++ omitted) findings
      /\ StronglySorted Spec.before listed
      /\ (forall a b, In a listed -> In b omitted -> Spec.before a b)
      /\ Forall2
           (fun r f =>
              JsonReporter.priority r
              = (if Urgency.is_urgent f then "P1" else "P2")%string
              /\ JsonReporter.finding_id r = SecurityFinding.id f
              /\ JsonReporter.resource r = SecurityFinding.resource_name f
              /\ JsonReporter.issue r = SecurityFinding.title f
              /\ JsonReporter.recommendation r
                 = SecurityFinding.recommendation f
              /\ JsonReporter.risk_score r = SecurityFinding.risk_score f
              /\ JsonReporter.estimated_effort r = effort f)
           recs listed
      /\ map JsonReporter.finding_id recs = map SecurityFinding.id listed
      /\ List.length recs = Nat.min 20 (List.length findings)
      /\ StronglySorted
           (fun a b => JsonReporter.priority b = "P1"%string ->
                       JsonReporter.priority a = "P1"%string) recs
      /\ (forall f, In f omitted -> Urgency.is_urgent f = true ->
            Forall (fun r => JsonReporter.priority r = "P1"%string) recs).
Proof.
  intros effort findings recs.
  exists (firstn 20 (RiskScoring.prioritize_findings findings)),
         (skipn 20 (RiskScoring.prioritize_findings findings)).
  pose proof (prioritize_sorted findings) as Hs.
  pose proof (prioritize_perm findings) as Hp.
  rewrite <- (firstn_skipn 20 (RiskScoring.prioritize_findings findings))
    in Hs.
  apply StronglySorted_app_inv in Hs. destruct Hs as (H1 & _ & H12).
  unfold recs, JsonReporter._generate_prioritized_recommendations.
  split; [apply firstn_skipn|].
  split; [rewrite length_firstn, (Permutation_length Hp); reflexivity|].
  split; [rewrite firstn_skipn; exact Hp|].
  split; [exact H1|].
  split; [exact H12|].
  split.
  { clear. induction (firstn 20 (RiskScoring.prioritize_findings findings))
      as [|f l IH]; simpl; [constructor|].
    constructor; [|exact IH].
    cbn [JsonReporter.priority JsonReporter.finding_id
         JsonReporter.resource JsonReporter.issue
         JsonReporter.recommendation JsonReporter.risk_score
         JsonReporter.estimated_effort].
    repeat split.
    unfold JsonReporter.priority_of, Urgency.is_urgent.
    destruct (SecurityFinding.severity f); reflexivity. }
  split; [rewrite map_map; reflexivity|].
  split; [rewrite length_map, length_firstn, (Permutation_length Hp);
          reflexivity|].
  split.
  - eapply StronglySorted_map; [|exact H1].
    intros x y Hxy. cbn [JsonReporter.priority].
    rewrite !priority_of_urgent. apply before_urgent, Hxy.
  - intros f Hf Hurgent. rewrite Forall_map. apply Forall_forall.
    intros g Hg. cbn [JsonReporter.priority].
    apply priority_of_urgent.
    apply (before_urgent g f); [apply H12; assumption | exact Hurgent].
Qed.

(** ** The trend does not depend on the order of the scans *)

Section TrendOrder.
Import RiskScoring.

Lemma NoDup_map_injective {A B : Type} (f : A -> B) (l : list A) :
  NoDup (map f l) ->
  forall x y, In x l -> In y l -> f x = f y -> x = y.
Proof.
  induction l as [|a l IH]; simpl; intros Hnd x y Hx Hy Hxy; [contradiction|].
  inversion Hnd as [|? ? Hnotin Hnd']; subst.
  destruct Hx as [<-|Hx], Hy as [<-|Hy].
  - reflexivity.
  - exfalso. apply Hnotin. rewrite Hxy. apply in_map, Hy.
  - exfalso. apply Hnotin. rewrite <- Hxy. apply in_map, Hx.
  - apply IH; assumption.
Qed.

(** Two sorted arrangements of the same elements coincide when no two
    distinct elements are tied. *)
Lemma sorted_arrangement_unique {A : Type} (R : A -> A -> Prop)
      (l l' : list A) :
  StronglySorted R l -> StronglySorted R l' -> Permutation l l' ->
  (forall x y, In x l -> In y l -> R x y -> R y x -> x = y) ->
  l = l'.
Proof.
  intros Hs. revert l'.
  induction Hs as [|x t Ht IH Hall]; intros l' Hs' Hperm Hanti.
  - apply Permutation_nil in Hperm. congruence.
  - destruct l' as [|y t'];
      [apply Permutation_sym, Permutation_nil in Hperm; discriminate|].
    inversion Hs' as [|? ? Ht' Hall']; subst.
    assert (Hxy : x = y).
    { assert (Hx : In x (y :: t'))
        by (eapply Permutation_in; [exact Hperm | left; reflexivity]).
      assert (Hy : In y (x :: t))
        by (eapply Permutation_in;
            [apply Permutation_sym; exact Hperm | left; reflexivity]).
      destruct Hx as [->|Hx]; [reflexivity|].
      destruct Hy as [->|Hy]; [reflexivity|].
      rewrite Forall_forall in Hall, Hall'.
      apply Hanti; [left; reflexivity | right; exact Hy | auto | auto]. }
    subst y. f_equal. apply IH; [exact Ht'| |].
    + eapply Permutation_cons_inv. exact Hperm.
    + intros a b Ha Hb. apply Hanti; right; assumption.
Qed.

Lemma sort_recent_sorted scan_results :
  StronglySorted
    (fun x y => ScanResult.scan_timestamp y <= ScanResult.scan_timestamp x)
    (sort_recent scan_results).
Proof.
  eapply StronglySorted_impl;
    [|apply (sorted_sorted ScanResult.scan_timestamp (fun a b => b <=? a))].
  - intros x y H. apply Z.leb_le in H. exact H.
  - intros a b H. apply Z.leb_gt in H. apply Z.leb_le. lia.
  - intros a b c H1 H2. apply Z.leb_le in H1, H2. apply Z.leb_le. lia.
Qed.
End TrendOrder.

(** When the scans have pairwise different timestamps, the trend is the
    same in whatever order the scans are passed. *)
Theorem risk_trend_ignores_input_order :
  forall scans scans' : list ScanResult.t,
    Permutation scans scans' ->
    NoDup (map ScanResult.scan_timestamp scans) ->
    RiskScoring.calculate_subscription_risk_trend scans
    = RiskScoring.calculate_subscription_risk_trend scans'.
Proof.
  intros scans scans' Hperm Hnd.
  assert (Hsort : RiskScoring.sort_recent scans
                  = RiskScoring.sort_recent scans').
  { apply (sorted_arrangement_unique
             (fun x y => ScanResult.scan_timestamp y
                         <= ScanResult.scan_timestamp x)).
    - apply sort_recent_sorted.
    - apply sort_recent_sorted.
    - unfold RiskScoring.sort_recent.
      eapply perm_trans; [apply sorted_perm|].
      eapply perm_trans; [exact Hperm|].
      apply Permutation_sym, sorted_perm.
    - intros x y Hx Hy Hxy Hyx.
      apply (NoDup_map_injective ScanResult.scan_timestamp scans Hnd).
      + eapply Permutation_in; [|exact Hx].
        unfold RiskScoring.sort_recent. apply sorted_perm.
      + eapply Permutation_in; [|exact Hy].
        unfold RiskScoring.sort_recent. apply sorted_perm.
      + lia. }
  unfold RiskScoring.calculate_subscription_risk_trend.
  unfold len. rewrite (Permutation_length Hperm), Hsort. reflexivity.
Qed.

Lemma risk_trend_ignores_input_order_witness :
  let a := Sample.scan 10 30 in
  let b := Sample.scan 20 32 in
  let c := Sample.scan 30 40 in
  Permutation [a; b; c] [c; a; b]
  /\ RiskScoring.calculate_subscription_risk_trend [a; b; c]
     = RiskScoring.calculate_subscription_risk_trend [c; a; b].
Proof.
  intros a b c.
  assert (Hperm : Permutation [a; b; c] [c; a; b]).
  { apply Permutation_sym. apply (Permutation_cons_app [a; b] [] c).
    rewrite app_nil_r. apply Permutation_refl. }
  split; [exact Hperm|].
  apply (risk_trend_ignores_input_order _ _ Hperm).
  repeat constructor; simpl; intuition discriminate.
Defined.

(** ** Diagnostics of the scanner loop *)

Section Reports.
Import Engine Observed.

Lemma loop_events_reports env subscription_id scanners_to_run :
  filter Derived.is_report (loop_events env subscription_id scanners_to_run)
  = Derived.failure_reports env subscription_id scanners_to_run
  /\ filter (fun ev => negb (is_scan ev) && negb (Derived.is_report ev))
            (loop_events env subscription_id scanners_to_run)
     = [].
Proof.
  unfold loop_events, Derived.failure_reports.
  induction scanners_to_run as [|entry rest [IH1 IH2]]; simpl.
  - split; reflexivity.
  - rewrite !filter_app, IH1, IH2. unfold events_of.
    destruct (scanner_scan env (snd entry) subscription_id);
      split; reflexivity.
Qed.
End Reports.

(** In a scan whose access check succeeds, each selected scanner that
    raises is reported once, with its resource type and the message of
    the exception, in the order the scanners ran, and nothing else is
    printed.  Besides the scanner calls and these reports, the scan
    reads the clock, checks access once, calls the directory once, and
    reads the two clocks at the end, whatever the scanners do. *)
Theorem scanner_failures_are_reported_once :
  forall (env : Engine.Env) (subscription_id : string)
         (scan_request : option ScanRequest.t),
    Engine.validate_access env subscription_id = true ->
    exists result trace,
      Engine.run_scan env subscription_id scan_request
      = (Engine.Returned result, trace)
      /\ filter Derived.is_report trace
         = Derived.failure_reports env subscription_id
             (Engine._get_scanners_to_run scan_request)
      /\ filter (fun ev => negb (Observed.is_scan ev)
                           && negb (Derived.is_report ev)) trace
         = [Engine.EvTime; Engine.EvValidateAccess subscription_id;
            Engine.EvListSubscriptions; Engine.EvTime; Engine.EvUtcNow].
Proof.
  intros env subscription_id scan_request Haccess.
  destruct (scan_granted env subscription_id scan_request Haccess)
    as (name & now & duration & Hrun).
  destruct (loop_events_reports env subscription_id
              (Engine._get_scanners_to_run scan_request)) as [H1 H2].
  do 2 eexists. split; [exact Hrun|]. split.
  - cbn [app filter Derived.is_report]. rewrite filter_app, H1.
    cbn. apply app_nil_r.
  - cbn [app filter Derived.is_report Observed.is_scan negb andb].
    rewrite filter_app, H2. reflexivity.
Qed.

Lemma scanner_failures_are_reported_once_witness :
  Engine.validate_access Sample.env_partial "sub-1" = true
  /\ exists result trace,
       Engine.run_scan Sample.env_partial "sub-1" None
       = (Engine.Returned result, trace)
       /\ filter Derived.is_report trace
          = [Engine.EvPrintScannerError STORAGE_ACCOUNT
               "storage client timed out"].
Proof.
  split; [reflexivity|].
  destruct (scanner_failures_are_reported_once
              Sample.env_partial "sub-1" None eq_refl)
    as (result & trace & Hrun & Hreports & _).
  exists result, trace. split; [exact Hrun|].
  rewrite Hreports. reflexivity.
Defined.

(** ** The severity filter, composed *)

Section FilterFacts.
Import Engine.

Lemma count_filter s threshold findings :
  Spec.count s (_filter_findings_by_severity findings threshold)
  = if Spec.severity_rank threshold <=? Spec.severity_rank s
    then Spec.count s findings else 0.
Proof.
  unfold _filter_findings_by_severity.
  induction findings as [|f l IH].
  - simpl. unfold Spec.count, len. simpl.
    destruct (_ <=? _); reflexivity.
  - cbn [filter].
    change (severity_order threshold) with (Spec.severity_rank threshold)
      in *.
    change (severity_order (SecurityFinding.severity f))
      with (Spec.severity_rank (SecurityFinding.severity f)).
    destruct (Spec.severity_rank threshold
              <=? Spec.severity_rank (SecurityFinding.severity f)) eqn:Ef.
    + rewrite !count_cons, IH.
      destruct (severity_eqb_spec (SecurityFinding.severity f) s) as [<-|].
      * rewrite Ef. reflexivity.
      * destruct (_ <=? _); reflexivity.
    + rewrite count_cons, IH.
      destruct (severity_eqb_spec (SecurityFinding.severity f) s) as [<-|].
      * rewrite Ef. pose proof (count_nonneg (SecurityFinding.severity f) l).
        reflexivity.
      * destruct (_ <=? _); lia.
Qed.
End FilterFacts.

(** Filtering twice is filtering once at the graver of the two
    thresholds; in particular the filter is idempotent, and raising the
    threshold only removes findings. *)
Theorem severity_filters_compose :
  forall (findings : list SecurityFinding.t) (t1 t2 : SeverityLevel),
    Engine._filter_findings_by_severity
      (Engine._filter_findings_by_severity findings t1) t2
    = Engine._filter_findings_by_severity findings (Derived.graver t1 t2)
    /\ Engine._filter_findings_by_severity
         (Engine._filter_findings_by_severity findings t1) t1
       = Engine._filter_findings_by_severity findings t1
    /\ incl (Engine._filter_findings_by_severity
               findings (Derived.graver t1 t2))
            (Engine._filter_findings_by_severity findings t1).
Proof.
  intros findings t1 t2.
  assert (Hcomp : forall a b,
    Engine._filter_findings_by_severity
      (Engine._filter_findings_by_severity findings a) b
    = Engine._filter_findings_by_severity findings (Derived.graver a b)).
  { intros a b. unfold Engine._filter_findings_by_severity.
    induction findings as [|f l IH]; [reflexivity|].
    cbn [filter].
    assert (Hf :
      (Engine.severity_order (Derived.graver a b)
       <=? Engine.severity_order (SecurityFinding.severity f))
      = (Engine.severity_order a
         <=? Engine.severity_order (SecurityFinding.severity f))
        && (Engine.severity_order b
            <=? Engine.severity_order (SecurityFinding.severity f))).
    { destruct (SecurityFinding.severity f), a, b; reflexivity. }
    rewrite Hf.
    destruct (Engine.severity_order a
              <=? Engine.severity_order (SecurityFinding.severity f));
      cbn [andb filter]; [|exact IH].
    destruct (Engine.severity_order b
              <=? Engine.severity_order (SecurityFinding.severity f));
      [f_equal|]; exact IH. }
  split; [apply Hcomp | split].
  - rewrite Hcomp. destruct t1; reflexivity.
  - rewrite <- Hcomp. unfold Engine._filter_findings_by_severity at 1.
    apply incl_filter.
Qed.

(** After the severity filter the histogram keeps the count of every
    severity at or above the threshold and holds 0 for every severity
    below it, so the counts shown always describe the findings kept. *)
Theorem histogram_of_filtered_findings :
  forall (findings : list SecurityFinding.t) (threshold s : SeverityLevel),
    dict_get severity_eqb
      (RiskScoring.get_findings_by_severity
         (Engine._filter_findings_by_severity findings threshold)) s 0
    = if Spec.severity_rank threshold <=? Spec.severity_rank s
      then dict_get severity_eqb
             (RiskScoring.get_findings_by_severity findings) s 0
      else 0.
Proof.
  intros findings threshold s.
  rewrite !histogram_get. apply count_filter.
Qed.

(** ** Prioritising, again and after filtering *)

Section SortedAgain.
Context {A K : Type} (key : A -> K) (leb : K -> K -> bool).
Hypothesis leb_trans :
  forall a b c, leb a b = true -> leb b c = true -> leb a c = true.

Let le_key (x y : A) : Prop := leb (key x) (key y) = true.

Lemma insert_stable_head (x : A) (l : list A) :
  Forall (le_key x) l -> insert_stable key leb x l = x :: l.
Proof.
  intros Hall. destruct Hall as [|y l Hy _]; simpl; [reflexivity|].
  unfold le_key in Hy. rewrite Hy. reflexivity.
Qed.

(** Sorting a sorted list changes nothing. *)
Lemma sorted_fixed (l : list A) :
  StronglySorted le_key l -> sorted key leb l = l.
Proof.
  induction 1 as [|x l Hs IH Hall]; simpl; [reflexivity|].
  rewrite IH. apply insert_stable_head, Hall.
Qed.

Lemma insert_stable_filter_sorted (p : A -> bool) (x : A) (s : list A) :
  StronglySorted le_key s ->
  filter p (insert_stable key leb x s)
  = if p x then insert_stable key leb x (filter p s) else filter p s.
Proof.
  induction 1 as [|y r Hs IH Hall]; simpl.
  - destruct (p x); reflexivity.
  - destruct (leb (key x) (key y)) eqn:Hxy.
    + cbn [filter]. destruct (p x); [|reflexivity].
      symmetry. apply insert_stable_head.
      assert (Hyr : Forall (le_key x) (y :: r)).
      { constructor; [exact Hxy|].
        eapply Forall_impl; [|exact Hall].
        intros z Hz. unfold le_key in *. eauto. }
      apply Forall_forall. intros z Hz.
      rewrite Forall_forall in Hyr. apply Hyr.
      apply (incl_filter p (y :: r)), Hz.
    + cbn [filter]. rewrite IH.
      destruct (p y), (p x); try reflexivity.
      simpl. rewrite Hxy. reflexivity.
Qed.
End SortedAgain.

Section SortedCommute.
Context {A K : Type} (key : A -> K) (leb : K -> K -> bool).
Hypothesis leb_total : forall a b, leb a b = false -> leb b a = true.
Hypothesis leb_trans :
  forall a b c, leb a b = true -> leb b c = true -> leb a c = true.

(** Sorting what a filter keeps is filtering the sorted list. *)
Lemma sorted_filter_commute (p : A -> bool) (l : list A) :
  sorted key leb (filter p l) = filter p (sorted key leb l).
Proof.
  induction l as [|x l IH]; simpl; [reflexivity|].
  rewrite (insert_stable_filter_sorted key leb leb_trans p x
             (sorted key leb l) (sorted_sorted key leb leb_total leb_trans l)).
  destruct (p x); simpl; rewrite IH; reflexivity.
Qed.
End SortedCommute.

(** Prioritising an already prioritised list changes nothing, and
    prioritising commutes with the severity filter: the prioritised
    findings of a filtered scan are the filtered prioritised findings of
    the unfiltered scan. *)
Theorem prioritize_is_idempotent_and_commutes_with_filter :
  forall (findings : list SecurityFinding.t) (threshold : SeverityLevel),
    RiskScoring.prioritize_findings
      (RiskScoring.prioritize_findings findings)
    = RiskScoring.prioritize_findings findings
    /\ RiskScoring.prioritize_findings
         (Engine._filter_findings_by_severity findings threshold)
       = Engine._filter_findings_by_severity
           (RiskScoring.prioritize_findings findings) threshold.
Proof.
  intros findings threshold. split.
  - unfold RiskScoring.prioritize_findings at 1.
    apply sorted_fixed.
    unfold RiskScoring.prioritize_findings.
    apply sorted_sorted; [apply pair_leb_total | apply pair_leb_trans].
  - unfold RiskScoring.prioritize_findings,
      Engine._filter_findings_by_severity.
    apply sorted_filter_commute;
      [apply pair_leb_total | apply pair_leb_trans].
Qed.

(** ** The command line *)

(** The command line labels every score as the scoring engine does, and
    its colour is determined by that label: red for "Critical", yellow
    for "High", blue for "Medium", green for "Low" and "Minimal".  For
    the risk score of a Scan Result this leaves green (no finding) and
    red (some finding). *)
Theorem cli_labels_agree_with_the_engine :
  (forall score : Z,
     Cli._get_risk_level score = RiskScoring.get_risk_level score
     /\ Cli._get_risk_color score
        = Cli.color_of_level (RiskScoring.get_risk_level score))
  /\ (forall findings : list SecurityFinding.t,
        Cli._get_risk_color
          (RiskScoring.calculate_overall_risk_score findings)
        = match findings with
          | [] => "green"%string
          | _ :: _ => "red"%string
          end).
Proof.
  split.
  - intros score. split; [reflexivity|].
    unfold Cli._get_risk_color, RiskScoring.get_risk_level.
    destruct (80 <=? score); [reflexivity|].
    destruct (60 <=? score); [reflexivity|].
    destruct (40 <=? score); [reflexivity|].
    destruct (20 <=? score); reflexivity.
  - intros [|f l]; [reflexivity|].
    rewrite overall_score_nonempty. reflexivity.
Qed.
